(** * Budget and dayparting enforcement: campaign state, spend tracking, sweeps

    A shallow embedding of the Django models and services of the budget
    management system (campaigns/models.py, spending/models.py,
    spending/services.py, scheduling/models.py, scheduling/services.py).

    Conventions of the embedding.
    - A [Decimal] amount with two decimal places is an integer number of
      hundredths, in [Z].
    - A [datetime] is a proleptic ordinal day and a time of day; Python's
      [date.weekday()] is [(toordinal + 6) % 7] (0 = Monday).
    - The database is an explicit value [DB.t] threaded through every call.
      The campaigns table is a finite map keyed by the primary key, the
      schedules table a list in storage order, the spends table a finite map.
    - A model instance held in memory is a record value; a method that mutates
      [self] returns the mutated instance next to its result.
    - An exception is the [Raise] alternative of [result]; a method that
      raises still returns the instance and the database as they are at the
      point of the raise.
    - A Campaign instance is one that has been saved: it was loaded from the
      campaigns table or created through the manager, its [_state.adding] is
      False, and [save(update_fields=...)] is an UPDATE. An instance whose
      key is not in the table is one whose row has been deleted since.
    - A [DecimalField(max_digits=10, decimal_places=2)] column takes the
      hundredths of absolute value below 10^10. The counters of a campaign
      are checked against it when they are written; the amount of a Spend is
      taken to fit its column.
    - Foreign keys are deferred constraints: outside a transaction the INSERT
      itself fails on a dangling key, inside [transaction.atomic()] the
      commit does. A service method is entered with no transaction open.
    - One service call reads the clock as a single instant [now]. *)

From stdpp Require Import gmap list strings.
From Stdlib Require Import ZArith Lia.

Local Open Scope Z_scope.

(** ** Exceptions and results *)

Inductive exn : Type :=
  | ValueError               (* raise ValueError("Spend amount must be positive") *)
  | DatabaseError            (* save(update_fields=...) that affected no row *)
  | IntegrityError           (* primary-key or foreign-key violation *)
  | InvalidOperation         (* decimal.InvalidOperation: value beyond max_digits *)
  | MultipleObjectsReturned. (* QuerySet.get() matching more than one row *)

Inductive result (A : Type) : Type :=
  | Ok (a : A)
  | Raise (e : exn).
Arguments Ok {A} a.
Arguments Raise {A} e.

Definition is_ok {A} (r : result A) : bool :=
  match r with Ok _ => true | Raise _ => false end.

(** ** Time *)

Record datetime : Type := mk_datetime
  { toordinal : Z;      (* date part, as date.toordinal() *)
    time_of_day : Z }.  (* time part, microseconds since midnight *)

(** [datetime.weekday()]: 0 = Monday .. 6 = Sunday. *)
Definition weekday (now : datetime) : Z := (toordinal now + 6) mod 7.

Abbreviation UUID := N (only parsing).

(** ** brands/models.py *)

Module Brand.
Record t : Type := mk
  { id : UUID;
    daily_budget : Z;
    monthly_budget : Z }.
End Brand.

(** ** campaigns/models.py *)

Inductive CampaignStatus : Type := ACTIVE | PAUSED.

Inductive PauseReason : Type :=
  | DAILY_BUDGET_EXCEEDED
  | MONTHLY_BUDGET_EXCEEDED
  | OUTSIDE_SCHEDULE
  | NO_SCHEDULE
  | MANUAL.

#[global] Instance CampaignStatus_eq_dec : EqDecision CampaignStatus.
Proof. solve_decision. Defined.
#[global] Instance PauseReason_eq_dec : EqDecision PauseReason.
Proof. solve_decision. Defined.

(** The columns named in [update_fields]. *)
Inductive Field : Type :=
  | F_status | F_pause_reason | F_paused_at
  | F_daily_spend | F_monthly_spend | F_updated_at.

#[global] Instance Field_eq_dec : EqDecision Field.
Proof. solve_decision. Defined.

Module Campaign.
(** A saved Campaign instance; [brand] is the related Brand object the
    foreign key resolves to. [name] and [created_at] are never read by the
    modelled code and are left out. *)
Record t : Type := mk
  { id : UUID;
    brand : Brand.t;
    status : CampaignStatus;
    daily_spend : Z;
    monthly_spend : Z;
    pause_reason : option PauseReason;
    paused_at : option datetime;
    updated_at : datetime }.

Definition set_id (v : UUID) (c : t) : t :=
  mk v (brand c) (status c) (daily_spend c) (monthly_spend c)
     (pause_reason c) (paused_at c) (updated_at c).
Definition set_status (v : CampaignStatus) (c : t) : t :=
  mk (id c) (brand c) v (daily_spend c) (monthly_spend c)
     (pause_reason c) (paused_at c) (updated_at c).
Definition set_daily_spend (v : Z) (c : t) : t :=
  mk (id c) (brand c) (status c) v (monthly_spend c)
     (pause_reason c) (paused_at c) (updated_at c).
Definition set_monthly_spend (v : Z) (c : t) : t :=
  mk (id c) (brand c) (status c) (daily_spend c) v
     (pause_reason c) (paused_at c) (updated_at c).
Definition set_pause_reason (v : option PauseReason) (c : t) : t :=
  mk (id c) (brand c) (status c) (daily_spend c) (monthly_spend c)
     v (paused_at c) (updated_at c).
Definition set_paused_at (v : option datetime) (c : t) : t :=
  mk (id c) (brand c) (status c) (daily_spend c) (monthly_spend c)
     (pause_reason c) v (updated_at c).
Definition set_updated_at (v : datetime) (c : t) : t :=
  mk (id c) (brand c) (status c) (daily_spend c) (monthly_spend c)
     (pause_reason c) (paused_at c) v.

(** Copy column [f] of the instance [self] into the stored [row]. *)
Definition copy_field (self : t) (f : Field) (row : t) : t :=
  match f with
  | F_status => set_status (status self) row
  | F_pause_reason => set_pause_reason (pause_reason self) row
  | F_paused_at => set_paused_at (paused_at self) row
  | F_daily_spend => set_daily_spend (daily_spend self) row
  | F_monthly_spend => set_monthly_spend (monthly_spend self) row
  | F_updated_at => set_updated_at (updated_at self) row
  end.

(** def is_active(self) *)
Definition is_active (self : t) : bool := bool_decide (status self = ACTIVE).

(** def is_paused(self) *)
Definition is_paused (self : t) : bool := bool_decide (status self = PAUSED).
End Campaign.

(** ** scheduling/models.py *)

Module Schedule.
Record t : Type := mk
  { id : UUID;
    campaign_id : UUID;
    day_of_week : Z;
    start_time : Z;
    end_time : Z;
    is_active : bool }.

(** def is_time_in_range(self, check_time):
      return bool(self.start_time <= check_time <= self.end_time) *)
Definition is_time_in_range (self : t) (check_time : Z) : bool :=
  (start_time self <=? check_time) && (check_time <=? end_time self).
End Schedule.

(** ** spending/models.py: the Spend record *)

Inductive SpendType : Type := DAILY | MONTHLY.

#[global] Instance SpendType_eq_dec : EqDecision SpendType.
Proof. solve_decision. Defined.

Module Spend.
(** A Spend instance. [pk] is the [id] attribute: [None] only when the
    caller passed [id=None]; [campaign] is the Campaign object the instance
    holds. *)
Record t : Type := mk
  { pk : option UUID;
    campaign : Campaign.t;
    amount : Z;
    spend_date : Z;
    spend_type : SpendType;
    description : option string }.

Definition set_pk (v : option UUID) (s : t) : t :=
  mk v (campaign s) (amount s) (spend_date s) (spend_type s) (description s).
Definition set_campaign (v : Campaign.t) (s : t) : t :=
  mk (pk s) v (amount s) (spend_date s) (spend_type s) (description s).

(** A stored row of the spends table. *)
Record row : Type := mk_row
  { row_campaign_id : UUID;
    row_amount : Z;
    row_spend_date : Z;
    row_spend_type : SpendType;
    row_description : option string }.

Definition to_row (s : t) : row :=
  mk_row (Campaign.id (campaign s)) (amount s) (spend_date s)
         (spend_type s) (description s).
End Spend.

#[global] Instance Spend_row_eq_dec : EqDecision Spend.row.
Proof. solve_decision. Defined.

(** ** The database *)

Module DB.
Record t : Type := mk
  { campaigns : gmap N Campaign.t;
    schedules : list Schedule.t;
    spends : gmap N Spend.row }.

Definition set_campaigns (v : gmap N Campaign.t) (db : t) : t :=
  mk v (schedules db) (spends db).
Definition set_spends (v : gmap N Spend.row) (db : t) : t :=
  mk (campaigns db) (schedules db) v.

(** An instance loaded from the campaigns table carries the row's key as
    its primary key. *)
Definition from_db (kv : N * Campaign.t) : Campaign.t :=
  Campaign.set_id kv.1 kv.2.

(** Campaign.objects.all() *)
Definition all_campaigns (db : t) : list Campaign.t :=
  from_db <$> map_to_list (campaigns db).

(** DecimalField(max_digits=10, decimal_places=2): the value of a column is
    quantized with a precision of ten digits when it is prepared for the
    database, which raises decimal.InvalidOperation from 10^8 units on. *)
Definition fits_max_digits (hundredths : Z) : bool :=
  (-10000000000 <? hundredths) && (hundredths <? 10000000000).

(** The value of column [f] of [self] can be prepared for the database. *)
Definition prepares (self : Campaign.t) (f : Field) : bool :=
  match f with
  | F_daily_spend => fits_max_digits (Campaign.daily_spend self)
  | F_monthly_spend => fits_max_digits (Campaign.monthly_spend self)
  | _ => true
  end.

(** Model.save(update_fields=[...]) of a Campaign instance: an UPDATE of
    the named columns of the row whose key is the instance's primary key.
    [updated_at] is an auto_now column: when it is among the named columns
    the instance takes the current time before the write. The values of the
    named columns are prepared before the statement runs, so a counter beyond
    max_digits raises before the table is touched. Django raises
    DatabaseError when the UPDATE affected no row. *)
Definition save_campaign (now : datetime) (update_fields : list Field)
    (self : Campaign.t) (db : t) : result unit * Campaign.t * t :=
  let self :=
    if existsb (λ f, match f with F_updated_at => true | _ => false end)
               update_fields
    then Campaign.set_updated_at now self else self in
  if negb (forallb (prepares self) update_fields)
  then (Raise InvalidOperation, self, db)
  else
    match campaigns db !! Campaign.id self with
    | Some row =>
        (Ok (), self,
         set_campaigns
           (<[Campaign.id self := foldr (Campaign.copy_field self) row update_fields]>
              (campaigns db)) db)
    | None => (Raise DatabaseError, self, db)
    end.

(** The foreign-key check of a commit: every spend row that the block wrote
    points at a campaign that is stored when the block ends. *)
Definition constraints_hold (db db' : t) : bool :=
  bool_decide
    (map_Forall
       (λ key row, spends db !! key = Some row
                   ∨ is_Some (campaigns db' !! Spend.row_campaign_id row))
       (spends db')).

(** with transaction.atomic(): [db] is the database on entry and [block] the
    outcome of the body. A body that raises is rolled back. A body that
    returns is committed, and the commit runs the deferred foreign-key check:
    when it fails the block raises IntegrityError and is rolled back. *)
Definition atomic {A B : Type} (db : t) (block : result A * B * t)
    : result A * B * t :=
  match block with
  | (Ok a, b, db') =>
      if constraints_hold db db' then (Ok a, b, db')
      else (Raise IntegrityError, b, db)
  | (Raise e, b, _) => (Raise e, b, db)
  end.
End DB.

(** ** scheduling/models.py: queries *)

Module scheduling_models.
(** The rows matched by
    Schedule.objects.filter(campaign=campaign, day_of_week=day_of_week,
    is_active=True), in storage order. *)
Definition matching (db : DB.t) (campaign : Campaign.t) (day_of_week : Z)
    : list Schedule.t :=
  filter (λ s, Schedule.campaign_id s = Campaign.id campaign
               ∧ Schedule.day_of_week s = day_of_week
               ∧ Schedule.is_active s = true)
         (DB.schedules db).

(** def get_schedule_for_campaign_and_day(cls, campaign, day_of_week):
      try:
          return cls.objects.get(campaign=campaign, day_of_week=day_of_week,
                                 is_active=True)
      except cls.DoesNotExist:
          return None
    QuerySet.get() raises DoesNotExist on no row and
    MultipleObjectsReturned on more than one; only the former is caught. *)
Definition get_schedule_for_campaign_and_day (db : DB.t)
    (campaign : Campaign.t) (day_of_week : Z) : result (option Schedule.t) :=
  match matching db campaign day_of_week with
  | [] => Ok None
  | [s] => Ok (Some s)
  | _ :: _ :: _ => Raise MultipleObjectsReturned
  end.
End scheduling_models.

(** ** scheduling/services.py: SchedulingService.is_campaign_scheduled_now
    (the state machine below calls it; the sweep of the same service follows
    the state machine) *)

Module scheduling_matcher.
(** def is_campaign_scheduled_now(self, campaign):
      now = timezone.now()
      current_day = now.weekday(); current_time = now.time()
      schedule = Schedule.get_schedule_for_campaign_and_day(campaign, current_day)
      if not schedule: return False
      return schedule.is_time_in_range(current_time) *)
Definition is_campaign_scheduled_now (now : datetime) (db : DB.t)
    (campaign : Campaign.t) : result bool :=
  let current_day := weekday now in
  let current_time := time_of_day now in
  match scheduling_models.get_schedule_for_campaign_and_day db campaign current_day with
  | Raise e => Raise e
  | Ok None => Ok false
  | Ok (Some schedule) => Ok (Schedule.is_time_in_range schedule current_time)
  end.
End scheduling_matcher.

(** ** campaigns/models.py: the state machine *)

Module campaigns_models.
(** def pause(self, reason) *)
Definition pause (now : datetime) (reason : PauseReason)
    (self : Campaign.t) (db : DB.t) : result unit * Campaign.t * DB.t :=
  let self := Campaign.set_status PAUSED self in
  let self := Campaign.set_pause_reason (Some reason) self in
  let self := Campaign.set_paused_at (Some now) self in
  DB.save_campaign now [F_status; F_pause_reason; F_paused_at; F_updated_at] self db.

(** def can_be_activated(self) *)
Definition can_be_activated (now : datetime) (self : Campaign.t) (db : DB.t)
    : result bool :=
  if Campaign.daily_spend self >=? Brand.daily_budget (Campaign.brand self)
  then Ok false
  else if Campaign.monthly_spend self >=? Brand.monthly_budget (Campaign.brand self)
  then Ok false
  else
    match scheduling_matcher.is_campaign_scheduled_now now db self with
    | Raise e => Raise e
    | Ok scheduled => if negb scheduled then Ok false else Ok true
    end.

(** def activate(self) *)
Definition activate (now : datetime) (self : Campaign.t) (db : DB.t)
    : result bool * Campaign.t * DB.t :=
  match can_be_activated now self db with
  | Raise e => (Raise e, self, db)
  | Ok false => (Ok false, self, db)
  | Ok true =>
      let self := Campaign.set_status ACTIVE self in
      let self := Campaign.set_pause_reason None self in
      let self := Campaign.set_paused_at None self in
      match DB.save_campaign now
              [F_status; F_pause_reason; F_paused_at; F_updated_at] self db with
      | (Ok _, self, db) => (Ok true, self, db)
      | (Raise e, self, db) => (Raise e, self, db)
      end
  end.

(** def add_spend(self, amount) *)
Definition add_spend (now : datetime) (amount : Z)
    (self : Campaign.t) (db : DB.t) : result unit * Campaign.t * DB.t :=
  if amount <=? 0 then (Raise ValueError, self, db)
  else
    let self := Campaign.set_daily_spend (Campaign.daily_spend self + amount) self in
    let self := Campaign.set_monthly_spend (Campaign.monthly_spend self + amount) self in
    let self := Campaign.set_updated_at now self in
    DB.save_campaign now [F_daily_spend; F_monthly_spend; F_updated_at] self db.

(** def reset_daily_spend(self) *)
Definition reset_daily_spend (now : datetime)
    (self : Campaign.t) (db : DB.t) : result unit * Campaign.t * DB.t :=
  let self := Campaign.set_daily_spend 0 self in
  DB.save_campaign now [F_daily_spend; F_updated_at] self db.

(** def reset_monthly_spend(self) *)
Definition reset_monthly_spend (now : datetime)
    (self : Campaign.t) (db : DB.t) : result unit * Campaign.t * DB.t :=
  let self := Campaign.set_monthly_spend 0 self in
  DB.save_campaign now [F_monthly_spend; F_updated_at] self db.
End campaigns_models.

(** ** spending/models.py: Spend creation and its save hook *)

Module spending_models.
(** Spend(campaign=..., amount=..., spend_date=..., spend_type=...,
    description=...): Model.__init__ gives every field that was not passed
    its default, and the primary key is declared
      id = models.UUIDField(primary_key=True, default=uuid.uuid4, editable=False)
    so the new instance already carries a primary key. [uuid4 n] is the
    value of the n-th call of uuid.uuid4(). *)
Definition init (uuid4 : nat → UUID) (campaign : Campaign.t) (amount : Z)
    (spend_date : Z) (spend_type : SpendType) (description : option string)
    : Spend.t :=
  Spend.mk (Some (uuid4 0%nat)) campaign amount spend_date spend_type description.

(** super().save(): Model.save of a Spend instance. A missing primary key
    is drawn from the field default. With force_insert the key must be
    unused, otherwise the row is updated when it exists and inserted when it
    does not. The campaign foreign key must point at a stored campaign: a
    statement that runs on its own ([in_atomic] false) fails on a dangling
    key, a statement inside transaction.atomic() ([in_atomic] true) writes
    the row and leaves the check to the commit ([DB.atomic]). *)
Definition Model_save_in (in_atomic : bool) (uuid4 : nat → UUID)
    (force_insert : bool) (self : Spend.t) (db : DB.t)
    : result unit * Spend.t * DB.t :=
  let key := default (uuid4 1%nat) (Spend.pk self) in
  let self := Spend.set_pk (Some key) self in
  if negb in_atomic
     && negb (bool_decide
                (is_Some (DB.campaigns db !! Campaign.id (Spend.campaign self))))
  then (Raise IntegrityError, self, db)
  else if force_insert && bool_decide (is_Some (DB.spends db !! key))
  then (Raise IntegrityError, self, db)
  else (Ok (), self,
        DB.set_spends (<[key := Spend.to_row self]> (DB.spends db)) db).

(** def save(self, ...):
      is_new = self.pk is None
      super().save(...)
      if is_new:
          self.campaign.add_spend(self.amount)
    [in_atomic] tells whether the caller holds a transaction open. *)
Definition save_in (in_atomic : bool) (uuid4 : nat → UUID) (now : datetime)
    (force_insert : bool) (self : Spend.t) (db : DB.t)
    : result unit * Spend.t * DB.t :=
  let is_new := bool_decide (Spend.pk self = None) in
  match Model_save_in in_atomic uuid4 force_insert self db with
  | (Raise e, self, db) => (Raise e, self, db)
  | (Ok _, self, db) =>
      if is_new then
        match campaigns_models.add_spend now (Spend.amount self)
                (Spend.campaign self) db with
        | (r, campaign, db) => (r, Spend.set_campaign campaign self, db)
        end
      else (Ok (), self, db)
  end.

(** spend.save() called on its own, with no transaction open. *)
Definition save : (nat → UUID) → datetime → bool → Spend.t → DB.t
    → result unit * Spend.t * DB.t :=
  save_in false.

(** Spend.objects.create(...): obj = Spend(...);
    obj.save(force_insert=True); return obj *)
Definition objects_create (in_atomic : bool) (uuid4 : nat → UUID)
    (now : datetime) (campaign : Campaign.t) (amount : Z) (spend_date : Z)
    (spend_type : SpendType) (description : option string) (db : DB.t)
    : result unit * Spend.t * DB.t :=
  save_in in_atomic uuid4 now true
       (init uuid4 campaign amount spend_date spend_type description) db.
End spending_models.

(** ** spending/services.py *)

Inductive Action : Type := paused_daily | paused_monthly.

Record BudgetCheck : Type := mk_BudgetCheck
  { daily_exceeded : bool;
    monthly_exceeded : bool;
    action_taken : option Action }.

Record EnforceResults : Type := mk_EnforceResults
  { checked : nat;
    n_paused_daily : nat;
    n_paused_monthly : nat;
    enforce_errors : nat }.

Record ResetResults : Type := mk_ResetResults
  { reset : nat;
    reactivated : nat;
    reset_errors : nat }.

Module spending_services.
(** def check_budget_limits(self, campaign) *)
Definition check_budget_limits (now : datetime) (campaign : Campaign.t)
    (db : DB.t) : result BudgetCheck * Campaign.t * DB.t :=
  let results := mk_BudgetCheck false false None in
  (* Check daily budget *)
  let '(r, campaign, db) :=
    if Campaign.daily_spend campaign >=? Brand.daily_budget (Campaign.brand campaign)
    then
      let results :=
        mk_BudgetCheck true (monthly_exceeded results) (action_taken results) in
      if Campaign.is_active campaign then
        match campaigns_models.pause now DAILY_BUDGET_EXCEEDED campaign db with
        | (Ok _, campaign, db) =>
            (Ok (mk_BudgetCheck (daily_exceeded results) (monthly_exceeded results)
                   (Some paused_daily)), campaign, db)
        | (Raise e, campaign, db) => (Raise e, campaign, db)
        end
      else (Ok results, campaign, db)
    else (Ok results, campaign, db) in
  match r with
  | Raise e => (Raise e, campaign, db)
  | Ok results =>
      (* Check monthly budget *)
      if Campaign.monthly_spend campaign >=? Brand.monthly_budget (Campaign.brand campaign)
      then
        let results :=
          mk_BudgetCheck (daily_exceeded results) true (action_taken results) in
        if Campaign.is_active campaign then
          match campaigns_models.pause now MONTHLY_BUDGET_EXCEEDED campaign db with
          | (Ok _, campaign, db) =>
              (Ok (mk_BudgetCheck (daily_exceeded results) (monthly_exceeded results)
                     (Some paused_monthly)), campaign, db)
          | (Raise e, campaign, db) => (Raise e, campaign, db)
          end
        else (Ok results, campaign, db)
      else (Ok results, campaign, db)
  end.

(** def track_spend(self, campaign, amount, spend_date=None, description=None).
    The Spend holds the very campaign object that was passed in, so the
    caller's [campaign] after the call is the spend's campaign. The body of
    the with block runs inside the transaction: the INSERT of the Spend does
    not check the foreign key, check_budget_limits can raise after the row
    is written, and [DB.atomic] commits or rolls back. *)
Definition track_spend (uuid4 : nat → UUID) (now : datetime)
    (campaign : Campaign.t) (amount : Z) (spend_date : option Z)
    (description : option string) (db : DB.t)
    : result Spend.t * Campaign.t * DB.t :=
  if amount <=? 0 then (Raise ValueError, campaign, db)
  else
    let spend_date := default (toordinal now) spend_date in
    DB.atomic db
      match spending_models.objects_create true uuid4 now campaign amount
              spend_date DAILY description db with
      | (Raise e, spend, db) => (Raise e, Spend.campaign spend, db)
      | (Ok _, spend, db) =>
          match check_budget_limits now (Spend.campaign spend) db with
          | (Raise e, campaign, db) => (Raise e, campaign, db)
          | (Ok _, campaign, db) =>
              (Ok (Spend.set_campaign campaign spend), campaign, db)
          end
      end.

(** One iteration of the loop of enforce_budget_limits, with its handler. *)
Definition enforce_step (now : datetime) (acc : EnforceResults * DB.t)
    (campaign : Campaign.t) : EnforceResults * DB.t :=
  let '(results, db) := acc in
  let results :=
    mk_EnforceResults (S (checked results)) (n_paused_daily results)
      (n_paused_monthly results) (enforce_errors results) in
  match check_budget_limits now campaign db with
  | (Ok budget_check, _, db) =>
      match action_taken budget_check with
      | Some paused_daily =>
          (mk_EnforceResults (checked results) (S (n_paused_daily results))
             (n_paused_monthly results) (enforce_errors results), db)
      | Some paused_monthly =>
          (mk_EnforceResults (checked results) (n_paused_daily results)
             (S (n_paused_monthly results)) (enforce_errors results), db)
      | None => (results, db)
      end
  | (Raise _, _, db) =>
      (mk_EnforceResults (checked results) (n_paused_daily results)
         (n_paused_monthly results) (S (enforce_errors results)), db)
  end.

(** def enforce_budget_limits(self) *)
Definition enforce_budget_limits (now : datetime) (db : DB.t)
    : EnforceResults * DB.t :=
  let active_campaigns :=
    filter (λ c, Campaign.status c = ACTIVE) (DB.all_campaigns db) in
  foldl (enforce_step now) (mk_EnforceResults 0 0 0 0, db) active_campaigns.

(** First loop of the resets: campaign.reset_*_spend() under its handler. *)
Definition reset_step
    (reset_spend : Campaign.t → DB.t → result unit * Campaign.t * DB.t)
    (acc : ResetResults * DB.t) (campaign : Campaign.t) : ResetResults * DB.t :=
  let '(results, db) := acc in
  match reset_spend campaign db with
  | (Ok _, _, db) =>
      (mk_ResetResults (S (reset results)) (reactivated results)
         (reset_errors results), db)
  | (Raise _, _, db) =>
      (mk_ResetResults (reset results) (reactivated results)
         (S (reset_errors results)), db)
  end.

(** Second loop of the resets:
      if campaign.can_be_activated():
          campaign.activate()
          results['reactivated'] += 1
    under its handler. *)
Definition reactivate_step (now : datetime) (acc : ResetResults * DB.t)
    (campaign : Campaign.t) : ResetResults * DB.t :=
  let '(results, db) := acc in
  match campaigns_models.can_be_activated now campaign db with
  | Ok true =>
      match campaigns_models.activate now campaign db with
      | (Ok _, _, db) =>
          (mk_ResetResults (reset results) (S (reactivated results))
             (reset_errors results), db)
      | (Raise _, _, db) =>
          (mk_ResetResults (reset results) (reactivated results)
             (S (reset_errors results)), db)
      end
  | Ok false => (results, db)
  | Raise _ =>
      (mk_ResetResults (reset results) (reactivated results)
         (S (reset_errors results)), db)
  end.

(** def reset_daily_spends(self). Every call that can raise sits inside a
    per-campaign handler, so the atomic block never raises and commits. *)
Definition reset_daily_spends (now : datetime) (db : DB.t)
    : ResetResults * DB.t :=
  let campaigns := DB.all_campaigns db in
  let '(results, db) :=
    foldl (reset_step (campaigns_models.reset_daily_spend now))
          (mk_ResetResults 0 0 0, db) campaigns in
  let paused_campaigns :=
    filter (λ c, Campaign.status c = PAUSED
                 ∧ Campaign.pause_reason c = Some DAILY_BUDGET_EXCEEDED)
           (DB.all_campaigns db) in
  foldl (reactivate_step now) (results, db) paused_campaigns.

(** def reset_monthly_spends(self) *)
Definition reset_monthly_spends (now : datetime) (db : DB.t)
    : ResetResults * DB.t :=
  let campaigns := DB.all_campaigns db in
  let '(results, db) :=
    foldl (reset_step (campaigns_models.reset_monthly_spend now))
          (mk_ResetResults 0 0 0, db) campaigns in
  let paused_campaigns :=
    filter (λ c, Campaign.status c = PAUSED
                 ∧ Campaign.pause_reason c = Some MONTHLY_BUDGET_EXCEEDED)
           (DB.all_campaigns db) in
  foldl (reactivate_step now) (results, db) paused_campaigns.
End spending_services.

(** ** scheduling/services.py: the dayparting sweep *)

Record DaypartingResults : Type := mk_DaypartingResults
  { activated : nat;
    paused : nat;
    dayparting_errors : nat }.

Module scheduling_services.
(** The loop of get_campaigns_that_should_be_paused: no handler inside, an
    exception of the schedule lookup leaves the function. *)
Fixpoint collect_to_pause (now : datetime) (db : DB.t)
    (active_campaigns : list Campaign.t) : result (list Campaign.t) :=
  match active_campaigns with
  | [] => Ok []
  | campaign :: rest =>
      match scheduling_models.get_schedule_for_campaign_and_day db campaign
              (weekday now) with
      | Raise e => Raise e
      | Ok schedule =>
          let append :=
            match schedule with
            | None => true
            | Some schedule =>
                negb (Schedule.is_time_in_range schedule (time_of_day now))
            end in
          match collect_to_pause now db rest with
          | Raise e => Raise e
          | Ok campaigns_to_pause =>
              Ok (if append then campaign :: campaigns_to_pause
                  else campaigns_to_pause)
          end
      end
  end.

(** def get_campaigns_that_should_be_paused(self) *)
Definition get_campaigns_that_should_be_paused (now : datetime) (db : DB.t)
    : result (list Campaign.t) :=
  let active_campaigns :=
    filter (λ c, Campaign.status c = ACTIVE) (DB.all_campaigns db) in
  collect_to_pause now db active_campaigns.

(** def get_campaigns_that_should_be_active(self):
      schedules = Schedule.objects.filter(day_of_week=current_day,
          is_active=True, start_time__lte=current_time,
          end_time__gte=current_time).select_related('campaign')
      return [schedule.campaign for schedule in schedules]
    select_related joins each schedule with its campaign row. *)
Definition get_campaigns_that_should_be_active (now : datetime) (db : DB.t)
    : list Campaign.t :=
  let current_day := weekday now in
  let current_time := time_of_day now in
  let schedules :=
    filter (λ s, Schedule.day_of_week s = current_day
                 ∧ Schedule.is_active s = true
                 ∧ Schedule.start_time s ≤ current_time
                 ∧ current_time ≤ Schedule.end_time s)
           (DB.schedules db) in
  omap (λ s, (λ row, DB.from_db (Schedule.campaign_id s, row))
               <$> DB.campaigns db !! Schedule.campaign_id s)
       schedules.

(** Body of the first loop of enforce_dayparting, with its handler. *)
Definition pause_step (now : datetime) (acc : DaypartingResults * DB.t)
    (campaign : Campaign.t) : DaypartingResults * DB.t :=
  let '(results, db) := acc in
  if Campaign.is_active campaign then
    match campaigns_models.pause now OUTSIDE_SCHEDULE campaign db with
    | (Ok _, _, db) =>
        (mk_DaypartingResults (activated results) (S (paused results))
           (dayparting_errors results), db)
    | (Raise _, _, db) =>
        (mk_DaypartingResults (activated results) (paused results)
           (S (dayparting_errors results)), db)
    end
  else (results, db).

(** Body of the second loop of enforce_dayparting, with its handler. *)
Definition activate_step (now : datetime) (acc : DaypartingResults * DB.t)
    (campaign : Campaign.t) : DaypartingResults * DB.t :=
  let '(results, db) := acc in
  if Campaign.is_paused campaign
     && bool_decide (Campaign.pause_reason campaign
                       ∈ [Some OUTSIDE_SCHEDULE; Some NO_SCHEDULE])
  then
    match campaigns_models.can_be_activated now campaign db with
    | Ok true =>
        match campaigns_models.activate now campaign db with
        | (Ok _, _, db) =>
            (mk_DaypartingResults (S (activated results)) (paused results)
               (dayparting_errors results), db)
        | (Raise _, _, db) =>
            (mk_DaypartingResults (activated results) (paused results)
               (S (dayparting_errors results)), db)
        end
    | Ok false => (results, db)
    | Raise _ =>
        (mk_DaypartingResults (activated results) (paused results)
           (S (dayparting_errors results)), db)
    end
  else (results, db).

(** def enforce_dayparting(self): an exception that leaves
    get_campaigns_that_should_be_paused reaches the outer handler, which
    counts one error and returns. *)
Definition enforce_dayparting (now : datetime) (db : DB.t)
    : DaypartingResults * DB.t :=
  let results := mk_DaypartingResults 0 0 0 in
  match get_campaigns_that_should_be_paused now db with
  | Raise _ =>
      (mk_DaypartingResults (activated results) (paused results)
         (S (dayparting_errors results)), db)
  | Ok campaigns_to_pause =>
      let '(results, db) := foldl (pause_step now) (results, db) campaigns_to_pause in
      let campaigns_that_should_be_active :=
        get_campaigns_that_should_be_active now db in
      foldl (activate_step now) (results, db) campaigns_that_should_be_active
  end.
End scheduling_services.

(** ** spending/models.py: ledger queries *)

Module spending_queries.
(** .aggregate(total=models.Sum('amount'))['total']: None over no row. *)
Definition Sum (amounts : list Z) : option Z :=
  match amounts with
  | [] => None
  | _ :: _ => Some (foldr Z.add 0 amounts)
  end.

(** total or Decimal('0.00'): a missing or zero total gives 0.00. *)
Definition or_zero (total : option Z) : Z :=
  match total with
  | None => 0
  | Some t => if t =? 0 then 0 else t
  end.


Section calendar.
(** The year and the month of a date (spend_date__year, spend_date__month). *)
Variables (date_year date_month : Z → Z).

(** def get_monthly_spend_for_campaign(cls, campaign, year, month) *)
Definition get_monthly_spend_for_campaign (db : DB.t) (campaign : Campaign.t)
    (year month : Z) : Z :=
  let total :=
    Sum (Spend.row_amount <$>
           filter (λ r, Spend.row_campaign_id r = Campaign.id campaign
                        ∧ date_year (Spend.row_spend_date r) = year
                        ∧ date_month (Spend.row_spend_date r) = month
                        ∧ Spend.row_spend_type r = MONTHLY)
                  (map_to_list (DB.spends db)).*2) in
  or_zero total.
End calendar.

(** def get_daily_spend_for_brand(cls, brand_id):
      campaigns = Campaign.objects.filter(brand_id=brand_id)
      return sum((Decimal(c.daily_spend) for c in campaigns), Decimal('0.00')) *)
Definition get_daily_spend_for_brand (db : DB.t) (brand_id : UUID) : Z :=
  let campaigns :=
    filter (λ c, Brand.id (Campaign.brand c) = brand_id) (DB.all_campaigns db) in
  foldl (λ acc c, acc + Campaign.daily_spend c) 0 campaigns.

(** def get_monthly_spend_for_brand(cls, brand_id) *)
Definition get_monthly_spend_for_brand (db : DB.t) (brand_id : UUID) : Z :=
  let campaigns :=
    filter (λ c, Brand.id (Campaign.brand c) = brand_id) (DB.all_campaigns db) in
  foldl (λ acc c, acc + Campaign.monthly_spend c) 0 campaigns.
End spending_queries.

(** ** brands/models.py: totals of a brand over its campaigns *)

Module brands_models.
(** def get_total_daily_spend(self): the sum over self.campaigns.all(); the
    handler around it is never entered, the sum cannot raise. *)
Definition get_total_daily_spend (db : DB.t) (self : Brand.t) : Z :=
  foldl (λ acc c, acc + Campaign.daily_spend c) 0
        (filter (λ c, Brand.id (Campaign.brand c) = Brand.id self)
                (DB.all_campaigns db)).

(** def get_total_monthly_spend(self) *)
Definition get_total_monthly_spend (db : DB.t) (self : Brand.t) : Z :=
  foldl (λ acc c, acc + Campaign.monthly_spend c) 0
        (filter (λ c, Brand.id (Campaign.brand c) = Brand.id self)
                (DB.all_campaigns db)).

(** def get_remaining_daily_budget(self) *)
Definition get_remaining_daily_budget (db : DB.t) (self : Brand.t) : Z :=
  Brand.daily_budget self - get_total_daily_spend db self.

(** def get_remaining_monthly_budget(self) *)
Definition get_remaining_monthly_budget (db : DB.t) (self : Brand.t) : Z :=
  Brand.monthly_budget self - get_total_monthly_spend db self.

(** def is_over_daily_budget(self) *)
Definition is_over_daily_budget (db : DB.t) (self : Brand.t) : bool :=
  get_total_daily_spend db self >=? Brand.daily_budget self.

(** def is_over_monthly_budget(self) *)
Definition is_over_monthly_budget (db : DB.t) (self : Brand.t) : bool :=
  get_total_monthly_spend db self >=? Brand.monthly_budget self.
End brands_models.

(** ** scheduling/models.py: validation and creation of a Schedule;
    scheduling/services.py: create_default_schedule *)

(** What saving a Schedule can raise: the ValidationError of clean(), or an
    exception of the database. *)
Inductive save_exn : Type :=
  | ValidationError
  | Database (e : exn)
  | IndexError.              (* schedules[0] of an empty list *)

Inductive save_result (A : Type) : Type :=
  | Saved (a : A)
  | Failed (e : save_exn).
Arguments Saved {A} a.
Arguments Failed {A} e.

Module scheduling_writes.
(** def clean(self):
      if self.start_time and self.end_time and self.start_time >= self.end_time:
          raise ValidationError("End time must be after start time")
    Both times are set on every instance of the model (a time object is
    always true). *)
Definition clean (self : Schedule.t) : save_result unit :=
  if Schedule.start_time self >=? Schedule.end_time self
  then Failed ValidationError else Saved ().

(** The INSERT behind super().save(force_insert=True): the primary key must
    be unused, the campaign must be stored, and
    unique_together = ['campaign', 'day_of_week', 'start_time', 'end_time']
    must hold; the row goes to the end of the table. *)
Definition insert (self : Schedule.t) (db : DB.t) : save_result unit * DB.t :=
  if bool_decide (Schedule.id self ∈ Schedule.id <$> DB.schedules db)
  then (Failed (Database IntegrityError), db)
  else
    match DB.campaigns db !! Schedule.campaign_id self with
    | None => (Failed (Database IntegrityError), db)
    | Some _ =>
        if bool_decide
             (Exists (λ s, Schedule.campaign_id s = Schedule.campaign_id self
                           ∧ Schedule.day_of_week s = Schedule.day_of_week self
                           ∧ Schedule.start_time s = Schedule.start_time self
                           ∧ Schedule.end_time s = Schedule.end_time self)
                     (DB.schedules db))
        then (Failed (Database IntegrityError), db)
        else (Saved (),
              DB.mk (DB.campaigns db) (DB.schedules db ++ [self]) (DB.spends db))
    end.

(** def save(self, ...): self.clean(); super().save(...) *)
Definition save (self : Schedule.t) (db : DB.t) : save_result unit * DB.t :=
  match clean self with
  | Failed e => (Failed e, db)
  | Saved _ => insert self db
  end.

(** Schedule.objects.create(campaign=..., day_of_week=..., start_time=...,
    end_time=..., is_active=...): the instance takes [new_id], the value of
    uuid.uuid4() at construction, and is saved with force_insert. *)
Definition objects_create (new_id : UUID) (campaign : Campaign.t)
    (day_of_week start_time end_time : Z) (is_active : bool) (db : DB.t)
    : save_result Schedule.t * DB.t :=
  let schedule :=
    Schedule.mk new_id (Campaign.id campaign) day_of_week start_time end_time
      is_active in
  match save schedule db with
  | (Saved _, db) => (Saved schedule, db)
  | (Failed e, db) => (Failed e, db)
  end.

(** The loop of create_default_schedule over the remaining days: an
    exception leaves the function with the earlier rows stored. The schedule
    of day [day] takes the id [uuid4 day]. *)
Fixpoint create_days (uuid4 : nat → UUID) (campaign : Campaign.t)
    (days : list nat) (db : DB.t) : save_result (list Schedule.t) * DB.t :=
  match days with
  | [] => (Saved [], db)
  | day :: rest =>
      match objects_create (uuid4 day) campaign (Z.of_nat day)
              0 86399000000 true db with
      | (Failed e, db) => (Failed e, db)
      | (Saved schedule, db) =>
          match create_days uuid4 campaign rest db with
          | (Failed e, db) => (Failed e, db)
          | (Saved schedules, db) => (Saved (schedule :: schedules), db)
          end
      end
  end.

(** def create_default_schedule(self, campaign):
      for day in range(7):
          schedule = Schedule.objects.create(campaign=campaign, day_of_week=day,
              start_time=time(0, 0), end_time=time(23, 59, 59), is_active=True)
          schedules.append(schedule)
      return schedules[0] *)
Definition create_default_schedule (uuid4 : nat → UUID) (campaign : Campaign.t)
    (db : DB.t) : save_result Schedule.t * DB.t :=
  match create_days uuid4 campaign (seq 0 7) db with
  | (Failed e, db) => (Failed e, db)
  | (Saved (first :: _), db) => (Saved first, db)
  | (Saved [], db) => (Failed IndexError, db)
  end.
End scheduling_writes.

(** ** spending/management/commands/reset_spends.py *)

Record ResetOptions : Type := mk_ResetOptions
  { opt_daily : bool;
    opt_monthly : bool;
    opt_both : bool }.

Module reset_spends_command.
(** def handle(self, ...): [None] is the CommandError raised when no
    option is given; otherwise the results of the resets that ran. *)
Definition handle (now : datetime) (options : ResetOptions) (db : DB.t)
    : option (option ResetResults * option ResetResults) * DB.t :=
  if negb (opt_daily options || opt_monthly options || opt_both options)
  then (None, db)
  else
    let '(daily_results, db) :=
      if opt_both options || opt_daily options
      then let '(r, db) := spending_services.reset_daily_spends now db in (Some r, db)
      else (None, db) in
    let '(monthly_results, db) :=
      if opt_both options || opt_monthly options
      then let '(r, db) := spending_services.reset_monthly_spends now db in (Some r, db)
      else (None, db) in
    (Some (daily_results, monthly_results), db).
End reset_spends_command.

(** ** Auxiliary definitions of the statements *)

(** The columns [Campaign.pause] writes, applied to a row or an instance. *)
Definition paused_row (now : datetime) (reason : PauseReason) (row : Campaign.t)
    : Campaign.t :=
  Campaign.set_updated_at now
    (Campaign.set_paused_at (Some now)
       (Campaign.set_pause_reason (Some reason) (Campaign.set_status PAUSED row))).

(** The columns [Campaign.activate] writes. *)
Definition activated_row (now : datetime) (row : Campaign.t) : Campaign.t :=
  Campaign.set_updated_at now
    (Campaign.set_paused_at None
       (Campaign.set_pause_reason None (Campaign.set_status ACTIVE row))).

(** The columns [Campaign.reset_daily_spend] writes. *)
Definition daily_reset_row (now : datetime) (row : Campaign.t) : Campaign.t :=
  Campaign.set_daily_spend 0 (Campaign.set_updated_at now row).

(** [can_be_activated] returned True (neither False nor an exception). *)
Definition can_activate (now : datetime) (db : DB.t) (c : Campaign.t) : bool :=
  match campaigns_models.can_be_activated now c db with
  | Ok true => true
  | _ => false
  end.

(** The pairing of [status], [pause_reason] and [paused_at]. *)
Definition paired (c : Campaign.t) : Prop :=
  (Campaign.pause_reason c = None ↔ Campaign.status c = ACTIVE)
  ∧ (Campaign.paused_at c = None ↔ Campaign.status c = ACTIVE).

Definition paired_db (db : DB.t) : Prop :=
  ∀ k row, DB.campaigns db !! k = Some row → paired row.

(** The operations that touch a campaign, as one type: the methods of a
    Campaign or Spend instance (with the instance they are called on) and
    the service calls. *)
Inductive op : Type :=
  | op_pause (c : Campaign.t) (reason : PauseReason)
  | op_activate (c : Campaign.t)
  | op_add_spend (c : Campaign.t) (amount : Z)
  | op_reset_daily_spend (c : Campaign.t)
  | op_reset_monthly_spend (c : Campaign.t)
  | op_spend_save (uuid4 : nat → UUID) (force_insert : bool) (s : Spend.t)
  | op_check_budget_limits (c : Campaign.t)
  | op_track_spend (uuid4 : nat → UUID) (c : Campaign.t) (amount : Z)
      (spend_date : option Z) (description : option string)
  | op_enforce_budget_limits
  | op_reset_daily_spends
  | op_reset_monthly_spends
  | op_enforce_dayparting.

(** The Campaign instance an operation is called on, if any. *)
Definition op_instance (o : op) : option Campaign.t :=
  match o with
  | op_pause c _ | op_activate c | op_add_spend c _ | op_reset_daily_spend c
  | op_reset_monthly_spend c | op_check_budget_limits c
  | op_track_spend _ c _ _ _ => Some c
  | op_spend_save _ _ s => Some (Spend.campaign s)
  | op_enforce_budget_limits | op_reset_daily_spends | op_reset_monthly_spends
  | op_enforce_dayparting => None
  end.

(** Running an operation: the instance after the call (if any) and the
    database after the call, whether or not the call raised. *)
Definition run (now : datetime) (o : op) (db : DB.t) : option Campaign.t * DB.t :=
  match o with
  | op_pause c reason =>
      let '(_, c, db) := campaigns_models.pause now reason c db in (Some c, db)
  | op_activate c =>
      let '(_, c, db) := campaigns_models.activate now c db in (Some c, db)
  | op_add_spend c amount =>
      let '(_, c, db) := campaigns_models.add_spend now amount c db in (Some c, db)
  | op_reset_daily_spend c =>
      let '(_, c, db) := campaigns_models.reset_daily_spend now c db in (Some c, db)
  | op_reset_monthly_spend c =>
      let '(_, c, db) := campaigns_models.reset_monthly_spend now c db in (Some c, db)
  | op_spend_save uuid4 force_insert s =>
      let '(_, s, db) := spending_models.save uuid4 now force_insert s db in
      (Some (Spend.campaign s), db)
  | op_check_budget_limits c =>
      let '(_, c, db) := spending_services.check_budget_limits now c db in (Some c, db)
  | op_track_spend uuid4 c amount spend_date description =>
      let '(_, c, db) :=
        spending_services.track_spend uuid4 now c amount spend_date description db in
      (Some c, db)
  | op_enforce_budget_limits =>
      (None, (spending_services.enforce_budget_limits now db).2)
  | op_reset_daily_spends => (None, (spending_services.reset_daily_spends now db).2)
  | op_reset_monthly_spends => (None, (spending_services.reset_monthly_spends now db).2)
  | op_enforce_dayparting => (None, (scheduling_services.enforce_dayparting now db).2)
  end.

(** Two instances, or two states of the campaigns table, with the same
    counters. *)
Definition same_counters (c c' : Campaign.t) : Prop :=
  Campaign.daily_spend c' = Campaign.daily_spend c
  ∧ Campaign.monthly_spend c' = Campaign.monthly_spend c.

Definition same_counters_db (db db' : DB.t) : Prop :=
  ∀ k row, DB.campaigns db !! k = Some row →
    ∃ row', DB.campaigns db' !! k = Some row' ∧ same_counters row row'.

(** A relation between the database before and after a call: the other
    tables are untouched, and the campaigns table is the same or has the row
    under one key replaced. *)
Definition writes_at (k : N) (f : Campaign.t → Campaign.t) (db db' : DB.t) : Prop :=
  DB.schedules db' = DB.schedules db
  ∧ DB.spends db' = DB.spends db
  ∧ (DB.campaigns db' = DB.campaigns db
     ∨ ∃ row, DB.campaigns db !! k = Some row
              ∧ DB.campaigns db' = <[k := f row]> (DB.campaigns db)).

(** Concrete data for the worked examples: a Thursday, 10:00. *)
Definition ex_now : datetime := mk_datetime 738000 36000000000.
Definition ex_brand : Brand.t := Brand.mk 1%N 10000 100000.
Definition ex_campaign (daily monthly : Z) : Campaign.t :=
  Campaign.mk 7%N ex_brand ACTIVE daily monthly None None (mk_datetime 737999 0).
Definition ex_db (daily monthly : Z) (schedules : list Schedule.t) : DB.t :=
  DB.mk {[ 7%N := ex_campaign daily monthly ]} schedules ∅.
Definition ex_uuid4 (n : nat) : UUID := (100 + N.of_nat n)%N.

Definition ex_morning : Schedule.t := Schedule.mk 1%N 7%N 3 32400000000 43200000000 true.
Definition ex_afternoon : Schedule.t := Schedule.mk 2%N 7%N 3 46800000000 64800000000 true.

Definition ex_manual_db : DB.t :=
  DB.mk {[ 7%N := Campaign.mk 7%N ex_brand PAUSED 0 0 (Some MANUAL)
                    (Some (mk_datetime 737999 0)) (mk_datetime 737999 0) ]}
        [Schedule.mk 1%N 7%N 3 32400000000 64800000000 true] ∅.



(** What check_budget_limits writes to the stored row of instance [c]. *)
Definition budget_outcome (now : datetime) (c : Campaign.t)
    : Campaign.t → Campaign.t :=
  if Campaign.is_active c then
    if Campaign.daily_spend c >=? Brand.daily_budget (Campaign.brand c)
    then paused_row now DAILY_BUDGET_EXCEEDED
    else if Campaign.monthly_spend c >=? Brand.monthly_budget (Campaign.brand c)
    then paused_row now MONTHLY_BUDGET_EXCEEDED
    else id
  else id.

(** The columns [Campaign.reset_monthly_spend] writes. *)
Definition monthly_reset_row (now : datetime) (row : Campaign.t) : Campaign.t :=
  Campaign.set_monthly_spend 0 (Campaign.set_updated_at now row).

(** 09:00 to 18:00 on Thursdays, for campaign 7. *)
Definition ex_nine_to_six : Schedule.t :=
  Schedule.mk 1%N 7%N 3 32400000000 64800000000 true.

(** A campaign paused for its daily budget whose monthly spend is also over
    the monthly budget, with an open Thursday window. *)
Definition ex_over_both : Campaign.t :=
  Campaign.mk 7%N ex_brand PAUSED 12000 150000 (Some DAILY_BUDGET_EXCEEDED)
    (Some (mk_datetime 737999 72000000000)) (mk_datetime 737999 72000000000).

Definition ex_over_both_db : DB.t :=
  DB.mk {[ 7%N := ex_over_both ]} [ex_nine_to_six] ∅.



(** The database after create_default_schedule on [ex_db 0 0 []]. *)
Definition ex_default_db : DB.t :=
  DB.mk {[ 7%N := ex_campaign 0 0 ]}
        ((λ day, Schedule.mk (ex_uuid4 day) 7%N (Z.of_nat day) 0 86399000000 true)
           <$> seq 0 7) ∅.

(** A campaign paused by the dayparting sweep, with an open Thursday window. *)
Definition ex_outside : Campaign.t :=
  Campaign.mk 7%N ex_brand PAUSED 0 0 (Some OUTSIDE_SCHEDULE)
    (Some (mk_datetime 737999 72000000000)) (mk_datetime 737999 72000000000).

Definition ex_outside_db : DB.t :=
  DB.mk {[ 7%N := ex_outside ]} [ex_nine_to_six] ∅.

(** * Properties *)

(** ** Campaign.pause and Campaign.activate *)

#[local] Arguments DB.save_campaign : simpl never.
#[local] Arguments DB.constraints_hold : simpl never.
#[local] Arguments DB.fits_max_digits !hundredths /.

Lemma pause_stored now reason self db row :
  DB.campaigns db !! Campaign.id self = Some row →
  campaigns_models.pause now reason self db =
    (Ok (), paused_row now reason self,
     DB.set_campaigns
       (<[Campaign.id self := paused_row now reason row]> (DB.campaigns db)) db).
Proof.
  intros Hrow. unfold campaigns_models.pause, DB.save_campaign.
  cbn. by rewrite Hrow.
Qed.

Lemma pause_missing now reason self db :
  DB.campaigns db !! Campaign.id self = None →
  campaigns_models.pause now reason self db =
    (Raise DatabaseError, paused_row now reason self, db).
Proof.
  intros Hrow. unfold campaigns_models.pause, DB.save_campaign.
  cbn. by rewrite Hrow.
Qed.

Lemma is_active_true c : Campaign.status c = ACTIVE → Campaign.is_active c = true.
Proof. intros H. unfold Campaign.is_active. by rewrite bool_decide_eq_true. Qed.

(** ** check_budget_limits *)

(** When the daily budget is reached on an active campaign the daily branch
    pauses it, and the monthly branch only records its flag. *)
Lemma check_budget_limits_daily_active now c db :
  Campaign.status c = ACTIVE →
  Campaign.daily_spend c >= Brand.daily_budget (Campaign.brand c) →
  spending_services.check_budget_limits now c db =
    match DB.campaigns db !! Campaign.id c with
    | Some row =>
        (Ok (mk_BudgetCheck true
               (Campaign.monthly_spend c >=? Brand.monthly_budget (Campaign.brand c))
               (Some paused_daily)),
         paused_row now DAILY_BUDGET_EXCEEDED c,
         DB.set_campaigns
           (<[Campaign.id c := paused_row now DAILY_BUDGET_EXCEEDED row]>
              (DB.campaigns db)) db)
    | None => (Raise DatabaseError, paused_row now DAILY_BUDGET_EXCEEDED c, db)
    end.
Proof.
  intros Hact Hd. unfold spending_services.check_budget_limits.
  assert ((Campaign.daily_spend c >=? Brand.daily_budget (Campaign.brand c)) = true)
    as -> by (apply Z.geb_le; lia).
  rewrite (is_active_true c Hact).
  destruct (DB.campaigns db !! Campaign.id c) as [row|] eqn:Hrow.
  - rewrite (pause_stored _ _ _ _ _ Hrow). cbn.
    by destruct (Campaign.monthly_spend c >=? _).
  - by rewrite (pause_missing _ _ _ _ Hrow).
Qed.

(** C1 (as amended): an active campaign over both budgets ends PAUSED with
    reason DAILY_BUDGET_EXCEEDED. The monthly branch sets its flag but
    pauses only a campaign that is still active, so the reason written by
    the daily branch stays. *)
Theorem check_budget_limits_both_exceeded_daily_wins now c db :
  Campaign.status c = ACTIVE →
  Campaign.daily_spend c >= Brand.daily_budget (Campaign.brand c) →
  Campaign.monthly_spend c >= Brand.monthly_budget (Campaign.brand c) →
  let '(r, c', db') := spending_services.check_budget_limits now c db in
  Campaign.status c' = PAUSED
  ∧ Campaign.pause_reason c' = Some DAILY_BUDGET_EXCEEDED
  ∧ ∀ row, DB.campaigns db !! Campaign.id c = Some row →
      r = Ok (mk_BudgetCheck true true (Some paused_daily))
      ∧ DB.campaigns db' !! Campaign.id c
        = Some (paused_row now DAILY_BUDGET_EXCEEDED row).
Proof.
  intros Hact Hd Hm. rewrite (check_budget_limits_daily_active _ _ _ Hact Hd).
  assert ((Campaign.monthly_spend c >=? Brand.monthly_budget (Campaign.brand c)) = true)
    as -> by (apply Z.geb_le; lia).
  destruct (DB.campaigns db !! Campaign.id c) as [row|] eqn:Hrow.
  - split; [done|]. split; [done|]. intros ? [= <-]. split; [done|].
    cbn. by rewrite lookup_insert_eq.
  - done.
Qed.

Lemma check_budget_limits_both_exceeded_daily_wins_witness :
  Campaign.status (ex_campaign 12000 150000) = ACTIVE
  ∧ Campaign.daily_spend (ex_campaign 12000 150000) >= 10000
  ∧ Campaign.monthly_spend (ex_campaign 12000 150000) >= 100000
  ∧ let '(r, c', db') :=
      spending_services.check_budget_limits ex_now (ex_campaign 12000 150000)
        (ex_db 12000 150000 []) in
    Campaign.status c' = PAUSED
    ∧ Campaign.pause_reason c' = Some DAILY_BUDGET_EXCEEDED
    ∧ ∀ row, DB.campaigns (ex_db 12000 150000 []) !! 7%N = Some row →
        r = Ok (mk_BudgetCheck true true (Some paused_daily))
        ∧ DB.campaigns db' !! 7%N
          = Some (paused_row ex_now DAILY_BUDGET_EXCEEDED row).
Proof.
  split; [reflexivity|]. split; [cbn; lia|]. split; [cbn; lia|].
  apply (check_budget_limits_both_exceeded_daily_wins ex_now
           (ex_campaign 12000 150000) (ex_db 12000 150000 []));
    [reflexivity | cbn; lia | cbn; lia].
Defined.

(** C1 (as stated) fails: at a stored active campaign over both budgets the
    final reason is not MONTHLY_BUDGET_EXCEEDED. *)
Lemma check_budget_limits_monthly_does_not_overwrite :
  let c := ex_campaign 12000 150000 in
  let db := ex_db 12000 150000 [] in
  Campaign.status c = ACTIVE
  ∧ Campaign.daily_spend c >= Brand.daily_budget (Campaign.brand c)
  ∧ Campaign.monthly_spend c >= Brand.monthly_budget (Campaign.brand c)
  ∧ ¬ (Campaign.pause_reason (spending_services.check_budget_limits ex_now c db).1.2
         = Some MONTHLY_BUDGET_EXCEEDED)
  ∧ ¬ (Campaign.pause_reason
         <$> DB.campaigns (spending_services.check_budget_limits ex_now c db).2 !! 7%N
         = Some (Some MONTHLY_BUDGET_EXCEEDED)).
Proof.
  cbv zeta. split; [reflexivity|]. split; [cbn; lia|]. split; [cbn; lia|].
  split; vm_compute; discriminate.
Qed.

(** C4: the boundary counts as exceeded. An active campaign whose daily
    spend equals the daily budget, with the monthly budget not reached, is
    paused with DAILY_BUDGET_EXCEEDED. *)
Theorem check_budget_limits_boundary_pauses now c db :
  Campaign.status c = ACTIVE →
  Campaign.daily_spend c = Brand.daily_budget (Campaign.brand c) →
  Campaign.monthly_spend c < Brand.monthly_budget (Campaign.brand c) →
  let '(r, c', db') := spending_services.check_budget_limits now c db in
  Campaign.status c' = PAUSED
  ∧ Campaign.pause_reason c' = Some DAILY_BUDGET_EXCEEDED
  ∧ Campaign.paused_at c' = Some now
  ∧ ∀ row, DB.campaigns db !! Campaign.id c = Some row →
      r = Ok (mk_BudgetCheck true false (Some paused_daily))
      ∧ DB.campaigns db' !! Campaign.id c
        = Some (paused_row now DAILY_BUDGET_EXCEEDED row).
Proof.
  intros Hact Hd Hm.
  rewrite (check_budget_limits_daily_active _ _ _ Hact) by lia.
  assert ((Campaign.monthly_spend c >=? Brand.monthly_budget (Campaign.brand c)) = false)
    as -> by (rewrite Z.geb_leb; apply Z.leb_gt; lia).
  destruct (DB.campaigns db !! Campaign.id c) as [row|] eqn:Hrow.
  - split; [done|]. split; [done|]. split; [done|].
    intros ? [= <-]. split; [done|].
    cbn. by rewrite lookup_insert_eq.
  - done.
Qed.

Lemma check_budget_limits_boundary_pauses_witness :
  Campaign.status (ex_campaign 10000 10000) = ACTIVE
  ∧ Campaign.daily_spend (ex_campaign 10000 10000) = 10000
  ∧ Campaign.monthly_spend (ex_campaign 10000 10000) < 100000
  ∧ let '(r, c', db') :=
      spending_services.check_budget_limits ex_now (ex_campaign 10000 10000)
        (ex_db 10000 10000 []) in
    Campaign.status c' = PAUSED
    ∧ Campaign.pause_reason c' = Some DAILY_BUDGET_EXCEEDED
    ∧ Campaign.paused_at c' = Some ex_now
    ∧ ∀ row, DB.campaigns (ex_db 10000 10000 []) !! 7%N = Some row →
        r = Ok (mk_BudgetCheck true false (Some paused_daily))
        ∧ DB.campaigns db' !! 7%N
          = Some (paused_row ex_now DAILY_BUDGET_EXCEEDED row).
Proof.
  split; [reflexivity|]. split; [reflexivity|]. split; [cbn; lia|].
  apply (check_budget_limits_boundary_pauses ex_now
           (ex_campaign 10000 10000) (ex_db 10000 10000 []));
    [reflexivity | reflexivity | cbn; lia].
Defined.

(** The same comparison gates re-activation: at the boundary
    can_be_activated answers False. *)
Lemma can_be_activated_boundary now c db :
  Campaign.daily_spend c = Brand.daily_budget (Campaign.brand c) →
  campaigns_models.can_be_activated now c db = Ok false.
Proof.
  intros Hd. unfold campaigns_models.can_be_activated.
  by assert ((Campaign.daily_spend c >=? Brand.daily_budget (Campaign.brand c)) = true)
    as -> by (apply Z.geb_le; lia).
Qed.

(** check_budget_limits never touches the counters, of the instance or of
    any stored row, and leaves the other tables alone. *)
Lemma same_counters_db_refl db : same_counters_db db db.
Proof. intros k row H. exists row. by split. Qed.

Lemma same_counters_db_pause now reason db k row :
  DB.campaigns db !! k = Some row →
  same_counters_db db
    (DB.set_campaigns (<[k := paused_row now reason row]> (DB.campaigns db)) db).
Proof.
  intros Hrow k' row' H'. cbn. destruct (decide (k = k')) as [<-|Hne].
  - rewrite lookup_insert_eq. simplify_eq. eexists. by split.
  - rewrite lookup_insert_ne by done. exists row'. by split.
Qed.

Lemma check_budget_limits_counters now c db :
  let '(r, c', db') := spending_services.check_budget_limits now c db in
  same_counters c c' ∧ Campaign.id c' = Campaign.id c
  ∧ same_counters_db db db' ∧ DB.spends db' = DB.spends db
  ∧ (is_ok r = false → db' = db).
Proof.
  unfold spending_services.check_budget_limits.
  destruct (Campaign.daily_spend c >=? _); cbn;
    [destruct (Campaign.is_active c) eqn:Hact; cbn|].
  - (* daily branch pauses *)
    destruct (DB.campaigns db !! Campaign.id c) as [row|] eqn:Hrow.
    + rewrite (pause_stored _ _ _ _ _ Hrow). cbn.
      destruct (Campaign.monthly_spend c >=? _); cbn;
        (split; [done|]; split; [done|];
         split; [by apply same_counters_db_pause|]; split; done).
    + rewrite (pause_missing _ _ _ _ Hrow). cbn.
      split; [done|]. split; [done|]. split; [apply same_counters_db_refl|]. done.
  - (* already paused: the monthly branch finds it inactive as well *)
    destruct (Campaign.monthly_spend c >=? _); cbn; rewrite ?Hact;
      (split; [done|]; split; [done|]; split; [apply same_counters_db_refl|]; done).
  - destruct (Campaign.monthly_spend c >=? _); cbn;
      [destruct (Campaign.is_active c) eqn:Hact; cbn|].
    + destruct (DB.campaigns db !! Campaign.id c) as [row|] eqn:Hrow.
      * rewrite (pause_stored _ _ _ _ _ Hrow). cbn.
        split; [done|]. split; [done|].
        split; [by apply same_counters_db_pause|]. split; done.
      * rewrite (pause_missing _ _ _ _ Hrow). cbn.
        split; [done|]. split; [done|]. split; [apply same_counters_db_refl|]. done.
    + split; [done|]. split; [done|]. split; [apply same_counters_db_refl|]. done.
    + split; [done|]. split; [done|]. split; [apply same_counters_db_refl|]. done.
Qed.

Lemma check_budget_limits_ok now c db :
  is_Some (DB.campaigns db !! Campaign.id c) →
  is_ok (spending_services.check_budget_limits now c db).1.1 = true.
Proof.
  intros [row Hrow]. unfold spending_services.check_budget_limits.
  destruct (Campaign.daily_spend c >=? _); cbn;
    destruct (Campaign.is_active c) eqn:Hact; cbn;
    rewrite ?(pause_stored _ _ _ _ _ Hrow); cbn;
    destruct (Campaign.monthly_spend c >=? _); cbn;
    rewrite ?Hact, ?(pause_stored _ _ _ _ _ Hrow); done.
Qed.

Lemma check_budget_limits_db now c db :
  DB.schedules (spending_services.check_budget_limits now c db).2 = DB.schedules db
  ∧ DB.spends (spending_services.check_budget_limits now c db).2 = DB.spends db
  ∧ DB.campaigns (spending_services.check_budget_limits now c db).2
    = match DB.campaigns db !! Campaign.id c with
      | Some row => <[Campaign.id c := budget_outcome now c row]> (DB.campaigns db)
      | None => DB.campaigns db
      end.
Proof.
  unfold spending_services.check_budget_limits, budget_outcome.
  destruct (DB.campaigns db !! Campaign.id c) as [row|] eqn:Hrow.
  - destruct (Campaign.daily_spend c >=? _); cbn;
      destruct (Campaign.is_active c) eqn:Hact; cbn;
      rewrite ?(pause_stored _ _ _ _ _ Hrow); cbn;
      destruct (Campaign.monthly_spend c >=? _); cbn;
      rewrite ?Hact, ?(pause_stored _ _ _ _ _ Hrow); cbn;
      rewrite ?insert_id by done; done.
  - destruct (Campaign.daily_spend c >=? _); cbn;
      destruct (Campaign.is_active c) eqn:Hact; cbn;
      rewrite ?(pause_missing _ _ _ _ Hrow); cbn; try done;
      destruct (Campaign.monthly_spend c >=? _); cbn;
      rewrite ?Hact, ?(pause_missing _ _ _ _ Hrow); cbn; done.
Qed.

(** On a campaign whose row is gone the first pause attempted raises. *)
Lemma check_budget_limits_missing now c db :
  DB.campaigns db !! Campaign.id c = None →
  spending_services.check_budget_limits now c db
  = if Campaign.is_active c
       && ((Campaign.daily_spend c >=? Brand.daily_budget (Campaign.brand c))
           || (Campaign.monthly_spend c >=? Brand.monthly_budget (Campaign.brand c)))
    then (Raise DatabaseError, budget_outcome now c c, db)
    else (Ok (mk_BudgetCheck
                (Campaign.daily_spend c >=? Brand.daily_budget (Campaign.brand c))
                (Campaign.monthly_spend c >=? Brand.monthly_budget (Campaign.brand c))
                None), c, db).
Proof.
  intros Hrow. unfold spending_services.check_budget_limits, budget_outcome.
  destruct (Campaign.daily_spend c >=? _); cbn;
    destruct (Campaign.is_active c) eqn:Hact; cbn;
    rewrite ?(pause_missing _ _ _ _ Hrow); cbn; try done;
    destruct (Campaign.monthly_spend c >=? _); cbn;
    rewrite ?Hact, ?(pause_missing _ _ _ _ Hrow); cbn; done.
Qed.

(** ** transaction.atomic and the deferred foreign key *)

(** After one spend row is inserted under a new key, the commit succeeds
    exactly when the campaign of that row is stored. *)
Lemma constraints_hold_insert db db' key row :
  DB.spends db !! key = None →
  DB.spends db' = <[key := row]> (DB.spends db) →
  DB.constraints_hold db db'
  = bool_decide (is_Some (DB.campaigns db' !! Spend.row_campaign_id row)).
Proof.
  intros Hkey Hs. unfold DB.constraints_hold. apply bool_decide_ext.
  rewrite Hs, map_Forall_insert by done. split.
  - intros [[H|H] _]; [congruence|done].
  - intros H. split; [by right|]. intros k r Hk. by left.
Qed.

(** ** Spend.save and track_spend *)

(** Spend.objects.create never reaches add_spend: the instance it saves has
    its primary key already, so [is_new] is false. *)
Lemma objects_create_eq in_atomic uuid4 now campaign amount spend_date spend_type
    description db :
  let spend :=
    spending_models.init uuid4 campaign amount spend_date spend_type description in
  spending_models.objects_create in_atomic uuid4 now campaign amount spend_date
    spend_type description db =
  if negb in_atomic
     && negb (bool_decide (is_Some (DB.campaigns db !! Campaign.id campaign)))
  then (Raise IntegrityError, spend, db)
  else if bool_decide (is_Some (DB.spends db !! uuid4 0%nat))
  then (Raise IntegrityError, spend, db)
  else (Ok (), spend,
        DB.set_spends (<[uuid4 0%nat := Spend.to_row spend]> (DB.spends db)) db).
Proof.
  cbv zeta. unfold spending_models.objects_create, spending_models.save_in,
    spending_models.Model_save_in. cbn.
  destruct (negb in_atomic && _); [done|].
  by destruct (bool_decide (is_Some (DB.spends db !! uuid4 0%nat))).
Qed.

(** track_spend, with the transaction written out: the Spend row is
    inserted, check_budget_limits runs on the database that holds it, and
    the commit keeps the writes only when the campaign is stored. *)
Lemma track_spend_eq uuid4 now c amount spend_date description db :
  let spend :=
    spending_models.init uuid4 c amount (default (toordinal now) spend_date)
      DAILY description in
  let db1 :=
    DB.set_spends (<[uuid4 0%nat := Spend.to_row spend]> (DB.spends db)) db in
  spending_services.track_spend uuid4 now c amount spend_date description db =
  if amount <=? 0 then (Raise ValueError, c, db)
  else if bool_decide (is_Some (DB.spends db !! uuid4 0%nat))
  then (Raise IntegrityError, c, db)
  else
    match spending_services.check_budget_limits now c db1 with
    | (Raise e, c', _) => (Raise e, c', db)
    | (Ok _, c', db2) =>
        if bool_decide (is_Some (DB.campaigns db !! Campaign.id c))
        then (Ok (Spend.set_campaign c' spend), c', db2)
        else (Raise IntegrityError, c', db)
    end.
Proof.
  cbv zeta. unfold spending_services.track_spend.
  destruct (amount <=? 0); [done|].
  rewrite objects_create_eq. cbn [negb andb].
  destruct (bool_decide (is_Some (DB.spends db !! uuid4 0%nat))) eqn:Hkey; [done|].
  apply bool_decide_eq_false in Hkey.
  assert (DB.spends db !! uuid4 0%nat = None) as Hnone.
  { destruct (DB.spends db !! uuid4 0%nat) eqn:E; [|done]. destruct Hkey. by eexists. }
  cbn [Spend.campaign spending_models.init].
  match goal with
  | |- context [spending_services.check_budget_limits ?n ?c0 ?d] =>
      destruct (check_budget_limits_db n c0 d) as (_ & Hsp & Hca);
      destruct (spending_services.check_budget_limits n c0 d) as [[r c'] db2]
  end.
  cbn [fst snd DB.spends DB.campaigns DB.set_spends] in Hsp, Hca.
  destruct r as [bc|e]; [|done]. unfold DB.atomic.
  rewrite (constraints_hold_insert db db2 (uuid4 0%nat) _ Hnone Hsp).
  cbn [Spend.row_campaign_id Spend.to_row Spend.campaign spending_models.init].
  assert (is_Some (DB.campaigns db2 !! Campaign.id c)
          ↔ is_Some (DB.campaigns db !! Campaign.id c)) as Hiff.
  { rewrite Hca. destruct (DB.campaigns db !! Campaign.id c) as [row|] eqn:Hrow.
    - rewrite lookup_insert_eq. split; by eexists.
    - by rewrite Hrow. }
  by rewrite (bool_decide_ext _ _ Hiff).
Qed.

Lemma track_spend_counters uuid4 now campaign amount spend_date description db :
  let '(r, c', db') :=
    spending_services.track_spend uuid4 now campaign amount spend_date description db in
  same_counters campaign c' ∧ same_counters_db db db'
  ∧ (is_ok r = false → db' = db).
Proof.
  rewrite track_spend_eq. cbv zeta.
  destruct (amount <=? 0); [by split; [|split; [apply same_counters_db_refl|]]|].
  destruct (bool_decide (is_Some (DB.spends db !! uuid4 0%nat)));
    [by split; [|split; [apply same_counters_db_refl|]]|].
  match goal with
  | |- context [spending_services.check_budget_limits ?n ?c0 ?d] =>
      pose proof (check_budget_limits_counters n c0 d) as H;
      destruct (spending_services.check_budget_limits n c0 d) as [[r c'] db']
  end.
  destruct H as (Hc & _ & Hdb & _ & _).
  destruct r; [destruct (bool_decide (is_Some _))|]; cbn.
  - split; [done|]. split; [|done]. intros k r0 Hk. by apply Hdb.
  - split; [done|]. split; [apply same_counters_db_refl|done].
  - split; [done|]. split; [apply same_counters_db_refl|done].
Qed.

(** C2: a non-positive amount is rejected with ValueError before anything
    is written: no Spend row, instance and database untouched. And whatever
    the amount, a failing call leaves the database as it was and the counters
    of the instance unchanged: the ledger insert and the budget check sit in
    one atomic block, so the Spend row that was written before a pause
    raised, or before the commit failed on the foreign key, is rolled
    back. *)
Theorem track_spend_rejects_non_positive uuid4 now campaign amount spend_date
    description db :
  amount ≤ 0 →
  spending_services.track_spend uuid4 now campaign amount spend_date description db
    = (Raise ValueError, campaign, db)
  ∧ ∀ amount' e c' db',
      spending_services.track_spend uuid4 now campaign amount' spend_date
        description db = (Raise e, c', db') →
      db' = db ∧ same_counters campaign c'.
Proof.
  intros Hle. split.
  - unfold spending_services.track_spend.
    by assert ((amount <=? 0) = true) as -> by (apply Z.leb_le; lia).
  - intros amount' e c' db' Heq.
    pose proof (track_spend_counters uuid4 now campaign amount' spend_date
                  description db) as H.
    rewrite Heq in H. destruct H as (Hc & _ & Hdb). split; [by apply Hdb|done].
Qed.

Lemma track_spend_rejects_non_positive_witness :
  let campaign := ex_campaign 12000 150000 in
  let db := DB.mk ∅ [] ∅ in
  -500 ≤ 0
  ∧ spending_services.track_spend ex_uuid4 ex_now campaign (-500) None None db
    = (Raise ValueError, campaign, db)
  ∧ ∀ amount' e c' db',
      spending_services.track_spend ex_uuid4 ex_now campaign amount' None None db
        = (Raise e, c', db') →
      db' = db ∧ same_counters campaign c'.
Proof.
  cbv zeta. split; [lia|].
  apply (track_spend_rejects_non_positive ex_uuid4 ex_now
           (ex_campaign 12000 150000) (-500) None None (DB.mk ∅ [] ∅)).
  lia.
Defined.

(** The rollback at work: the row of the campaign is gone, the instance is
    active and over its budgets. The Spend row is inserted, the pause raises
    DatabaseError on the instance it has already marked PAUSED, and the
    database is the one before the call; without the rollback the Spend row
    would have stayed. *)
Lemma track_spend_rolls_back :
  let campaign := ex_campaign 12000 150000 in
  let db := DB.mk ∅ [] ∅ in
  spending_services.track_spend ex_uuid4 ex_now campaign 2500 None None db
  = (Raise DatabaseError, paused_row ex_now DAILY_BUDGET_EXCEEDED campaign, db)
  ∧ (let '(r, spend, db1) :=
       spending_models.objects_create true ex_uuid4 ex_now campaign 2500 738000
         DAILY None db in
     r = Ok ()
     ∧ Spend.row_amount <$> DB.spends db1 !! 100%N = Some 2500
     ∧ (spending_services.check_budget_limits ex_now (Spend.campaign spend) db1).1.1
       = Raise DatabaseError
     ∧ (spending_services.check_budget_limits ex_now (Spend.campaign spend) db1).2
       = db1).
Proof. cbv zeta. split; [reflexivity|]. vm_compute. repeat split. Qed.

(** The commit at work: the row of the campaign is gone and the instance is
    under its budgets, so nothing raises inside the block; the commit finds
    the dangling foreign key, raises IntegrityError and rolls back. *)
Lemma track_spend_commit_fails :
  let campaign := ex_campaign 0 0 in
  let db := DB.mk ∅ [] ∅ in
  spending_services.track_spend ex_uuid4 ex_now campaign 2500 None None db
  = (Raise IntegrityError, campaign, db).
Proof. reflexivity. Qed.

(** C3 (the code at the test case of spending/tests.py, test_track_spend):
    tracking 25.00 on a fresh stored campaign succeeds and stores the Spend
    row, but daily_spend and monthly_spend stay 0.00 on the instance and in
    the database. Spend.objects.create builds the instance with its UUID
    primary key already set, so [is_new = self.pk is None] is false and
    add_spend is not called. *)
Theorem track_spend_does_not_increment_counters :
  let '(r, c', db') :=
    spending_services.track_spend ex_uuid4 ex_now (ex_campaign 0 0) 2500 None
      (Some "Test spend"%string) (ex_db 0 0 []) in
  is_ok r = true
  ∧ Spend.row_amount <$> DB.spends db' !! 100%N = Some 2500
  ∧ Campaign.daily_spend c' = 0 ∧ Campaign.monthly_spend c' = 0
  ∧ Campaign.daily_spend <$> DB.campaigns db' !! 7%N = Some 0
  ∧ Campaign.monthly_spend <$> DB.campaigns db' !! 7%N = Some 0.
Proof. vm_compute. repeat split. Qed.

(** The hook itself works: a Spend saved without a primary key (built with
    id=None) does add its amount to the counters of the campaign it holds,
    and writes them to the stored row. *)
Lemma spend_save_without_pk_increments uuid4 now self db row :
  Spend.pk self = None →
  0 < Spend.amount self →
  DB.fits_max_digits
    (Campaign.daily_spend (Spend.campaign self) + Spend.amount self) = true →
  DB.fits_max_digits
    (Campaign.monthly_spend (Spend.campaign self) + Spend.amount self) = true →
  DB.campaigns db !! Campaign.id (Spend.campaign self) = Some row →
  let '(r, self', db') := spending_models.save uuid4 now false self db in
  r = Ok ()
  ∧ Campaign.daily_spend (Spend.campaign self')
    = Campaign.daily_spend (Spend.campaign self) + Spend.amount self
  ∧ Campaign.monthly_spend (Spend.campaign self')
    = Campaign.monthly_spend (Spend.campaign self) + Spend.amount self
  ∧ Campaign.daily_spend <$> DB.campaigns db' !! Campaign.id (Spend.campaign self)
    = Some (Campaign.daily_spend (Spend.campaign self) + Spend.amount self).
Proof.
  intros Hpk Hpos Hd Hm Hrow.
  unfold spending_models.save, spending_models.save_in,
    spending_models.Model_save_in. rewrite Hpk. cbn.
  rewrite (bool_decide_eq_true_2 _ (mk_is_Some _ _ Hrow)). cbn.
  unfold campaigns_models.add_spend.
  assert ((Spend.amount self <=? 0) = false) as -> by (apply Z.leb_gt; lia).
  unfold DB.save_campaign. cbn. rewrite Hd, Hm, Hrow. cbn.
  by rewrite lookup_insert_eq.
Qed.

(** C10: saving a Spend that has its primary key leaves every campaign row
    and the campaign instance it holds unchanged, whatever the save mode. *)
Theorem spend_resave_leaves_counters uuid4 now force_insert self db :
  Spend.pk self ≠ None →
  let '(r, self', db') := spending_models.save uuid4 now force_insert self db in
  DB.campaigns db' = DB.campaigns db
  ∧ Spend.campaign self' = Spend.campaign self.
Proof.
  intros Hpk. unfold spending_models.save, spending_models.save_in,
    spending_models.Model_save_in.
  destruct (Spend.pk self) as [k|] eqn:Hk; [|done]. cbn.
  destruct (negb _); [done|].
  by destruct (force_insert && _).
Qed.

Lemma spend_resave_leaves_counters_witness :
  let self := Spend.mk (Some 100%N) (ex_campaign 2500 2500) 2500 738000 DAILY None in
  let db := DB.mk {[ 7%N := ex_campaign 2500 2500 ]} []
                  {[ 100%N := Spend.to_row self ]} in
  Spend.pk self ≠ None
  ∧ let '(r, self', db') := spending_models.save ex_uuid4 ex_now false self db in
    DB.campaigns db' = DB.campaigns db
    ∧ Spend.campaign self' = Spend.campaign self.
Proof.
  cbv zeta. split; [discriminate|].
  apply (spend_resave_leaves_counters ex_uuid4 ex_now false
    (Spend.mk (Some 100%N) (ex_campaign 2500 2500) 2500 738000 DAILY None)
    (DB.mk {[ 7%N := ex_campaign 2500 2500 ]} []
       {[ 100%N := Spend.to_row
            (Spend.mk (Some 100%N) (ex_campaign 2500 2500) 2500 738000 DAILY None) ]})).
  discriminate.
Defined.

(** ** The dayparting matcher *)

(** C8: with no active schedule of the campaign for the current weekday the
    matcher answers False (so in particular for a campaign without any
    schedule row, at any time); with exactly one it answers True exactly
    when start_time <= time of day <= end_time. *)
Theorem is_campaign_scheduled_now_spec now db campaign :
  (scheduling_models.matching db campaign (weekday now) = [] →
     scheduling_matcher.is_campaign_scheduled_now now db campaign = Ok false)
  ∧ ((∀ s, s ∈ DB.schedules db → Schedule.campaign_id s ≠ Campaign.id campaign) →
     scheduling_matcher.is_campaign_scheduled_now now db campaign = Ok false)
  ∧ (∀ s, scheduling_models.matching db campaign (weekday now) = [s] →
     ∃ b, scheduling_matcher.is_campaign_scheduled_now now db campaign = Ok b
          ∧ (b = true ↔
             Schedule.start_time s ≤ time_of_day now ≤ Schedule.end_time s)).
Proof.
  unfold scheduling_matcher.is_campaign_scheduled_now,
    scheduling_models.get_schedule_for_campaign_and_day.
  split; [|split].
  - by intros ->.
  - intros Hnone.
    assert (scheduling_models.matching db campaign (weekday now) = []) as ->; [|done].
    unfold scheduling_models.matching.
    induction (DB.schedules db) as [|s l IH]; [done|].
    rewrite filter_cons. destruct (decide _) as [(Hc & _ & _)|_].
    + exfalso. apply (Hnone s); [left|done].
    + apply IH. intros s' Hs'. apply Hnone. by right.
  - intros s ->. eexists. split; [reflexivity|].
    unfold Schedule.is_time_in_range.
    rewrite andb_true_iff, !Z.leb_le. done.
Qed.

Lemma is_campaign_scheduled_now_spec_witness :
  let nine_to_six := Schedule.mk 1%N 7%N 3 32400000000 64800000000 true in
  scheduling_matcher.is_campaign_scheduled_now ex_now (ex_db 0 0 []) (ex_campaign 0 0)
    = Ok false
  ∧ scheduling_models.matching (ex_db 0 0 [nine_to_six]) (ex_campaign 0 0)
      (weekday ex_now) = [nine_to_six]
  ∧ ∃ b, scheduling_matcher.is_campaign_scheduled_now ex_now
           (ex_db 0 0 [nine_to_six]) (ex_campaign 0 0) = Ok b
         ∧ (b = true ↔ 32400000000 ≤ time_of_day ex_now ≤ 64800000000).
Proof.
  cbv zeta. split; [|split; [reflexivity|]].
  - apply (proj1 (is_campaign_scheduled_now_spec ex_now (ex_db 0 0 [])
                    (ex_campaign 0 0))).
    reflexivity.
  - apply (proj2 (proj2 (is_campaign_scheduled_now_spec ex_now
             (ex_db 0 0 [Schedule.mk 1%N 7%N 3 32400000000 64800000000 true])
             (ex_campaign 0 0)))
             (Schedule.mk 1%N 7%N 3 32400000000 64800000000 true)).
    reflexivity.
Defined.

(** C9 (as amended): when two or more active schedules of the campaign
    exist for the day, the lookup raises MultipleObjectsReturned (only
    DoesNotExist is handled), and so does the matcher on that weekday. *)
Theorem get_schedule_multiple_raises now db campaign day s1 s2 rest :
  scheduling_models.matching db campaign day = s1 :: s2 :: rest →
  scheduling_models.get_schedule_for_campaign_and_day db campaign day
    = Raise MultipleObjectsReturned
  ∧ (day = weekday now →
     scheduling_matcher.is_campaign_scheduled_now now db campaign
       = Raise MultipleObjectsReturned).
Proof.
  intros Hm. unfold scheduling_matcher.is_campaign_scheduled_now,
    scheduling_models.get_schedule_for_campaign_and_day.
  split; [by rewrite Hm|]. intros ->. by rewrite Hm.
Qed.

Lemma get_schedule_multiple_raises_witness :
  scheduling_models.matching (ex_db 0 0 [ex_morning; ex_afternoon]) (ex_campaign 0 0) 3
    = [ex_morning; ex_afternoon]
  ∧ scheduling_models.get_schedule_for_campaign_and_day
      (ex_db 0 0 [ex_morning; ex_afternoon]) (ex_campaign 0 0) 3
    = Raise MultipleObjectsReturned.
Proof.
  split; [reflexivity|].
  apply (get_schedule_multiple_raises ex_now (ex_db 0 0 [ex_morning; ex_afternoon])
           (ex_campaign 0 0) 3 ex_morning ex_afternoon []).
  reflexivity.
Defined.

(** C9 (as stated) fails: with two active Thursday schedules, at 10:00 on a
    Thursday the first stored schedule covers the time, yet the lookup does
    not return it and the matcher does not answer with its verdict. *)
Lemma get_schedule_multiple_not_first :
  let db := ex_db 0 0 [ex_morning; ex_afternoon] in
  let c := ex_campaign 0 0 in
  head (scheduling_models.matching db c (weekday ex_now)) = Some ex_morning
  ∧ Schedule.is_time_in_range ex_morning (time_of_day ex_now) = true
  ∧ scheduling_models.get_schedule_for_campaign_and_day db c (weekday ex_now)
    ≠ Ok (Some ex_morning)
  ∧ scheduling_matcher.is_campaign_scheduled_now ex_now db c
    ≠ Ok (Schedule.is_time_in_range ex_morning (time_of_day ex_now))
  ∧ is_ok (scheduling_matcher.is_campaign_scheduled_now ex_now db c) = false.
Proof.
  cbv zeta. split; [reflexivity|]. split; [reflexivity|].
  split; [vm_compute; discriminate|]. split; [vm_compute; discriminate|].
  reflexivity.
Qed.

(** ** Instances loaded from the campaigns table *)

Lemma elem_of_all_campaigns db c :
  c ∈ DB.all_campaigns db ↔
  ∃ row, DB.campaigns db !! Campaign.id c = Some row
         ∧ c = Campaign.set_id (Campaign.id c) row.
Proof.
  unfold DB.all_campaigns. rewrite list_elem_of_fmap. split.
  - intros ([k row] & -> & Hin). apply elem_of_map_to_list in Hin.
    exists row. by split.
  - intros (row & Hrow & Hc). exists (Campaign.id c, row). split; [done|].
    by apply elem_of_map_to_list.
Qed.

Lemma all_campaigns_ids db :
  Campaign.id <$> DB.all_campaigns db = (map_to_list (DB.campaigns db)).*1.
Proof.
  unfold DB.all_campaigns. rewrite <- list_fmap_compose.
  apply list_fmap_ext. by intros _ [k row] _.
Qed.

Lemma NoDup_all_campaigns_ids db : NoDup (Campaign.id <$> DB.all_campaigns db).
Proof. rewrite all_campaigns_ids. apply NoDup_fst_map_to_list. Qed.

(** ** What one call writes to the campaigns table *)

Lemma writes_at_refl k f db : writes_at k f db db.
Proof. split; [done|]. split; [done|]. by left. Qed.

Lemma writes_at_lookup_ne k f db db' k' :
  writes_at k f db db' → k' ≠ k → DB.campaigns db' !! k' = DB.campaigns db !! k'.
Proof.
  intros (_ & _ & [->|(row & _ & ->)]) Hne; [done|].
  by rewrite lookup_insert_ne.
Qed.

Lemma pause_writes now reason self db :
  writes_at (Campaign.id self) (paused_row now reason) db
    (campaigns_models.pause now reason self db).2.
Proof.
  destruct (DB.campaigns db !! Campaign.id self) as [row|] eqn:Hrow.
  - rewrite (pause_stored _ _ _ _ _ Hrow). cbn.
    split; [done|]. split; [done|]. right. by exists row.
  - rewrite (pause_missing _ _ _ _ Hrow). apply writes_at_refl.
Qed.

Lemma activate_writes now self db :
  writes_at (Campaign.id self) (activated_row now) db
    (campaigns_models.activate now self db).2.
Proof.
  unfold campaigns_models.activate.
  destruct (campaigns_models.can_be_activated now self db) as [[|]|];
    try apply writes_at_refl.
  unfold DB.save_campaign. cbn.
  destruct (DB.campaigns db !! Campaign.id self) as [row|] eqn:Hrow;
    [|apply writes_at_refl].
  cbn. split; [done|]. split; [done|]. right. by exists row.
Qed.

(** A loop over instances keeps whatever every iteration keeps. *)
Lemma foldl_invariant {S A} (P : S → Prop) (f : S → A → S) (l : list A) (s : S) :
  P s → (∀ s a, a ∈ l → P s → P (f s a)) → P (foldl f s l).
Proof.
  revert s. induction l as [|a l IH]; intros s Hs Hstep; [done|].
  cbn. apply IH.
  - apply Hstep; [left|done].
  - intros s' a' Ha'. apply Hstep. by right.
Qed.

(** ** The dayparting sweep leaves manual and budget pauses alone *)

Lemma pause_step_lookup now acc campaign k :
  (Campaign.id campaign = k → Campaign.status campaign ≠ ACTIVE) →
  DB.campaigns (scheduling_services.pause_step now acc campaign).2 !! k
    = DB.campaigns acc.2 !! k.
Proof.
  intros Hk. destruct acc as [results db]. unfold scheduling_services.pause_step.
  destruct (Campaign.is_active campaign) eqn:Hact; [|done].
  apply bool_decide_eq_true in Hact.
  pose proof (pause_writes now OUTSIDE_SCHEDULE campaign db) as Hw.
  destruct (campaigns_models.pause now OUTSIDE_SCHEDULE campaign db) as [[[]] db'];
    cbn in *; apply (writes_at_lookup_ne _ _ _ _ _ Hw); naive_solver.
Qed.

Lemma activate_step_lookup now acc campaign k :
  (Campaign.id campaign = k →
   Campaign.pause_reason campaign ∉ [Some OUTSIDE_SCHEDULE; Some NO_SCHEDULE]) →
  DB.campaigns (scheduling_services.activate_step now acc campaign).2 !! k
    = DB.campaigns acc.2 !! k.
Proof.
  intros Hk. destruct acc as [results db]. unfold scheduling_services.activate_step.
  destruct (Campaign.is_paused campaign); [|done]. cbn.
  destruct (bool_decide _) eqn:Hreason; [|done].
  apply bool_decide_eq_true in Hreason.
  destruct (campaigns_models.can_be_activated now campaign db) as [[|]|]; try done.
  pose proof (activate_writes now campaign db) as Hw.
  destruct (campaigns_models.activate now campaign db) as [[[]] db'];
    cbn in *; apply (writes_at_lookup_ne _ _ _ _ _ Hw); naive_solver.
Qed.

Lemma collect_to_pause_subseteq now db active l :
  scheduling_services.collect_to_pause now db active = Ok l → l ⊆ active.
Proof.
  revert l. induction active as [|c rest IH]; intros l; cbn.
  - by intros [= <-].
  - destruct (scheduling_models.get_schedule_for_campaign_and_day _ _ _); [|done].
    destruct (scheduling_services.collect_to_pause now db rest) as [l'|]; [|done].
    specialize (IH l' eq_refl). intros [= <-] x Hx.
    case_match; [apply elem_of_cons in Hx as [->|Hx]; [left|]|];
      right; by apply IH.
Qed.

Lemma elem_of_should_be_active now db c :
  c ∈ scheduling_services.get_campaigns_that_should_be_active now db →
  ∃ row, DB.campaigns db !! Campaign.id c = Some row
         ∧ c = Campaign.set_id (Campaign.id c) row.
Proof.
  unfold scheduling_services.get_campaigns_that_should_be_active.
  rewrite list_elem_of_omap. intros (s & _ & Hs).
  destruct (DB.campaigns db !! Schedule.campaign_id s) as [row|] eqn:Hrow; [|done].
  cbn in Hs. injection Hs as <-. by exists row.
Qed.

(** C7: a campaign that is PAUSED with reason MANUAL,
    DAILY_BUDGET_EXCEEDED or MONTHLY_BUDGET_EXCEEDED keeps its stored row
    through enforce_dayparting: status, pause_reason, paused_at and every
    other column. *)
Theorem enforce_dayparting_frame now db k row :
  DB.campaigns db !! k = Some row →
  Campaign.status row = PAUSED →
  Campaign.pause_reason row
    ∈ [Some MANUAL; Some DAILY_BUDGET_EXCEEDED; Some MONTHLY_BUDGET_EXCEEDED] →
  DB.campaigns (scheduling_services.enforce_dayparting now db).2 !! k = Some row.
Proof.
  intros Hrow Hst Hreason. unfold scheduling_services.enforce_dayparting.
  destruct (scheduling_services.get_campaigns_that_should_be_paused now db)
    as [to_pause|] eqn:Hcollect; [|done].
  apply collect_to_pause_subseteq in Hcollect.
  (* first loop *)
  assert (DB.campaigns
            (foldl (scheduling_services.pause_step now)
               (mk_DaypartingResults 0 0 0, db) to_pause).2 !! k = Some row) as H1.
  { apply (foldl_invariant (λ acc, DB.campaigns acc.2 !! k = Some row)); [done|].
    intros acc c Hc Hacc. rewrite pause_step_lookup; [done|].
    intros Hid. apply Hcollect in Hc.
    apply list_elem_of_filter in Hc as [_ Hc].
    apply elem_of_all_campaigns in Hc as (row' & Hrow' & ->).
    cbn in Hid. subst k. cbn. cbn in Hrow'. congruence. }
  destruct (foldl (scheduling_services.pause_step now) _ to_pause) as [results db1].
  cbn in H1.
  (* second loop *)
  apply (foldl_invariant (λ acc, DB.campaigns acc.2 !! k = Some row)); [done|].
  intros acc c Hc Hacc. rewrite activate_step_lookup; [done|].
  intros Hid. apply elem_of_should_be_active in Hc as (row' & Hrow' & ->).
  cbn in Hid. subst k. cbn. cbn in Hrow'.
  assert (row' = row) as -> by congruence.
  rewrite !elem_of_cons, elem_of_nil in Hreason.
  rewrite !not_elem_of_cons.
  destruct Hreason as [-> | [-> | [-> | []]]];
    (split; [done|]; split; [done|apply not_elem_of_nil]).
Qed.

Lemma enforce_dayparting_frame_witness :
  let row := Campaign.mk 7%N ex_brand PAUSED 0 0 (Some MANUAL)
               (Some (mk_datetime 737999 0)) (mk_datetime 737999 0) in
  scheduling_services.get_campaigns_that_should_be_active ex_now ex_manual_db = [row]
  ∧ DB.campaigns (scheduling_services.enforce_dayparting ex_now ex_manual_db).2 !! 7%N
    = Some row.
Proof.
  cbv zeta. split; [reflexivity|].
  apply (enforce_dayparting_frame ex_now ex_manual_db 7%N);
    [reflexivity | reflexivity | left].
Defined.

(** ** The daily reset *)

(** A loop whose iteration on instance [c] rewrites at most the row under
    [c]'s key, by [h c], and keeps the schedules: over instances with
    distinct keys every row is rewritten by the instance of its key. *)
Lemma foldl_rows {R} (step : R * DB.t → Campaign.t → R * DB.t)
    (h : Campaign.t → Campaign.t → Campaign.t) (scheds : list Schedule.t) :
  (∀ acc c, DB.schedules acc.2 = scheds →
     DB.schedules (step acc c).2 = scheds
     ∧ ∀ k, DB.campaigns (step acc c).2 !! k
            = if decide (k = Campaign.id c) then h c <$> DB.campaigns acc.2 !! k
              else DB.campaigns acc.2 !! k) →
  ∀ l acc, NoDup (Campaign.id <$> l) → DB.schedules acc.2 = scheds →
    DB.schedules (foldl step acc l).2 = scheds
    ∧ ∀ k, (∀ c, c ∈ l → Campaign.id c = k →
              DB.campaigns (foldl step acc l).2 !! k = h c <$> DB.campaigns acc.2 !! k)
           ∧ (k ∉ Campaign.id <$> l →
              DB.campaigns (foldl step acc l).2 !! k = DB.campaigns acc.2 !! k).
Proof.
  intros Hstep l. induction l as [|c0 l IH]; intros acc Hnd Hs.
  - split; [done|]. intros k. split; [|done]. intros c Hc. by apply elem_of_nil in Hc.
  - rewrite fmap_cons in Hnd. apply NoDup_cons in Hnd as [Hc0 Hnd].
    destruct (Hstep acc c0 Hs) as [Hs1 Hrow1].
    destruct (IH (step acc c0) Hnd Hs1) as [Hs2 Hrows]. cbn.
    split; [done|]. intros k. destruct (Hrows k) as [Hin Hout]. split.
    + intros c Hc Hid. apply elem_of_cons in Hc as [->|Hc].
      * rewrite Hout by (by rewrite Hid in Hc0).
        rewrite Hrow1. by rewrite decide_True.
      * rewrite (Hin c Hc Hid), Hrow1. rewrite decide_False; [done|].
        intros ->. apply Hc0. rewrite <- Hid. by apply list_elem_of_fmap_2.
    + rewrite not_elem_of_cons. intros [Hne Hnotin].
      rewrite (Hout Hnotin), Hrow1. by rewrite decide_False.
Qed.

Lemma can_be_activated_schedules now c db db' :
  DB.schedules db' = DB.schedules db →
  campaigns_models.can_be_activated now c db'
    = campaigns_models.can_be_activated now c db.
Proof.
  intros Hs. unfold campaigns_models.can_be_activated,
    scheduling_matcher.is_campaign_scheduled_now,
    scheduling_models.get_schedule_for_campaign_and_day,
    scheduling_models.matching.
  by rewrite Hs.
Qed.

Lemma reset_daily_step_rows now db0 (acc : ResetResults * DB.t) c :
  DB.schedules acc.2 = DB.schedules db0 →
  DB.schedules
    (spending_services.reset_step (campaigns_models.reset_daily_spend now) acc c).2
    = DB.schedules db0
  ∧ ∀ k, DB.campaigns
           (spending_services.reset_step (campaigns_models.reset_daily_spend now) acc c).2
           !! k
         = if decide (k = Campaign.id c)
           then daily_reset_row now <$> DB.campaigns acc.2 !! k
           else DB.campaigns acc.2 !! k.
Proof.
  destruct acc as [results db]. cbn. intros Hs.
  unfold spending_services.reset_step, campaigns_models.reset_daily_spend,
    DB.save_campaign. cbn.
  destruct (DB.campaigns db !! Campaign.id c) as [row|] eqn:Hrow; cbn.
  - split; [done|]. intros k. rewrite lookup_insert.
    destruct (decide (Campaign.id c = k)) as [<-|Hne].
    + rewrite decide_True by done. by rewrite Hrow.
    + by rewrite decide_False by done.
  - split; [done|]. intros k. case_decide; [|done]. subst k. by rewrite Hrow.
Qed.

Lemma reactivate_step_rows now db0 (acc : ResetResults * DB.t) c :
  DB.schedules acc.2 = DB.schedules db0 →
  DB.schedules (spending_services.reactivate_step now acc c).2 = DB.schedules db0
  ∧ ∀ k, DB.campaigns (spending_services.reactivate_step now acc c).2 !! k
         = if decide (k = Campaign.id c)
           then (if can_activate now db0 c then activated_row now else id)
                  <$> DB.campaigns acc.2 !! k
           else DB.campaigns acc.2 !! k.
Proof.
  destruct acc as [results db]. cbn. intros Hs.
  unfold spending_services.reactivate_step, can_activate, campaigns_models.activate.
  rewrite (can_be_activated_schedules now c db0 db Hs).
  destruct (campaigns_models.can_be_activated now c db0) as [[|]|]; cbn.
  - unfold DB.save_campaign. cbn.
    destruct (DB.campaigns db !! Campaign.id c) as [row|] eqn:Hrow; cbn.
    + split; [done|]. intros k. rewrite lookup_insert.
      destruct (decide (Campaign.id c = k)) as [<-|Hne].
      * rewrite decide_True by done. by rewrite Hrow.
      * by rewrite decide_False by done.
    + split; [done|]. intros k. case_decide; [|done]. subst k. by rewrite Hrow.
  - split; [done|]. intros k. case_decide; [|done]. by rewrite option_fmap_id.
  - split; [done|]. intros k. case_decide; [|done]. by rewrite option_fmap_id.
Qed.

Lemma NoDup_filter_ids (P : Campaign.t → Prop) `{!∀ c, Decision (P c)} db :
  NoDup (Campaign.id <$> filter P (DB.all_campaigns db)).
Proof.
  eapply sublist_NoDup; [apply NoDup_all_campaigns_ids|].
  apply fmap_sublist, sublist_filter.
Qed.

(** Both loops of reset_daily_spends, row by row. *)
Lemma reset_daily_spends_rows now db k :
  DB.campaigns (spending_services.reset_daily_spends now db).2 !! k
  = (λ row,
       let zeroed := daily_reset_row now row in
       if bool_decide (Campaign.status row = PAUSED
                       ∧ Campaign.pause_reason row = Some DAILY_BUDGET_EXCEEDED)
          && can_activate now db (DB.from_db (k, zeroed))
       then activated_row now zeroed else zeroed)
    <$> DB.campaigns db !! k.
Proof.
  unfold spending_services.reset_daily_spends.
  (* first loop *)
  destruct (foldl_rows
              (spending_services.reset_step (campaigns_models.reset_daily_spend now))
              (λ _, daily_reset_row now) (DB.schedules db)
              (λ acc c, reset_daily_step_rows now db acc c)
              (DB.all_campaigns db) (mk_ResetResults 0 0 0, db)
              (NoDup_all_campaigns_ids db) eq_refl) as [Hs1 Hrows1].
  destruct (foldl _ _ (DB.all_campaigns db)) as [results db1]. cbn in Hs1, Hrows1.
  assert (∀ k', DB.campaigns db1 !! k' = daily_reset_row now <$> DB.campaigns db !! k')
    as Hdb1.
  { intros k'. destruct (Hrows1 k') as [Hin Hout].
    destruct (DB.campaigns db !! k') as [row|] eqn:Hrow.
    - rewrite (Hin (Campaign.set_id k' row)); [by rewrite ?Hrow| |done].
      apply elem_of_all_campaigns. by exists row.
    - rewrite Hout; [by rewrite ?Hrow|].
      intros (c & -> & Hc)%list_elem_of_fmap.
      apply elem_of_all_campaigns in Hc as (row & Hrow' & _). congruence. }
  clear Hrows1.
  (* second loop *)
  destruct (foldl_rows (spending_services.reactivate_step now)
              (λ c, if can_activate now db c then activated_row now else id)
              (DB.schedules db) (λ acc c, reactivate_step_rows now db acc c)
              (filter (λ c, Campaign.status c = PAUSED
                            ∧ Campaign.pause_reason c = Some DAILY_BUDGET_EXCEEDED)
                      (DB.all_campaigns db1))
              (results, db1) (NoDup_filter_ids _ db1) Hs1) as [_ Hrows2].
  destruct (Hrows2 k) as [Hin Hout]. clear Hrows2. cbn in Hin, Hout.
  rewrite Hdb1 in Hin, Hout.
  destruct (DB.campaigns db !! k) as [row|] eqn:Hrow; cbn in *.
  - destruct (bool_decide _) eqn:Hp; cbn.
    + apply bool_decide_eq_true in Hp.
      rewrite (Hin (DB.from_db (k, daily_reset_row now row))); [|..|done].
      * by destruct (can_activate now db _).
      * apply list_elem_of_filter. split; [done|].
        apply elem_of_all_campaigns. exists (daily_reset_row now row).
        split; [|done]. cbn. by rewrite Hdb1, Hrow.
    + apply bool_decide_eq_false in Hp. rewrite Hout; [done|].
      intros (c & -> & Hc)%list_elem_of_fmap.
      apply list_elem_of_filter in Hc as [Hpc Hc].
      apply elem_of_all_campaigns in Hc as (row1 & Hrow1 & Hc).
      rewrite Hdb1, Hrow in Hrow1. injection Hrow1 as <-.
      rewrite Hc in Hpc. by apply Hp.
  - apply Hout. intros (c & -> & Hc)%list_elem_of_fmap.
    apply list_elem_of_filter in Hc as [_ Hc].
    apply elem_of_all_campaigns in Hc as (row1 & Hrow1 & _).
    rewrite Hdb1, Hrow in Hrow1. done.
Qed.




(** ** The pairing of status, pause_reason and paused_at *)

Lemma paired_paused_row now reason c : paired (paused_row now reason c).
Proof. split; cbn; split; discriminate. Qed.

Lemma paired_activated_row now c : paired (activated_row now c).
Proof. split; cbn; split; done. Qed.

(** A write that keeps the three columns keeps the pairing. *)
Lemma paired_same_state c c' :
  Campaign.status c' = Campaign.status c →
  Campaign.pause_reason c' = Campaign.pause_reason c →
  Campaign.paused_at c' = Campaign.paused_at c →
  paired c → paired c'.
Proof. unfold paired. by intros -> -> ->. Qed.

Lemma paired_db_insert db k row :
  paired_db db → paired row →
  paired_db (DB.set_campaigns (<[k := row]> (DB.campaigns db)) db).
Proof.
  intros Hdb Hrow k' row'. cbn. rewrite lookup_insert.
  case_decide; [by intros [= <-]|]. apply Hdb.
Qed.

Lemma paired_db_campaigns db db' :
  DB.campaigns db' = DB.campaigns db → paired_db db → paired_db db'.
Proof. unfold paired_db. by intros ->. Qed.

Lemma writes_at_paired k f db db' :
  writes_at k f db db' → (∀ row, paired row → paired (f row)) →
  paired_db db → paired_db db'.
Proof.
  intros (_ & _ & [Heq|(row & Hrow & Heq)]) Hf Hdb.
  - by apply (paired_db_campaigns db).
  - intros k' row'. rewrite Heq, lookup_insert.
    case_decide; [|apply Hdb]. intros [= <-]. by apply Hf, (Hdb k).
Qed.

(** Model.save(update_fields=...) of a Campaign, as a write. *)
Lemma save_campaign_writes now fields self db :
  let self' :=
    if existsb (λ f, match f with F_updated_at => true | _ => false end) fields
    then Campaign.set_updated_at now self else self in
  (DB.save_campaign now fields self db).1.2 = self'
  ∧ writes_at (Campaign.id self) (λ row, foldr (Campaign.copy_field self') row fields)
      db (DB.save_campaign now fields self db).2.
Proof.
  cbv zeta. unfold DB.save_campaign.
  set (self' := if existsb _ fields then _ else _).
  assert (Campaign.id self' = Campaign.id self) as Hid
    by (subst self'; by destruct (existsb _ fields)).
  rewrite Hid.
  destruct (negb (forallb (DB.prepares self') fields)); cbn;
    [split; [done|]; apply writes_at_refl|].
  destruct (DB.campaigns db !! Campaign.id self) as [row|] eqn:Hrow; cbn.
  - split; [done|]. split; [done|]. split; [done|]. right. by exists row.
  - split; [done|]. apply writes_at_refl.
Qed.

Lemma pause_paired now reason self db :
  paired_db db →
  paired_db (campaigns_models.pause now reason self db).2
  ∧ paired (campaigns_models.pause now reason self db).1.2.
Proof.
  intros Hdb. split.
  - eapply writes_at_paired; [apply pause_writes| |done].
    intros. apply paired_paused_row.
  - destruct (DB.campaigns db !! Campaign.id self) as [row|] eqn:Hrow.
    + rewrite (pause_stored _ _ _ _ _ Hrow). apply paired_paused_row.
    + rewrite (pause_missing _ _ _ _ Hrow). apply paired_paused_row.
Qed.

Lemma activate_paired now self db :
  paired_db db → paired self →
  paired_db (campaigns_models.activate now self db).2
  ∧ paired (campaigns_models.activate now self db).1.2.
Proof.
  intros Hdb Hself. split.
  - eapply writes_at_paired; [apply activate_writes| |done].
    intros. apply paired_activated_row.
  - unfold campaigns_models.activate.
    destruct (campaigns_models.can_be_activated now self db) as [[|]|]; try done.
    unfold DB.save_campaign. cbn.
    destruct (DB.campaigns db !! Campaign.id self); apply paired_activated_row.
Qed.

Ltac save_writes Hi Hw :=
  cbv zeta;
  match goal with
  | |- context [DB.save_campaign ?n ?f ?s ?d] =>
      destruct (save_campaign_writes n f s d) as [Hi Hw];
      cbn [existsb orb] in Hi, Hw
  end.

Lemma add_spend_paired now amount self db :
  paired_db db → paired self →
  paired_db (campaigns_models.add_spend now amount self db).2
  ∧ paired (campaigns_models.add_spend now amount self db).1.2.
Proof.
  intros Hdb Hself. unfold campaigns_models.add_spend.
  destruct (amount <=? 0); [done|].
  save_writes Hi Hw. rewrite Hi. split.
  - eapply writes_at_paired; [apply Hw| |done].
    intros row. by apply paired_same_state.
  - revert Hself. by apply paired_same_state.
Qed.

Lemma reset_daily_spend_paired now self db :
  paired_db db → paired self →
  paired_db (campaigns_models.reset_daily_spend now self db).2
  ∧ paired (campaigns_models.reset_daily_spend now self db).1.2.
Proof.
  intros Hdb Hself. unfold campaigns_models.reset_daily_spend.
  save_writes Hi Hw. rewrite Hi. split.
  - eapply writes_at_paired; [apply Hw| |done].
    intros row. by apply paired_same_state.
  - revert Hself. by apply paired_same_state.
Qed.

Lemma reset_monthly_spend_paired now self db :
  paired_db db → paired self →
  paired_db (campaigns_models.reset_monthly_spend now self db).2
  ∧ paired (campaigns_models.reset_monthly_spend now self db).1.2.
Proof.
  intros Hdb Hself. unfold campaigns_models.reset_monthly_spend.
  save_writes Hi Hw. rewrite Hi. split.
  - eapply writes_at_paired; [apply Hw| |done].
    intros row. by apply paired_same_state.
  - revert Hself. by apply paired_same_state.
Qed.

Ltac pause_paired_step :=
  match goal with
  | Hdb : paired_db ?db |- context [campaigns_models.pause ?n ?r ?c ?db] =>
      let H1 := fresh "Hdb" in
      let H2 := fresh "Hc" in
      destruct (pause_paired n r c db Hdb) as [H1 H2];
      destruct (campaigns_models.pause n r c db) as [[[[]|] ?] ?]; cbn in *
  end.

Lemma check_budget_limits_paired now c db :
  paired_db db → paired c →
  paired_db (spending_services.check_budget_limits now c db).2
  ∧ paired (spending_services.check_budget_limits now c db).1.2.
Proof.
  intros Hdb Hc. unfold spending_services.check_budget_limits.
  repeat first
    [ pause_paired_step
    | match goal with
      | |- context [if ?b then _ else _] => destruct b; cbn
      end ];
    done.
Qed.

Lemma spend_save_paired uuid4 now force_insert s db :
  paired_db db → paired (Spend.campaign s) →
  paired_db (spending_models.save uuid4 now force_insert s db).2
  ∧ paired (Spend.campaign (spending_models.save uuid4 now force_insert s db).1.2).
Proof.
  intros Hdb Hc. unfold spending_models.save, spending_models.save_in,
    spending_models.Model_save_in. cbn.
  destruct (negb _); [done|].
  destruct (force_insert && _); [done|]. cbn.
  destruct (bool_decide (Spend.pk s = None)); [|done].
  match goal with
  | |- context [campaigns_models.add_spend ?n ?a ?c ?d] =>
      destruct (add_spend_paired n a c d) as [H1 H2]; [done|done|];
      destruct (campaigns_models.add_spend n a c d) as [[r c'] db']
  end.
  done.
Qed.

Lemma track_spend_paired uuid4 now c amount spend_date description db :
  paired_db db → paired c →
  paired_db (spending_services.track_spend uuid4 now c amount spend_date
               description db).2
  ∧ paired (spending_services.track_spend uuid4 now c amount spend_date
              description db).1.2.
Proof.
  intros Hdb Hc. rewrite track_spend_eq. cbv zeta.
  destruct (amount <=? 0); [done|].
  destruct (bool_decide (is_Some (DB.spends db !! uuid4 0%nat))); [done|].
  match goal with
  | |- context [spending_services.check_budget_limits ?n ?c ?d] =>
      destruct (check_budget_limits_paired n c d) as [H1 H2]; [done|done|];
      destruct (spending_services.check_budget_limits n c d) as [[[] c'] db']
  end; [destruct (bool_decide (is_Some _))|]; done.
Qed.

(** The sweeps: every iteration keeps the stored pairing. *)
Lemma enforce_step_paired now acc c :
  paired_db acc.2 → paired_db (spending_services.enforce_step now acc c).2.
Proof.
  destruct acc as [results db]. cbn. intros Hdb.
  unfold spending_services.enforce_step.
  assert (paired_db (spending_services.check_budget_limits now c db).2) as H.
  { (* the instance's own pairing is not needed for the stored rows *)
    unfold spending_services.check_budget_limits.
    repeat first
      [ pause_paired_step
      | match goal with
        | |- context [if ?b then _ else _] => destruct b; cbn
        end ];
      done. }
  destruct (spending_services.check_budget_limits now c db) as [[[bc|] c'] db'];
    [|done]. by destruct (action_taken bc) as [[]|].
Qed.

Lemma reset_step_paired reset_spend acc c :
  (∀ db, paired_db db → paired_db (reset_spend c db).2) →
  paired_db acc.2 → paired_db (spending_services.reset_step reset_spend acc c).2.
Proof.
  destruct acc as [results db]. cbn. intros Hreset Hdb.
  unfold spending_services.reset_step. specialize (Hreset db Hdb).
  by destruct (reset_spend c db) as [[[]] db'].
Qed.

Lemma reactivate_step_paired now acc c :
  paired_db acc.2 → paired_db (spending_services.reactivate_step now acc c).2.
Proof.
  destruct acc as [results db]. cbn. intros Hdb.
  unfold spending_services.reactivate_step.
  destruct (campaigns_models.can_be_activated now c db) as [[|]|]; try done.
  assert (paired_db (campaigns_models.activate now c db).2) as H.
  { eapply writes_at_paired; [apply activate_writes| |done].
    intros. apply paired_activated_row. }
  by destruct (campaigns_models.activate now c db) as [[[]] db'].
Qed.

Lemma pause_step_paired now acc c :
  paired_db acc.2 → paired_db (scheduling_services.pause_step now acc c).2.
Proof.
  destruct acc as [results db]. cbn. intros Hdb.
  unfold scheduling_services.pause_step.
  destruct (Campaign.is_active c); [|done].
  destruct (pause_paired now OUTSIDE_SCHEDULE c db Hdb) as [H _].
  by destruct (campaigns_models.pause now OUTSIDE_SCHEDULE c db) as [[[]] db'].
Qed.

Lemma activate_step_paired now acc c :
  paired_db acc.2 → paired_db (scheduling_services.activate_step now acc c).2.
Proof.
  destruct acc as [results db]. cbn. intros Hdb.
  unfold scheduling_services.activate_step.
  destruct (_ && _); [|done].
  destruct (campaigns_models.can_be_activated now c db) as [[|]|]; try done.
  assert (paired_db (campaigns_models.activate now c db).2) as H.
  { eapply writes_at_paired; [apply activate_writes| |done].
    intros. apply paired_activated_row. }
  by destruct (campaigns_models.activate now c db) as [[[]] db'].
Qed.

Lemma reset_spend_rows_paired now db c :
  paired_db db →
  paired_db (campaigns_models.reset_daily_spend now c db).2
  ∧ paired_db (campaigns_models.reset_monthly_spend now c db).2.
Proof.
  intros Hdb.
  unfold campaigns_models.reset_daily_spend, campaigns_models.reset_monthly_spend.
  split; save_writes Hi Hw;
    (eapply writes_at_paired; [apply Hw| |done]);
    intros row; by apply paired_same_state.
Qed.

(** C5: the pairing is an invariant of every operation. If every stored
    campaign has pause_reason and paused_at both empty exactly when it is
    ACTIVE, and the instance the operation is called on (if any) does too,
    then the same holds after pause, activate, add_spend, the single-campaign
    resets, Spend.save, check_budget_limits, track_spend, and the sweeps
    enforce_budget_limits, reset_daily_spends, reset_monthly_spends and
    enforce_dayparting, whether or not the call raised. *)
Theorem pairing_invariant now o db :
  paired_db db →
  from_option paired True (op_instance o) →
  paired_db (run now o db).2 ∧ from_option paired True (run now o db).1.
Proof.
  intros Hdb Hc. destruct o; cbn in Hc |- *.
  - destruct (pause_paired now reason c db Hdb) as [H1 H2].
    by destruct (campaigns_models.pause now reason c db) as [[r c'] db'].
  - destruct (activate_paired now c db Hdb Hc) as [H1 H2].
    by destruct (campaigns_models.activate now c db) as [[r c'] db'].
  - destruct (add_spend_paired now amount c db Hdb Hc) as [H1 H2].
    by destruct (campaigns_models.add_spend now amount c db) as [[r c'] db'].
  - destruct (reset_daily_spend_paired now c db Hdb Hc) as [H1 H2].
    by destruct (campaigns_models.reset_daily_spend now c db) as [[r c'] db'].
  - destruct (reset_monthly_spend_paired now c db Hdb Hc) as [H1 H2].
    by destruct (campaigns_models.reset_monthly_spend now c db) as [[r c'] db'].
  - destruct (spend_save_paired uuid4 now force_insert s db Hdb Hc) as [H1 H2].
    by destruct (spending_models.save uuid4 now force_insert s db) as [[r s'] db'].
  - destruct (check_budget_limits_paired now c db Hdb Hc) as [H1 H2].
    by destruct (spending_services.check_budget_limits now c db) as [[r c'] db'].
  - destruct (track_spend_paired uuid4 now c amount spend_date description db Hdb Hc)
      as [H1 H2].
    by destruct (spending_services.track_spend uuid4 now c amount spend_date
                   description db) as [[r c'] db'].
  - split; [|done]. unfold spending_services.enforce_budget_limits.
    apply (foldl_invariant (λ acc, paired_db acc.2)); [done|].
    intros acc c _. apply enforce_step_paired.
  - split; [|done]. unfold spending_services.reset_daily_spends.
    assert (paired_db
              (foldl (spending_services.reset_step
                        (campaigns_models.reset_daily_spend now))
                 (mk_ResetResults 0 0 0, db) (DB.all_campaigns db)).2) as H1.
    { apply (foldl_invariant (λ acc, paired_db acc.2)); [done|].
      intros acc c _. apply reset_step_paired.
      intros db' Hdb'. by apply reset_spend_rows_paired. }
    destruct (foldl _ _ (DB.all_campaigns db)) as [results db1].
    apply (foldl_invariant (λ acc, paired_db acc.2)); [done|].
    intros acc c _. apply reactivate_step_paired.
  - split; [|done]. unfold spending_services.reset_monthly_spends.
    assert (paired_db
              (foldl (spending_services.reset_step
                        (campaigns_models.reset_monthly_spend now))
                 (mk_ResetResults 0 0 0, db) (DB.all_campaigns db)).2) as H1.
    { apply (foldl_invariant (λ acc, paired_db acc.2)); [done|].
      intros acc c _. apply reset_step_paired.
      intros db' Hdb'. by apply reset_spend_rows_paired. }
    destruct (foldl _ _ (DB.all_campaigns db)) as [results db1].
    apply (foldl_invariant (λ acc, paired_db acc.2)); [done|].
    intros acc c _. apply reactivate_step_paired.
  - split; [|done]. unfold scheduling_services.enforce_dayparting.
    destruct (scheduling_services.get_campaigns_that_should_be_paused now db)
      as [to_pause|]; [|done].
    assert (paired_db
              (foldl (scheduling_services.pause_step now)
                 (mk_DaypartingResults 0 0 0, db) to_pause).2) as H1.
    { apply (foldl_invariant (λ acc, paired_db acc.2)); [done|].
      intros acc c _. apply pause_step_paired. }
    destruct (foldl _ _ to_pause) as [results db1].
    apply (foldl_invariant (λ acc, paired_db acc.2)); [done|].
    intros acc c _. apply activate_step_paired.
Qed.

Lemma pairing_invariant_witness :
  let c := ex_campaign 12000 150000 in
  let db := ex_db 12000 150000 [] in
  paired_db db ∧ paired c
  ∧ paired_db (run ex_now (op_check_budget_limits c) db).2
  ∧ from_option paired True (run ex_now (op_check_budget_limits c) db).1
  ∧ Campaign.status
      <$> DB.campaigns (run ex_now (op_check_budget_limits c) db).2 !! 7%N
    = Some PAUSED.
Proof.
  cbv zeta.
  assert (paired (ex_campaign 12000 150000)) as Hc by (split; cbn; split; done).
  assert (paired_db (ex_db 12000 150000 [])) as Hdb.
  { intros k row. cbn. rewrite lookup_singleton_Some. by intros [_ <-]. }
  split; [exact Hdb|]. split; [exact Hc|].
  destruct (pairing_invariant ex_now (op_check_budget_limits (ex_campaign 12000 150000))
              (ex_db 12000 150000 []) Hdb Hc) as [H1 H2].
  split; [exact H1|]. split; [exact H2|]. reflexivity.
Defined.

(** * Further properties of the modelled code *)

(** ** The state machine *)

(** X1: can_be_activated tests the budgets before the schedule. It returns
    True exactly when both counters are below the brand budgets and the
    matcher returns True, and it raises exactly when both counters are below
    the budgets and the matcher raises: at or over a budget the answer is
    False even when the schedule lookup would fail. *)
Theorem can_be_activated_spec now c db :
  (campaigns_models.can_be_activated now c db = Ok true ↔
     Campaign.daily_spend c < Brand.daily_budget (Campaign.brand c)
     ∧ Campaign.monthly_spend c < Brand.monthly_budget (Campaign.brand c)
     ∧ scheduling_matcher.is_campaign_scheduled_now now db c = Ok true)
  ∧ (∀ e, campaigns_models.can_be_activated now c db = Raise e ↔
     Campaign.daily_spend c < Brand.daily_budget (Campaign.brand c)
     ∧ Campaign.monthly_spend c < Brand.monthly_budget (Campaign.brand c)
     ∧ scheduling_matcher.is_campaign_scheduled_now now db c = Raise e).
Proof.
  unfold campaigns_models.can_be_activated.
  destruct (Z.geb_spec (Campaign.daily_spend c)
              (Brand.daily_budget (Campaign.brand c))) as [Hd|Hd];
    [split; [|intros e]; (split; [done|lia])|].
  destruct (Z.geb_spec (Campaign.monthly_spend c)
              (Brand.monthly_budget (Campaign.brand c))) as [Hm|Hm];
    [split; [|intros e]; (split; [done|lia])|].
  destruct (scheduling_matcher.is_campaign_scheduled_now now db c) as [[|]|e'];
    cbn; (split; [|intros e]);
    (split; [intros H; split; [lia|]; split; [lia|]; congruence
            |intros (_ & _ & H); congruence]).
Qed.

(** X2: activate writes only when can_be_activated returns True. It returns
    True exactly when can_be_activated returns True and the campaign is
    stored, and then the stored row is ACTIVE with pause_reason and paused_at
    empty; when can_be_activated returns False or raises, the instance and
    the database are left as they were. *)
Theorem activate_spec now c db :
  let '(r, c', db') := campaigns_models.activate now c db in
  (r = Ok true ↔
     campaigns_models.can_be_activated now c db = Ok true
     ∧ is_Some (DB.campaigns db !! Campaign.id c))
  ∧ (r = Ok true →
     c' = activated_row now c
     ∧ ∃ row, DB.campaigns db !! Campaign.id c = Some row
              ∧ DB.campaigns db' !! Campaign.id c = Some (activated_row now row))
  ∧ (campaigns_models.can_be_activated now c db ≠ Ok true →
     r = match campaigns_models.can_be_activated now c db with
         | Raise e => Raise e | Ok _ => Ok false end
     ∧ c' = c ∧ db' = db).
Proof.
  unfold campaigns_models.activate.
  destruct (campaigns_models.can_be_activated now c db) as [[|]|e].
  - unfold DB.save_campaign. cbn.
    destruct (DB.campaigns db !! Campaign.id c) as [row|] eqn:Hrow.
    + split; [split; [by eauto|done]|]. split; [|done].
      intros _. split; [done|]. exists row. split; [done|].
      cbn. by rewrite lookup_insert_eq.
    + split; [split; [done|intros [_ [? ?]]; done]|]. split; done.
  - split; [split; [done|intros [? _]; done]|]. split; done.
  - split; [split; [done|intros [? _]; done]|]. split; done.
Qed.

(** X3: pausing again overwrites. On a stored campaign, pause with one
    reason followed by pause with another leaves the instance and the stored
    row exactly as the second pause alone does. *)
Theorem pause_overwrites now1 now2 reason1 reason2 c db row :
  DB.campaigns db !! Campaign.id c = Some row →
  let '(_, c1, db1) := campaigns_models.pause now1 reason1 c db in
  campaigns_models.pause now2 reason2 c1 db1
  = campaigns_models.pause now2 reason2 c db.
Proof.
  intros Hrow. rewrite (pause_stored now1 reason1 c db row Hrow).
  rewrite (pause_stored now2 reason2 c db row Hrow).
  erewrite pause_stored; last first.
  { cbn. apply lookup_insert_eq. }
  cbn. f_equal. unfold DB.set_campaigns. cbn. f_equal.
  apply insert_insert_eq.
Qed.

Lemma pause_overwrites_witness :
  DB.campaigns (ex_db 0 0 []) !! Campaign.id (ex_campaign 0 0)
    = Some (ex_campaign 0 0)
  ∧ let '(_, c1, db1) :=
      campaigns_models.pause ex_now DAILY_BUDGET_EXCEEDED (ex_campaign 0 0)
        (ex_db 0 0 []) in
    campaigns_models.pause ex_now MANUAL c1 db1
    = campaigns_models.pause ex_now MANUAL (ex_campaign 0 0) (ex_db 0 0 []).
Proof.
  split; [reflexivity|].
  apply (pause_overwrites ex_now ex_now DAILY_BUDGET_EXCEEDED MANUAL
           (ex_campaign 0 0) (ex_db 0 0 []) (ex_campaign 0 0)).
  reflexivity.
Defined.

(** X4: pause then activate is a round trip. For a stored campaign on
    which can_be_activated returns True, pausing it (any reason) and
    activating the paused instance returns True and leaves the stored row
    ACTIVE with pause_reason and paused_at empty and every counter as
    before. *)
Theorem pause_activate_round_trip now reason c db row :
  DB.campaigns db !! Campaign.id c = Some row →
  campaigns_models.can_be_activated now c db = Ok true →
  let '(_, c1, db1) := campaigns_models.pause now reason c db in
  let '(r, c2, db2) := campaigns_models.activate now c1 db1 in
  r = Ok true
  ∧ c2 = activated_row now c
  ∧ DB.campaigns db2 = <[Campaign.id c := activated_row now row]> (DB.campaigns db).
Proof.
  intros Hrow Hcan. rewrite (pause_stored now reason c db row Hrow).
  unfold campaigns_models.activate.
  assert (campaigns_models.can_be_activated now (paused_row now reason c)
            (DB.set_campaigns
               (<[Campaign.id c := paused_row now reason row]> (DB.campaigns db)) db)
          = Ok true) as ->.
  { rewrite <- Hcan. done. }
  unfold DB.save_campaign. cbn. rewrite lookup_insert_eq. cbn.
  split; [done|]. split; [done|]. apply insert_insert_eq.
Qed.

Lemma pause_activate_round_trip_witness :
  DB.campaigns (ex_db 0 0 [ex_nine_to_six]) !! 7%N = Some (ex_campaign 0 0)
  ∧ campaigns_models.can_be_activated ex_now (ex_campaign 0 0)
      (ex_db 0 0 [ex_nine_to_six]) = Ok true
  ∧ let '(_, c1, db1) :=
      campaigns_models.pause ex_now MANUAL (ex_campaign 0 0)
        (ex_db 0 0 [ex_nine_to_six]) in
    let '(r, c2, db2) := campaigns_models.activate ex_now c1 db1 in
    r = Ok true
    ∧ c2 = activated_row ex_now (ex_campaign 0 0)
    ∧ DB.campaigns db2
      = <[7%N := activated_row ex_now (ex_campaign 0 0)]>
          (DB.campaigns (ex_db 0 0 [ex_nine_to_six])).
Proof.
  split; [reflexivity|]. split; [reflexivity|].
  apply (pause_activate_round_trip ex_now MANUAL (ex_campaign 0 0)
           (ex_db 0 0 [ex_nine_to_six]) (ex_campaign 0 0));
    reflexivity.
Defined.

(** ** check_budget_limits and the budget sweep *)

(** X5: check_budget_limits never touches a campaign that is not active. It
    reports the two comparisons, takes no action, and returns the instance
    and the database as they are: a paused campaign keeps its reason and its
    paused_at whatever its counters. *)
Theorem check_budget_limits_inactive now c db :
  Campaign.status c = PAUSED →
  spending_services.check_budget_limits now c db
  = (Ok (mk_BudgetCheck
           (Campaign.daily_spend c >=? Brand.daily_budget (Campaign.brand c))
           (Campaign.monthly_spend c >=? Brand.monthly_budget (Campaign.brand c))
           None), c, db).
Proof.
  intros Hst. unfold spending_services.check_budget_limits.
  assert (Campaign.is_active c = false) as Hact
    by (unfold Campaign.is_active; rewrite Hst; done).
  destruct (Campaign.daily_spend c >=? _); cbn; rewrite ?Hact;
    destruct (Campaign.monthly_spend c >=? _); cbn; rewrite ?Hact; done.
Qed.

Lemma check_budget_limits_inactive_witness :
  let c := Campaign.mk 7%N ex_brand PAUSED 12000 150000 (Some MANUAL)
             (Some (mk_datetime 737999 0)) (mk_datetime 737999 0) in
  Campaign.status c = PAUSED
  ∧ spending_services.check_budget_limits ex_now c ex_manual_db
    = (Ok (mk_BudgetCheck true true None), c, ex_manual_db).
Proof.
  cbv zeta. split; [reflexivity|].
  apply (check_budget_limits_inactive ex_now
           (Campaign.mk 7%N ex_brand PAUSED 12000 150000 (Some MANUAL)
              (Some (mk_datetime 737999 0)) (mk_datetime 737999 0)) ex_manual_db).
  reflexivity.
Defined.

(** What check_budget_limits does to the database, in every case. *)
(** The monthly branch on an active stored campaign under its daily budget. *)
Lemma check_budget_limits_monthly_active now c db row :
  Campaign.status c = ACTIVE →
  Campaign.daily_spend c < Brand.daily_budget (Campaign.brand c) →
  Campaign.monthly_spend c >= Brand.monthly_budget (Campaign.brand c) →
  DB.campaigns db !! Campaign.id c = Some row →
  spending_services.check_budget_limits now c db
  = (Ok (mk_BudgetCheck false true (Some paused_monthly)),
     paused_row now MONTHLY_BUDGET_EXCEEDED c,
     DB.set_campaigns
       (<[Campaign.id c := paused_row now MONTHLY_BUDGET_EXCEEDED row]>
          (DB.campaigns db)) db).
Proof.
  intros Hact Hd Hm Hrow. unfold spending_services.check_budget_limits.
  assert ((Campaign.daily_spend c >=? Brand.daily_budget (Campaign.brand c)) = false)
    as -> by (rewrite Z.geb_leb; apply Z.leb_gt; lia).
  assert ((Campaign.monthly_spend c >=? Brand.monthly_budget (Campaign.brand c)) = true)
    as -> by (apply Z.geb_le; lia).
  cbn. rewrite (is_active_true c Hact).
  by rewrite (pause_stored _ _ _ _ _ Hrow).
Qed.

(** X6: an active stored campaign under its daily budget whose monthly
    spend has reached the monthly budget is paused with
    MONTHLY_BUDGET_EXCEEDED, and the call reports paused_monthly. *)
Theorem check_budget_limits_monthly_pauses now c db row :
  Campaign.status c = ACTIVE →
  Campaign.daily_spend c < Brand.daily_budget (Campaign.brand c) →
  Campaign.monthly_spend c >= Brand.monthly_budget (Campaign.brand c) →
  DB.campaigns db !! Campaign.id c = Some row →
  spending_services.check_budget_limits now c db
  = (Ok (mk_BudgetCheck false true (Some paused_monthly)),
     paused_row now MONTHLY_BUDGET_EXCEEDED c,
     DB.set_campaigns
       (<[Campaign.id c := paused_row now MONTHLY_BUDGET_EXCEEDED row]>
          (DB.campaigns db)) db).
Proof.
  intros Hact Hd Hm Hrow. unfold spending_services.check_budget_limits.
  assert ((Campaign.daily_spend c >=? Brand.daily_budget (Campaign.brand c)) = false)
    as -> by (rewrite Z.geb_leb; apply Z.leb_gt; lia).
  assert ((Campaign.monthly_spend c >=? Brand.monthly_budget (Campaign.brand c)) = true)
    as -> by (apply Z.geb_le; lia).
  cbn. rewrite (is_active_true c Hact).
  by rewrite (pause_stored _ _ _ _ _ Hrow).
Qed.

Lemma check_budget_limits_monthly_pauses_witness :
  Campaign.status (ex_campaign 5000 100000) = ACTIVE
  ∧ Campaign.daily_spend (ex_campaign 5000 100000) < 10000
  ∧ Campaign.monthly_spend (ex_campaign 5000 100000) >= 100000
  ∧ spending_services.check_budget_limits ex_now (ex_campaign 5000 100000)
      (ex_db 5000 100000 [])
    = (Ok (mk_BudgetCheck false true (Some paused_monthly)),
       paused_row ex_now MONTHLY_BUDGET_EXCEEDED (ex_campaign 5000 100000),
       DB.set_campaigns
         (<[7%N := paused_row ex_now MONTHLY_BUDGET_EXCEEDED (ex_campaign 5000 100000)]>
            (DB.campaigns (ex_db 5000 100000 []))) (ex_db 5000 100000 [])).
Proof.
  split; [reflexivity|]. split; [cbn; lia|]. split; [cbn; lia|].
  apply (check_budget_limits_monthly_pauses ex_now (ex_campaign 5000 100000)
           (ex_db 5000 100000 []) (ex_campaign 5000 100000));
    [reflexivity | cbn; lia | cbn; lia | reflexivity].
Defined.

Lemma enforce_step_rows now db0 (acc : EnforceResults * DB.t) c :
  DB.schedules acc.2 = DB.schedules db0 →
  DB.schedules (spending_services.enforce_step now acc c).2 = DB.schedules db0
  ∧ ∀ k, DB.campaigns (spending_services.enforce_step now acc c).2 !! k
         = if decide (k = Campaign.id c)
           then budget_outcome now c <$> DB.campaigns acc.2 !! k
           else DB.campaigns acc.2 !! k.
Proof.
  destruct acc as [results db]. cbn. intros Hs.
  unfold spending_services.enforce_step.
  destruct (check_budget_limits_db now c db) as (Hs' & _ & Hc).
  destruct (spending_services.check_budget_limits now c db) as [[r c'] db'].
  cbn in Hs', Hc.
  assert (DB.schedules db' = DB.schedules db0
          ∧ ∀ k, DB.campaigns db' !! k
                 = if decide (k = Campaign.id c)
                   then budget_outcome now c <$> DB.campaigns db !! k
                   else DB.campaigns db !! k) as H.
  { split; [congruence|]. intros k. rewrite Hc.
    destruct (DB.campaigns db !! Campaign.id c) as [row|] eqn:Hrow.
    - rewrite lookup_insert. destruct (decide (Campaign.id c = k)) as [<-|Hne].
      + rewrite decide_True by done. by rewrite Hrow.
      + by rewrite decide_False by done.
    - case_decide; [|done]. subst k. by rewrite Hrow. }
  destruct r as [bc|e]; [destruct (action_taken bc) as [[]|]|]; exact H.
Qed.

(** The budget sweep, row by row. *)
Lemma enforce_budget_limits_rows now db k :
  DB.campaigns (spending_services.enforce_budget_limits now db).2 !! k
  = (λ row, budget_outcome now row row) <$> DB.campaigns db !! k.
Proof.
  unfold spending_services.enforce_budget_limits.
  destruct (foldl_rows (spending_services.enforce_step now) (budget_outcome now)
              (DB.schedules db) (λ acc c, enforce_step_rows now db acc c)
              (filter (λ c, Campaign.status c = ACTIVE) (DB.all_campaigns db))
              (mk_EnforceResults 0 0 0 0, db) (NoDup_filter_ids _ db) eq_refl)
    as [_ Hrows].
  destruct (Hrows k) as [Hin Hout]. clear Hrows. cbn in Hin, Hout.
  destruct (DB.campaigns db !! k) as [row|] eqn:Hrow; cbn.
  - destruct (decide (Campaign.status row = ACTIVE)) as [Hact|Hact].
    + rewrite (Hin (DB.from_db (k, row))); [done| |done].
      apply list_elem_of_filter. split; [done|].
      apply elem_of_all_campaigns. by exists row.
    + rewrite Hout.
      * unfold budget_outcome, Campaign.is_active.
        by rewrite bool_decide_eq_false_2.
      * intros (c & -> & Hc)%list_elem_of_fmap.
        apply list_elem_of_filter in Hc as [Hpc Hc].
        apply elem_of_all_campaigns in Hc as (row1 & Hrow1 & Hc).
        rewrite Hrow in Hrow1. injection Hrow1 as <-.
        rewrite Hc in Hpc. by apply Hact.
  - apply Hout. intros (c & -> & Hc)%list_elem_of_fmap.
    apply list_elem_of_filter in Hc as [_ Hc].
    apply elem_of_all_campaigns in Hc as (row1 & Hrow1 & _). congruence.
Qed.

(** X7: enforce_budget_limits decides every stored campaign on its own
    counters. An ACTIVE campaign at or over the daily budget is paused with
    DAILY_BUDGET_EXCEEDED; an ACTIVE campaign under the daily budget and at
    or over the monthly budget is paused with MONTHLY_BUDGET_EXCEEDED; every
    other row, every PAUSED one included, is left exactly as it was. *)
Theorem enforce_budget_limits_spec now db k row :
  DB.campaigns db !! k = Some row →
  ∃ row',
    DB.campaigns (spending_services.enforce_budget_limits now db).2 !! k = Some row'
    ∧ (Campaign.status row = ACTIVE
       ∧ Campaign.daily_spend row >= Brand.daily_budget (Campaign.brand row) →
       row' = paused_row now DAILY_BUDGET_EXCEEDED row)
    ∧ (Campaign.status row = ACTIVE
       ∧ Campaign.daily_spend row < Brand.daily_budget (Campaign.brand row)
       ∧ Campaign.monthly_spend row >= Brand.monthly_budget (Campaign.brand row) →
       row' = paused_row now MONTHLY_BUDGET_EXCEEDED row)
    ∧ (Campaign.status row = PAUSED
       ∨ (Campaign.daily_spend row < Brand.daily_budget (Campaign.brand row)
          ∧ Campaign.monthly_spend row < Brand.monthly_budget (Campaign.brand row)) →
       row' = row).
Proof.
  intros Hrow. rewrite enforce_budget_limits_rows, Hrow. cbn.
  eexists. split; [reflexivity|].
  unfold budget_outcome, Campaign.is_active.
  destruct (Z.geb_spec (Campaign.daily_spend row)
              (Brand.daily_budget (Campaign.brand row))) as [Hd|Hd];
    destruct (Z.geb_spec (Campaign.monthly_spend row)
                (Brand.monthly_budget (Campaign.brand row))) as [Hm|Hm];
    destruct (Campaign.status row) eqn:Hst; cbn;
    (split; [intros [? ?]; (done || lia)|]);
    (split; [intros (? & ? & ?); (done || lia)|]);
    (intros [?|[? ?]]; (done || lia)).
Qed.

Lemma enforce_budget_limits_spec_witness :
  DB.campaigns (ex_db 5000 100000 []) !! 7%N = Some (ex_campaign 5000 100000)
  ∧ DB.campaigns
      (spending_services.enforce_budget_limits ex_now (ex_db 5000 100000 [])).2 !! 7%N
    = Some (paused_row ex_now MONTHLY_BUDGET_EXCEEDED (ex_campaign 5000 100000)).
Proof.
  split; [reflexivity|].
  destruct (enforce_budget_limits_spec ex_now (ex_db 5000 100000 []) 7%N
              (ex_campaign 5000 100000) eq_refl) as (row' & Hrow' & _ & Hm & _).
  rewrite Hrow'. f_equal. apply Hm.
  split; [reflexivity|]. split; cbn; lia.
Defined.

Lemma enforce_budget_limits_frame now db :
  DB.schedules (spending_services.enforce_budget_limits now db).2 = DB.schedules db
  ∧ DB.spends (spending_services.enforce_budget_limits now db).2 = DB.spends db.
Proof.
  unfold spending_services.enforce_budget_limits.
  apply (foldl_invariant
           (λ acc : EnforceResults * DB.t,
              DB.schedules acc.2 = DB.schedules db ∧ DB.spends acc.2 = DB.spends db));
    [done|].
  intros [results db1] c _ [Hs Hp]. cbn in Hs, Hp.
  unfold spending_services.enforce_step.
  destruct (check_budget_limits_db now c db1) as (Hs' & Hp' & _).
  destruct (spending_services.check_budget_limits now c db1) as [[r c'] db'].
  cbn in Hs', Hp'.
  assert (DB.schedules db' = DB.schedules db ∧ DB.spends db' = DB.spends db) as H
    by (split; congruence).
  destruct r as [bc|e]; [destruct (action_taken bc) as [[]|]|]; exact H.
Qed.

Lemma DB_eq (db db' : DB.t) :
  DB.campaigns db = DB.campaigns db' → DB.schedules db = DB.schedules db' →
  DB.spends db = DB.spends db' → db = db'.
Proof. destruct db, db'. cbn. by intros -> -> ->. Qed.

Lemma is_active_after_pause now reason c :
  Campaign.is_active (paused_row now reason c) = false.
Proof. reflexivity. Qed.

Lemma budget_outcome_twice now now' row :
  budget_outcome now' (budget_outcome now row row) (budget_outcome now row row)
  = budget_outcome now row row.
Proof.
  unfold budget_outcome.
  destruct (Campaign.is_active row) eqn:Hact; [|unfold id; by rewrite Hact].
  destruct (Campaign.daily_spend row >=? _) eqn:Hd;
    [by rewrite is_active_after_pause|].
  destruct (Campaign.monthly_spend row >=? _) eqn:Hm;
    [by rewrite is_active_after_pause|].
  unfold id. by rewrite Hact, Hd, Hm.
Qed.

(** X8: enforce_budget_limits is idempotent. Running the sweep again, at
    any later time, on the database the sweep produced changes nothing:
    every campaign the first run left active is under both budgets. *)
Theorem enforce_budget_limits_idempotent now now' db :
  (spending_services.enforce_budget_limits now'
     (spending_services.enforce_budget_limits now db).2).2
  = (spending_services.enforce_budget_limits now db).2.
Proof.
  destruct (enforce_budget_limits_frame now'
              (spending_services.enforce_budget_limits now db).2) as [Hs Hp].
  apply DB_eq; [|done|done].
  apply map_eq. intros k. rewrite enforce_budget_limits_rows.
  rewrite (enforce_budget_limits_rows now db k).
  destruct (DB.campaigns db !! k) as [row|]; [|done]. cbn. f_equal.
  apply budget_outcome_twice.
Qed.

Lemma check_budget_limits_under now c db :
  Campaign.daily_spend c < Brand.daily_budget (Campaign.brand c) →
  Campaign.monthly_spend c < Brand.monthly_budget (Campaign.brand c) →
  spending_services.check_budget_limits now c db
  = (Ok (mk_BudgetCheck false false None), c, db).
Proof.
  intros Hd Hm. unfold spending_services.check_budget_limits.
  assert ((Campaign.daily_spend c >=? Brand.daily_budget (Campaign.brand c)) = false)
    as -> by (rewrite Z.geb_leb; apply Z.leb_gt; lia).
  by assert ((Campaign.monthly_spend c >=? Brand.monthly_budget (Campaign.brand c))
             = false) as -> by (rewrite Z.geb_leb; apply Z.leb_gt; lia).
Qed.

Lemma enforce_fold_counts now l : ∀ results db,
  (∀ c, c ∈ l → Campaign.status c = ACTIVE
                ∧ is_Some (DB.campaigns db !! Campaign.id c)) →
  let results' := (foldl (spending_services.enforce_step now) (results, db) l).1 in
  checked results' = (checked results + length l)%nat
  ∧ n_paused_daily results'
    = (n_paused_daily results
       + length (filter (λ c, (Brand.daily_budget (Campaign.brand c)
                               ≤ Campaign.daily_spend c)%Z) l))%nat
  ∧ n_paused_monthly results'
    = (n_paused_monthly results
       + length (filter (λ c, (Campaign.daily_spend c
                                 < Brand.daily_budget (Campaign.brand c)
                               ∧ Brand.monthly_budget (Campaign.brand c)
                                 ≤ Campaign.monthly_spend c)%Z) l))%nat
  ∧ enforce_errors results' = enforce_errors results.
Proof.
  induction l as [|c l IH]; intros results db Hl.
  - cbn. repeat split; lia.
  - destruct (Hl c) as [Hact [row Hrow]]; [left|].
    assert (∀ c', c' ∈ l →
              Campaign.status c' = ACTIVE
              ∧ is_Some (DB.campaigns
                           (spending_services.enforce_step now (results, db) c).2
                           !! Campaign.id c')) as Hl'.
    { intros c' Hc'. destruct (Hl c') as [Hact' Hst']; [by right|].
      split; [done|].
      destruct (enforce_step_rows now db (results, db) c eq_refl) as [_ Hrows].
      rewrite Hrows. cbn. case_decide; [|done]. by apply fmap_is_Some. }
    cbn [foldl]. rewrite !filter_cons.
    destruct (spending_services.enforce_step now (results, db) c)
      as [results1 db1] eqn:Hstep.
    specialize (IH results1 db1 Hl'). cbv zeta in IH |- *.
    destruct IH as (IH1 & IH2 & IH3 & IH4).
    rewrite IH1, IH2, IH3, IH4. clear IH1 IH2 IH3 IH4 Hl'.
    unfold spending_services.enforce_step in Hstep.
    destruct (decide (Brand.daily_budget (Campaign.brand c) ≤ Campaign.daily_spend c))
      as [Hd|Hd].
    + rewrite (check_budget_limits_daily_active now c db Hact) in Hstep by lia.
      rewrite Hrow in Hstep. cbn in Hstep. injection Hstep as <- <-.
      rewrite decide_False by lia. cbn. repeat split; lia.
    + destruct (decide (Brand.monthly_budget (Campaign.brand c)
                        ≤ Campaign.monthly_spend c)) as [Hm|Hm].
      * rewrite (check_budget_limits_monthly_active now c db row Hact) in Hstep
          by (lia || done).
        cbn in Hstep. injection Hstep as <- <-.
        rewrite decide_True by lia. cbn. repeat split; lia.
      * rewrite (check_budget_limits_under now c db) in Hstep by lia.
        cbn in Hstep. injection Hstep as <- <-.
        rewrite decide_False by lia. cbn. repeat split; lia.
Qed.

(** X9: the tallies of enforce_budget_limits. checked is the number of
    stored ACTIVE campaigns, paused_daily the number of those at or over the
    daily budget, paused_monthly the number of those under the daily and at
    or over the monthly budget, and errors is 0. *)
Theorem enforce_budget_limits_counts now db :
  let active := filter (λ c, Campaign.status c = ACTIVE) (DB.all_campaigns db) in
  let results := (spending_services.enforce_budget_limits now db).1 in
  checked results = length active
  ∧ n_paused_daily results
    = length (filter (λ c, Brand.daily_budget (Campaign.brand c)
                           ≤ Campaign.daily_spend c) active)
  ∧ n_paused_monthly results
    = length (filter (λ c, Campaign.daily_spend c
                             < Brand.daily_budget (Campaign.brand c)
                           ∧ Brand.monthly_budget (Campaign.brand c)
                             ≤ Campaign.monthly_spend c) active)
  ∧ enforce_errors results = 0%nat.
Proof.
  cbv zeta. unfold spending_services.enforce_budget_limits.
  apply (enforce_fold_counts now _ (mk_EnforceResults 0 0 0 0) db).
  intros c Hc. apply list_elem_of_filter in Hc as [Hact Hc].
  split; [done|]. apply elem_of_all_campaigns in Hc as (row & Hrow & _). eauto.
Qed.

(** ** The monthly reset and the reset command *)

Lemma reset_monthly_step_rows now db0 (acc : ResetResults * DB.t) c :
  DB.schedules acc.2 = DB.schedules db0 →
  DB.schedules
    (spending_services.reset_step (campaigns_models.reset_monthly_spend now) acc c).2
    = DB.schedules db0
  ∧ ∀ k, DB.campaigns
           (spending_services.reset_step (campaigns_models.reset_monthly_spend now) acc c).2
           !! k
         = if decide (k = Campaign.id c)
           then monthly_reset_row now <$> DB.campaigns acc.2 !! k
           else DB.campaigns acc.2 !! k.
Proof.
  destruct acc as [results db]. cbn. intros Hs.
  unfold spending_services.reset_step, campaigns_models.reset_monthly_spend,
    DB.save_campaign. cbn.
  destruct (DB.campaigns db !! Campaign.id c) as [row|] eqn:Hrow; cbn.
  - split; [done|]. intros k. rewrite lookup_insert.
    destruct (decide (Campaign.id c = k)) as [<-|Hne].
    + rewrite decide_True by done. by rewrite Hrow.
    + by rewrite decide_False by done.
  - split; [done|]. intros k. case_decide; [|done]. subst k. by rewrite Hrow.
Qed.

(** Both loops of reset_monthly_spends, row by row. *)
Lemma reset_monthly_spends_rows now db k :
  DB.campaigns (spending_services.reset_monthly_spends now db).2 !! k
  = (λ row,
       let zeroed := monthly_reset_row now row in
       if bool_decide (Campaign.status row = PAUSED
                       ∧ Campaign.pause_reason row = Some MONTHLY_BUDGET_EXCEEDED)
          && can_activate now db (DB.from_db (k, zeroed))
       then activated_row now zeroed else zeroed)
    <$> DB.campaigns db !! k.
Proof.
  unfold spending_services.reset_monthly_spends.
  (* first loop *)
  destruct (foldl_rows
              (spending_services.reset_step (campaigns_models.reset_monthly_spend now))
              (λ _, monthly_reset_row now) (DB.schedules db)
              (λ acc c, reset_monthly_step_rows now db acc c)
              (DB.all_campaigns db) (mk_ResetResults 0 0 0, db)
              (NoDup_all_campaigns_ids db) eq_refl) as [Hs1 Hrows1].
  destruct (foldl _ _ (DB.all_campaigns db)) as [results db1]. cbn in Hs1, Hrows1.
  assert (∀ k', DB.campaigns db1 !! k' = monthly_reset_row now <$> DB.campaigns db !! k')
    as Hdb1.
  { intros k'. destruct (Hrows1 k') as [Hin Hout].
    destruct (DB.campaigns db !! k') as [row|] eqn:Hrow.
    - rewrite (Hin (Campaign.set_id k' row)); [by rewrite ?Hrow| |done].
      apply elem_of_all_campaigns. by exists row.
    - rewrite Hout; [by rewrite ?Hrow|].
      intros (c & -> & Hc)%list_elem_of_fmap.
      apply elem_of_all_campaigns in Hc as (row & Hrow' & _). congruence. }
  clear Hrows1.
  (* second loop *)
  destruct (foldl_rows (spending_services.reactivate_step now)
              (λ c, if can_activate now db c then activated_row now else id)
              (DB.schedules db) (λ acc c, reactivate_step_rows now db acc c)
              (filter (λ c, Campaign.status c = PAUSED
                            ∧ Campaign.pause_reason c = Some MONTHLY_BUDGET_EXCEEDED)
                      (DB.all_campaigns db1))
              (results, db1) (NoDup_filter_ids _ db1) Hs1) as [_ Hrows2].
  destruct (Hrows2 k) as [Hin Hout]. clear Hrows2. cbn in Hin, Hout.
  rewrite Hdb1 in Hin, Hout.
  destruct (DB.campaigns db !! k) as [row|] eqn:Hrow; cbn in *.
  - destruct (bool_decide _) eqn:Hp; cbn.
    + apply bool_decide_eq_true in Hp.
      rewrite (Hin (DB.from_db (k, monthly_reset_row now row))); [|..|done].
      * by destruct (can_activate now db _).
      * apply list_elem_of_filter. split; [done|].
        apply elem_of_all_campaigns. exists (monthly_reset_row now row).
        split; [|done]. cbn. by rewrite Hdb1, Hrow.
    + apply bool_decide_eq_false in Hp. rewrite Hout; [done|].
      intros (c & -> & Hc)%list_elem_of_fmap.
      apply list_elem_of_filter in Hc as [Hpc Hc].
      apply elem_of_all_campaigns in Hc as (row1 & Hrow1 & Hc).
      rewrite Hdb1, Hrow in Hrow1. injection Hrow1 as <-.
      rewrite Hc in Hpc. by apply Hp.
  - apply Hout. intros (c & -> & Hc)%list_elem_of_fmap.
    apply list_elem_of_filter in Hc as [_ Hc].
    apply elem_of_all_campaigns in Hc as (row1 & Hrow1 & _).
    rewrite Hdb1, Hrow in Hrow1. done.
Qed.




Lemma can_activate_over_monthly now db c :
  Campaign.monthly_spend c >= Brand.monthly_budget (Campaign.brand c) →
  can_activate now db c = false.
Proof.
  intros Hm. unfold can_activate, campaigns_models.can_be_activated.
  destruct (Campaign.daily_spend c >=? _); [done|].
  by assert ((Campaign.monthly_spend c >=? Brand.monthly_budget (Campaign.brand c))
             = true) as -> by (apply Z.geb_le; lia).
Qed.

(** X11: reset_spends --both does not bring back a campaign that was over
    both budgets. Such a campaign was paused with DAILY_BUDGET_EXCEEDED; the
    daily reset finds its monthly spend still at or over the budget and
    leaves it paused, and the monthly reset only reactivates campaigns
    paused with MONTHLY_BUDGET_EXCEEDED. After the command both counters
    are 0.00 and the campaign is still PAUSED with DAILY_BUDGET_EXCEEDED,
    whatever its schedule. *)
Theorem reset_both_keeps_double_overrun_paused now options db k row :
  opt_both options = true →
  DB.campaigns db !! k = Some row →
  Campaign.status row = PAUSED →
  Campaign.pause_reason row = Some DAILY_BUDGET_EXCEEDED →
  Campaign.monthly_spend row >= Brand.monthly_budget (Campaign.brand row) →
  ∃ row',
    DB.campaigns (reset_spends_command.handle now options db).2 !! k = Some row'
    ∧ Campaign.daily_spend row' = 0 ∧ Campaign.monthly_spend row' = 0
    ∧ Campaign.status row' = PAUSED
    ∧ Campaign.pause_reason row' = Some DAILY_BUDGET_EXCEEDED
    ∧ Campaign.paused_at row' = Campaign.paused_at row.
Proof.
  intros Hboth Hrow Hst Hre Hm. unfold reset_spends_command.handle.
  rewrite Hboth, !orb_true_r. cbn.
  pose proof (reset_daily_spends_rows now db k) as H1. rewrite Hrow in H1. cbn in H1.
  rewrite can_activate_over_monthly, andb_false_r in H1 by done.
  destruct (spending_services.reset_daily_spends now db) as [r1 db1]. cbn in H1.
  pose proof (reset_monthly_spends_rows now db1 k) as H2. rewrite H1 in H2. cbn in H2.
  rewrite bool_decide_eq_false_2 in H2 by (cbn; rewrite Hre; intros [_ ?]; done).
  cbn in H2.
  destruct (spending_services.reset_monthly_spends now db1) as [r2 db2]. cbn in *.
  eexists. split; [exact H2|]. by repeat split.
Qed.

Lemma reset_both_keeps_double_overrun_paused_witness :
  opt_both (mk_ResetOptions false false true) = true
  ∧ DB.campaigns ex_over_both_db !! 7%N = Some ex_over_both
  ∧ Campaign.monthly_spend ex_over_both >= 100000
  ∧ ∃ row',
      DB.campaigns (reset_spends_command.handle ex_now
                      (mk_ResetOptions false false true) ex_over_both_db).2 !! 7%N
        = Some row'
      ∧ Campaign.daily_spend row' = 0 ∧ Campaign.monthly_spend row' = 0
      ∧ Campaign.status row' = PAUSED
      ∧ Campaign.pause_reason row' = Some DAILY_BUDGET_EXCEEDED
      ∧ Campaign.paused_at row' = Campaign.paused_at ex_over_both.
Proof.
  split; [reflexivity|]. split; [reflexivity|]. split; [cbn; lia|].
  apply (reset_both_keeps_double_overrun_paused ex_now
           (mk_ResetOptions false false true) ex_over_both_db 7%N ex_over_both);
    [reflexivity | reflexivity | reflexivity | reflexivity | cbn; lia].
Defined.

(** ** Brand totals *)

Lemma foldl_sum_zero (f : Campaign.t → Z) (l : list Campaign.t) :
  (∀ c, c ∈ l → f c = 0) → foldl (λ acc c, acc + f c) 0 l = 0.
Proof.
  intros Hl. apply (foldl_invariant (λ acc, acc = 0)); [done|].
  intros acc c Hc ->. rewrite (Hl c Hc). lia.
Qed.

Lemma reset_daily_spends_all_zero now db c :
  c ∈ DB.all_campaigns (spending_services.reset_daily_spends now db).2 →
  Campaign.daily_spend c = 0.
Proof.
  intros (row' & Hrow' & ->)%elem_of_all_campaigns.
  rewrite reset_daily_spends_rows in Hrow'.
  destruct (DB.campaigns db !! Campaign.id c) as [row|]; [|done].
  cbn in Hrow'. injection Hrow' as <-. by destruct (_ && _).
Qed.

(** X12: right after reset_daily_spends every brand's total daily spend is
    0.00, by Brand.get_total_daily_spend and by
    Spend.get_daily_spend_for_brand alike; the remaining daily budget is the
    whole budget, and is_over_daily_budget holds only for a brand whose
    daily budget is not positive. *)
Theorem reset_daily_spends_brand_totals now db brand :
  let db' := (spending_services.reset_daily_spends now db).2 in
  brands_models.get_total_daily_spend db' brand = 0
  ∧ spending_queries.get_daily_spend_for_brand db' (Brand.id brand) = 0
  ∧ brands_models.get_remaining_daily_budget db' brand = Brand.daily_budget brand
  ∧ (brands_models.is_over_daily_budget db' brand = true
     ↔ Brand.daily_budget brand ≤ 0).
Proof.
  cbv zeta.
  assert (brands_models.get_total_daily_spend
            (spending_services.reset_daily_spends now db).2 brand = 0) as Htot.
  { apply foldl_sum_zero. intros c [_ Hc]%list_elem_of_filter.
    by apply (reset_daily_spends_all_zero now db). }
  split; [done|]. split; [exact Htot|].
  unfold brands_models.get_remaining_daily_budget, brands_models.is_over_daily_budget.
  rewrite Htot. split; [lia|]. rewrite Z.geb_le. done.
Qed.

(** ** The spend ledger *)

(** The instance after check_budget_limits, stored or not. *)
Lemma check_budget_limits_instance now c db :
  (spending_services.check_budget_limits now c db).1.2 = budget_outcome now c c.
Proof.
  unfold spending_services.check_budget_limits, budget_outcome.
  destruct (DB.campaigns db !! Campaign.id c) as [row|] eqn:Hrow.
  - destruct (Campaign.daily_spend c >=? _); cbn;
      destruct (Campaign.is_active c) eqn:Hact; cbn;
      rewrite ?(pause_stored _ _ _ _ _ Hrow); cbn;
      destruct (Campaign.monthly_spend c >=? _); cbn;
      rewrite ?Hact, ?(pause_stored _ _ _ _ _ Hrow); cbn; done.
  - destruct (Campaign.daily_spend c >=? _); cbn;
      destruct (Campaign.is_active c) eqn:Hact; cbn;
      rewrite ?(pause_missing _ _ _ _ Hrow); cbn; try done;
      destruct (Campaign.monthly_spend c >=? _); cbn;
      rewrite ?Hact, ?(pause_missing _ _ _ _ Hrow); cbn; done.
Qed.

(** What track_spend does to the spends table, in every case. *)
Lemma track_spend_spends uuid4 now c amount spend_date description db :
  let '(r, c', db') :=
    spending_services.track_spend uuid4 now c amount spend_date description db in
  let key := uuid4 0%nat in
  if bool_decide (0 < amount) && bool_decide (is_Some (DB.campaigns db !! Campaign.id c))
     && bool_decide (DB.spends db !! key = None)
  then is_ok r = true
       ∧ DB.spends db'
         = <[key := Spend.mk_row (Campaign.id c) amount
                      (default (toordinal now) spend_date) DAILY description]>
             (DB.spends db)
  else is_ok r = false ∧ db' = db.
Proof.
  rewrite track_spend_eq. cbv zeta.
  destruct (Z.leb_spec amount 0) as [Hle|Hpos].
  { rewrite bool_decide_eq_false_2 by lia. done. }
  rewrite (bool_decide_eq_true_2 (0 < amount)) by done.
  destruct (DB.spends db !! uuid4 0%nat) as [old|] eqn:Hkey.
  { rewrite (bool_decide_eq_true_2 (is_Some (Some old))) by (by eexists).
    rewrite (bool_decide_eq_false_2 (Some old = None)) by done.
    by rewrite andb_false_r. }
  rewrite (bool_decide_eq_false_2 (is_Some None)) by (by intros [? ?]).
  rewrite (bool_decide_eq_true_2 (None = None)) by done.
  rewrite andb_true_r. cbn [andb].
  match goal with
  | |- context [spending_services.check_budget_limits ?n ?c0 ?d] =>
      pose proof (check_budget_limits_ok n c0 d) as Hok;
      pose proof (check_budget_limits_db n c0 d) as (_ & Hsp & _);
      destruct (spending_services.check_budget_limits n c0 d) as [[r c1] db1]
  end.
  cbn in Hok, Hsp.
  destruct (bool_decide (is_Some (DB.campaigns db !! Campaign.id c))) eqn:Hst.
  - apply bool_decide_eq_true in Hst. specialize (Hok Hst).
    destruct r as [bc|e]; [|done]. cbn. split; [done|]. by rewrite Hsp.
  - by destruct r.
Qed.

Lemma or_zero_Sum l : spending_queries.or_zero (spending_queries.Sum l) = foldr Z.add 0 l.
Proof.
  destruct l as [|a l]; [done|]. unfold spending_queries.Sum, spending_queries.or_zero.
  by destruct (Z.eqb_spec (foldr Z.add 0 (a :: l)) 0) as [->|].
Qed.

Lemma sum_Permutation (l l' : list Z) :
  l ≡ₚ l' → foldr Z.add 0 l = foldr Z.add 0 l'.
Proof. induction 1; cbn; lia. Qed.

(** The filtered sum of the ledger after a row is stored under a new key. *)
Lemma ledger_sum_insert (P : Spend.row → Prop) `{!∀ r, Decision (P r)}
    (spends : gmap N Spend.row) key row :
  spends !! key = None →
  foldr Z.add 0 (Spend.row_amount <$> filter P (map_to_list (<[key := row]> spends)).*2)
  = (if decide (P row) then Spend.row_amount row else 0)
    + foldr Z.add 0 (Spend.row_amount <$> filter P (map_to_list spends).*2).
Proof.
  intros Hkey. pose proof (map_to_list_insert spends key row Hkey) as Hperm.
  rewrite (sum_Permutation _
             (Spend.row_amount <$> filter P ((key, row) :: map_to_list spends).*2)).
  - rewrite fmap_cons, filter_cons. cbn [snd]. by destruct (decide (P row)).
  - by rewrite Hperm.
Qed.

(** X13: the outcome of track_spend for a positive amount that the amount
    column can hold and an unused Spend identifier. The Spend row is written
    first and the budget check runs inside the same transaction. On a stored
    campaign the call succeeds: exactly one new row is stored (the campaign,
    the amount, the given date or today's, type DAILY) and the campaign is
    paused when the instance is active and over a budget. On a campaign whose
    row is gone the call fails and the database is what it was before the
    call, the Spend row included: with DatabaseError from the pause when the
    instance is active and over a budget, the instance being left PAUSED;
    with IntegrityError from the commit otherwise, the instance untouched. *)
Theorem track_spend_outcome uuid4 now c amount spend_date description db :
  0 < amount < 10000000000 →
  DB.spends db !! uuid4 0%nat = None →
  let '(r, c', db') :=
    spending_services.track_spend uuid4 now c amount spend_date description db in
  c' = budget_outcome now c c
  ∧ match DB.campaigns db !! Campaign.id c with
    | Some stored =>
        is_ok r = true
        ∧ db' = DB.mk (<[Campaign.id c := budget_outcome now c stored]>
                         (DB.campaigns db))
                      (DB.schedules db)
                      (<[uuid4 0%nat := Spend.mk_row (Campaign.id c) amount
                                          (default (toordinal now) spend_date)
                                          DAILY description]>
                         (DB.spends db))
    | None =>
        db' = db
        ∧ r = Raise
                (if Campaign.is_active c
                    && ((Campaign.daily_spend c
                           >=? Brand.daily_budget (Campaign.brand c))
                        || (Campaign.monthly_spend c
                              >=? Brand.monthly_budget (Campaign.brand c)))
                 then DatabaseError else IntegrityError)
    end.
Proof.
  intros [Hpos _] Hkey. rewrite track_spend_eq. cbv zeta.
  assert ((amount <=? 0) = false) as -> by (apply Z.leb_gt; lia).
  rewrite Hkey. rewrite (bool_decide_eq_false_2 (is_Some None)) by (by intros [? ?]).
  destruct (DB.campaigns db !! Campaign.id c) as [stored|] eqn:Hrow.
  - rewrite (bool_decide_eq_true_2 (is_Some (Some stored))) by (by eexists).
    match goal with
    | |- context [spending_services.check_budget_limits ?n ?c0 ?d] =>
        pose proof (check_budget_limits_ok n c0 d) as Hok;
        pose proof (check_budget_limits_instance n c0 d) as Hin;
        pose proof (check_budget_limits_db n c0 d) as (Hsc & Hsp & Hca);
        destruct (spending_services.check_budget_limits n c0 d) as [[r c1] db1]
    end.
    cbn in Hok, Hin, Hsc, Hsp, Hca. rewrite Hrow in Hca.
    specialize (Hok ltac:(by eexists)).
    destruct r as [bc|e]; [|done]. split; [done|]. split; [done|].
    destruct db1 as [ca sc sp]. cbn in Hsc, Hsp, Hca. by subst.
  - rewrite (bool_decide_eq_false_2 (is_Some None)) by (by intros [? ?]).
    rewrite check_budget_limits_missing by done.
    unfold budget_outcome.
    destruct (Campaign.is_active c); cbn; [|done].
    destruct (Campaign.daily_spend c >=? _); cbn; [done|].
    by destruct (Campaign.monthly_spend c >=? _).
Qed.

Lemma track_spend_outcome_witness :
  0 < 2500 < 10000000000
  ∧ let '(r, c', db') :=
      spending_services.track_spend ex_uuid4 ex_now (ex_campaign 12000 150000) 2500
        None None (DB.mk ∅ [] ∅) in
    r = Raise DatabaseError
    ∧ Campaign.status c' = PAUSED
    ∧ db' = DB.mk ∅ [] ∅.
Proof.
  split; [lia|].
  pose proof (track_spend_outcome ex_uuid4 ex_now (ex_campaign 12000 150000) 2500
                None None (DB.mk ∅ [] ∅) ltac:(lia) eq_refl) as H.
  destruct (spending_services.track_spend ex_uuid4 ex_now (ex_campaign 12000 150000)
              2500 None None (DB.mk ∅ [] ∅)) as [[r c'] db'].
  destruct H as (-> & -> & ->). split; [reflexivity|]. split; reflexivity.
Defined.



(** X15: track_spend never shows in the monthly ledger query. Every row it
    stores has type DAILY and get_monthly_spend_for_campaign sums MONTHLY
    rows only, so for every campaign, year and month the monthly sum after
    any call of track_spend, successful or not, is the sum before it. *)
Theorem track_spend_monthly_ledger_unchanged (date_year date_month : Z → Z)
    uuid4 now c amount spend_date description db campaign year month :
  spending_queries.get_monthly_spend_for_campaign date_year date_month
    (spending_services.track_spend uuid4 now c amount spend_date description db).2
    campaign year month
  = spending_queries.get_monthly_spend_for_campaign date_year date_month db
      campaign year month.
Proof.
  pose proof (track_spend_spends uuid4 now c amount spend_date description db) as H.
  destruct (spending_services.track_spend uuid4 now c amount spend_date description db)
    as [[r c'] db'].
  cbv zeta in H. cbn [snd].
  destruct (_ && bool_decide (DB.spends db !! uuid4 0%nat = None)) eqn:Hb.
  - apply andb_true_iff in Hb as [_ Hkey]. apply bool_decide_eq_true in Hkey.
    destruct H as [_ Hs]. unfold spending_queries.get_monthly_spend_for_campaign.
    rewrite !or_zero_Sum, Hs.
    rewrite (ledger_sum_insert
               (λ r0, Spend.row_campaign_id r0 = Campaign.id campaign
                      ∧ date_year (Spend.row_spend_date r0) = year
                      ∧ date_month (Spend.row_spend_date r0) = month
                      ∧ Spend.row_spend_type r0 = MONTHLY)) by done.
    cbn. rewrite decide_False; [lia|]. by intros (_ & _ & _ & ?).
  - by destruct H as (_ & ->).
Qed.

(** ** Creating schedules *)

(** The cases of Schedule.objects.create. *)
Lemma schedule_create_cases new_id campaign day start_time end_time is_active db :
  let '(r, db') :=
    scheduling_writes.objects_create new_id campaign day start_time end_time
      is_active db in
  match r with
  | Saved s =>
      start_time < end_time
      ∧ s = Schedule.mk new_id (Campaign.id campaign) day start_time end_time is_active
      ∧ db' = DB.mk (DB.campaigns db) (DB.schedules db ++ [s]) (DB.spends db)
      ∧ (new_id ∉ Schedule.id <$> DB.schedules db)
      ∧ is_Some (DB.campaigns db !! Campaign.id campaign)
      ∧ ∀ s', s' ∈ DB.schedules db →
          ¬ (Schedule.campaign_id s' = Campaign.id campaign
             ∧ Schedule.day_of_week s' = day
             ∧ Schedule.start_time s' = start_time
             ∧ Schedule.end_time s' = end_time)
  | Failed e =>
      db' = db
      ∧ (e = ValidationError ↔ end_time ≤ start_time)
      ∧ (e = ValidationError ∨ e = Database IntegrityError)
  end.
Proof.
  unfold scheduling_writes.objects_create, scheduling_writes.save,
    scheduling_writes.clean, scheduling_writes.insert. cbn.
  destruct (Z.geb_spec start_time end_time) as [Hge|Hlt].
  { split; [done|]. split; [split; [lia|done]|by left]. }
  case_bool_decide as Hid.
  { split; [done|]. split; [split; [done|lia]|by right]. }
  destruct (DB.campaigns db !! Campaign.id campaign) as [row|] eqn:Hrow.
  2:{ split; [done|]. split; [split; [done|lia]|by right]. }
  case_bool_decide as Hdup.
  { split; [done|]. split; [split; [done|lia]|by right]. }
  split; [done|]. split; [done|]. split; [done|]. split; [done|].
  split; [by eexists|]. intros s' Hs' Hc. apply Hdup.
  apply Exists_exists. by exists s'.
Qed.

(** X16: what Schedule.objects.create accepts. A schedule whose start_time
    is not before its end_time is rejected with ValidationError; an
    identifier already in use, a campaign that is not stored, or a stored
    schedule with the same campaign, day and times is rejected with
    IntegrityError; a rejected call stores nothing. An accepted schedule has
    start_time < end_time and is appended to the table, the other tables
    unchanged. *)
Theorem schedule_create_spec new_id campaign day start_time end_time is_active db :
  let '(r, db') :=
    scheduling_writes.objects_create new_id campaign day start_time end_time
      is_active db in
  match r with
  | Saved s =>
      start_time < end_time
      ∧ s = Schedule.mk new_id (Campaign.id campaign) day start_time end_time is_active
      ∧ db' = DB.mk (DB.campaigns db) (DB.schedules db ++ [s]) (DB.spends db)
      ∧ (new_id ∉ Schedule.id <$> DB.schedules db)
      ∧ is_Some (DB.campaigns db !! Campaign.id campaign)
      ∧ ∀ s', s' ∈ DB.schedules db →
          ¬ (Schedule.campaign_id s' = Campaign.id campaign
             ∧ Schedule.day_of_week s' = day
             ∧ Schedule.start_time s' = start_time
             ∧ Schedule.end_time s' = end_time)
  | Failed e =>
      db' = db
      ∧ (e = ValidationError ↔ end_time ≤ start_time)
      ∧ (e = ValidationError ∨ e = Database IntegrityError)
  end.
Proof.
  unfold scheduling_writes.objects_create, scheduling_writes.save,
    scheduling_writes.clean, scheduling_writes.insert. cbn.
  destruct (Z.geb_spec start_time end_time) as [Hge|Hlt].
  { split; [done|]. split; [split; [lia|done]|by left]. }
  case_bool_decide as Hid.
  { split; [done|]. split; [split; [done|lia]|by right]. }
  destruct (DB.campaigns db !! Campaign.id campaign) as [row|] eqn:Hrow.
  2:{ split; [done|]. split; [split; [done|lia]|by right]. }
  case_bool_decide as Hdup.
  { split; [done|]. split; [split; [done|lia]|by right]. }
  split; [done|]. split; [done|]. split; [done|]. split; [done|].
  split; [by eexists|]. intros s' Hs' Hc. apply Hdup.
  apply Exists_exists. by exists s'.
Qed.

Lemma create_days_schedules uuid4 campaign days : ∀ db schedules db',
  scheduling_writes.create_days uuid4 campaign days db = (Saved schedules, db') →
  schedules
    = (λ day, Schedule.mk (uuid4 day) (Campaign.id campaign) (Z.of_nat day)
                0 86399000000 true) <$> days
  ∧ DB.schedules db' = DB.schedules db ++ schedules
  ∧ DB.campaigns db' = DB.campaigns db
  ∧ (days ≠ [] → is_Some (DB.campaigns db !! Campaign.id campaign)).
Proof.
  induction days as [|day days IH]; intros db schedules db' H; cbn in H.
  - injection H as <- <-. rewrite app_nil_r. done.
  - pose proof (schedule_create_cases (uuid4 day) campaign (Z.of_nat day)
                  0 86399000000 true db) as Hc.
    destruct (scheduling_writes.objects_create _ _ _ _ _ _ db) as [[s|e] db1];
      [|done].
    destruct Hc as (_ & -> & -> & _ & Hst & _).
    destruct (scheduling_writes.create_days uuid4 campaign days _)
      as [[rest|e] db2] eqn:Hrest; [|done].
    injection H as <- <-.
    destruct (IH _ _ _ Hrest) as (-> & Hs & Hcs & _). cbn in Hs, Hcs.
    split; [done|]. split; [by rewrite Hs, <- app_assoc|]. split; done.
Qed.

(** The rows of the default schedule that match a given day. *)
Lemma filter_default_rows (f : nat → Schedule.t) (cid : N) (w : Z) n :
  (∀ day, Schedule.campaign_id (f day) = cid
          ∧ Schedule.day_of_week (f day) = Z.of_nat day
          ∧ Schedule.is_active (f day) = true) →
  0 ≤ w →
  filter (λ s, Schedule.campaign_id s = cid ∧ Schedule.day_of_week s = w
               ∧ Schedule.is_active s = true) (f <$> seq 0 n)
  = if decide (w < Z.of_nat n) then [f (Z.to_nat w)] else [].
Proof.
  intros Hf Hw. induction n as [|n IH]; [rewrite decide_False by lia; done|].
  rewrite seq_S, fmap_app, filter_app, IH. rewrite Nat.add_0_l.
  change (f <$> [n]) with [f n].
  rewrite filter_cons, filter_nil. destruct (Hf n) as (Hc & Hd & Ha).
  destruct (decide (Schedule.campaign_id (f n) = cid
                    ∧ Schedule.day_of_week (f n) = w
                    ∧ Schedule.is_active (f n) = true)) as [(_ & Hw' & _)|Hno];
    destruct (decide (w < Z.of_nat n)); destruct (decide (w < Z.of_nat (S n)));
    try lia; try done.
  - assert (w = Z.of_nat n) as -> by lia. by rewrite Nat2Z.id.
  - exfalso. apply Hno. split; [done|]. split; [lia|done].
Qed.

Lemma matching_nil_of_no_rows db campaign day :
  (∀ s, s ∈ DB.schedules db → Schedule.campaign_id s ≠ Campaign.id campaign) →
  scheduling_models.matching db campaign day = [].
Proof.
  intros Hnone. unfold scheduling_models.matching.
  induction (DB.schedules db) as [|s l IH]; [done|].
  rewrite filter_cons. destruct (decide _) as [(Hc & _ & _)|_].
  - exfalso. apply (Hnone s); [left|done].
  - apply IH. intros s' Hs'. apply Hnone. by right.
Qed.

Lemma weekday_range now : 0 ≤ weekday now < 7.
Proof. unfold weekday. apply Z.mod_pos_bound. lia. Qed.

Lemma matching_after_default uuid4 campaign db first db' day :
  scheduling_writes.create_default_schedule uuid4 campaign db = (Saved first, db') →
  0 ≤ day < 7 →
  scheduling_models.matching db' campaign day
  = scheduling_models.matching db campaign day
    ++ [Schedule.mk (uuid4 (Z.to_nat day)) (Campaign.id campaign) day
          0 86399000000 true].
Proof.
  unfold scheduling_writes.create_default_schedule. intros H Hday.
  destruct (scheduling_writes.create_days uuid4 campaign (seq 0 7) db)
    as [[schedules|e] db1] eqn:Hdays; [|done].
  apply create_days_schedules in Hdays as (-> & Hs & _).
  assert (db1 = db') as <- by (destruct (_ <$> seq 0 7); congruence).
  unfold scheduling_models.matching. rewrite Hs, filter_app. f_equal.
  rewrite (filter_default_rows _ (Campaign.id campaign) day 7) by (done || lia).
  rewrite decide_True by lia. by rewrite Z2Nat.id by lia.
Qed.

(** X17: the default schedule is open all day except the last second. After
    a successful create_default_schedule on a campaign that had no schedule
    row, is_campaign_scheduled_now returns a verdict on every day of the
    week, and the verdict is True exactly when the time of day is between
    00:00:00 and 23:59:59.000000: from 23:59:59.000001 to midnight the
    campaign counts as outside its schedule. *)
Theorem default_schedule_covers uuid4 campaign db first db' now :
  (∀ s, s ∈ DB.schedules db → Schedule.campaign_id s ≠ Campaign.id campaign) →
  scheduling_writes.create_default_schedule uuid4 campaign db = (Saved first, db') →
  ∃ b, scheduling_matcher.is_campaign_scheduled_now now db' campaign = Ok b
       ∧ (b = true ↔ 0 ≤ time_of_day now ≤ 86399000000).
Proof.
  intros Hnone Hcreate.
  unfold scheduling_matcher.is_campaign_scheduled_now,
    scheduling_models.get_schedule_for_campaign_and_day.
  rewrite (matching_after_default _ _ _ _ _ _ Hcreate (weekday_range now)).
  rewrite (matching_nil_of_no_rows _ _ _ Hnone). cbn.
  eexists. split; [reflexivity|].
  unfold Schedule.is_time_in_range. cbn. rewrite andb_true_iff, !Z.leb_le. done.
Qed.

Lemma default_schedule_covers_witness :
  scheduling_writes.create_default_schedule ex_uuid4 (ex_campaign 0 0) (ex_db 0 0 [])
    = (Saved (Schedule.mk 100%N 7%N 0 0 86399000000 true), ex_default_db)
  ∧ ∃ b, scheduling_matcher.is_campaign_scheduled_now
           (mk_datetime 738000 86399000001) ex_default_db (ex_campaign 0 0) = Ok b
         ∧ (b = true ↔ 0 ≤ 86399000001 ≤ 86399000000).
Proof.
  split; [reflexivity|].
  apply (default_schedule_covers ex_uuid4 (ex_campaign 0 0) (ex_db 0 0 [])
           (Schedule.mk 100%N 7%N 0 0 86399000000 true) ex_default_db
           (mk_datetime 738000 86399000001)).
  - intros s Hs. by apply elem_of_nil in Hs.
  - reflexivity.
Defined.

(** X18: a default schedule on top of an existing one breaks the matcher.
    If the campaign already had an active schedule for some weekday and
    create_default_schedule succeeds, then on that weekday
    is_campaign_scheduled_now raises MultipleObjectsReturned, at every time
    of day, and so does can_be_activated for a campaign under its budgets. *)
Theorem default_schedule_on_existing_raises uuid4 campaign db first db' now s0 :
  s0 ∈ DB.schedules db →
  Schedule.campaign_id s0 = Campaign.id campaign →
  Schedule.day_of_week s0 = weekday now →
  Schedule.is_active s0 = true →
  scheduling_writes.create_default_schedule uuid4 campaign db = (Saved first, db') →
  scheduling_matcher.is_campaign_scheduled_now now db' campaign
    = Raise MultipleObjectsReturned
  ∧ (Campaign.daily_spend campaign < Brand.daily_budget (Campaign.brand campaign) →
     Campaign.monthly_spend campaign < Brand.monthly_budget (Campaign.brand campaign) →
     campaigns_models.can_be_activated now campaign db' = Raise MultipleObjectsReturned).
Proof.
  intros Hs0 Hc Hd Ha Hcreate.
  assert (scheduling_matcher.is_campaign_scheduled_now now db' campaign
          = Raise MultipleObjectsReturned) as Hraise.
  { unfold scheduling_matcher.is_campaign_scheduled_now,
      scheduling_models.get_schedule_for_campaign_and_day.
    rewrite (matching_after_default _ _ _ _ _ _ Hcreate (weekday_range now)).
    assert (s0 ∈ scheduling_models.matching db campaign (weekday now)) as Hin
      by (by apply list_elem_of_filter).
    destruct (scheduling_models.matching db campaign (weekday now)) as [|s1 [|s2 l]];
      [by apply elem_of_nil in Hin|done|done]. }
  split; [done|]. intros Hdb Hmb. unfold campaigns_models.can_be_activated.
  assert ((Campaign.daily_spend campaign
             >=? Brand.daily_budget (Campaign.brand campaign)) = false)
    as -> by (rewrite Z.geb_leb; apply Z.leb_gt; lia).
  assert ((Campaign.monthly_spend campaign
             >=? Brand.monthly_budget (Campaign.brand campaign)) = false)
    as -> by (rewrite Z.geb_leb; apply Z.leb_gt; lia).
  by rewrite Hraise.
Qed.

Lemma default_schedule_on_existing_raises_witness :
  let db := ex_db 0 0 [ex_nine_to_six] in
  let db' :=
    DB.mk {[ 7%N := ex_campaign 0 0 ]}
          (ex_nine_to_six
           :: ((λ day, Schedule.mk (ex_uuid4 day) 7%N (Z.of_nat day) 0 86399000000 true)
                 <$> seq 0 7)) ∅ in
  scheduling_matcher.is_campaign_scheduled_now ex_now db (ex_campaign 0 0) = Ok true
  ∧ scheduling_writes.create_default_schedule ex_uuid4 (ex_campaign 0 0) db
    = (Saved (Schedule.mk 100%N 7%N 0 0 86399000000 true), db')
  ∧ scheduling_matcher.is_campaign_scheduled_now ex_now db' (ex_campaign 0 0)
    = Raise MultipleObjectsReturned.
Proof.
  cbv zeta. split; [reflexivity|]. split; [reflexivity|].
  apply (default_schedule_on_existing_raises ex_uuid4 (ex_campaign 0 0)
           (ex_db 0 0 [ex_nine_to_six])
           (Schedule.mk 100%N 7%N 0 0 86399000000 true) _ ex_now ex_nine_to_six);
    [left | reflexivity | reflexivity | reflexivity | reflexivity].
Defined.

(** X19: create_default_schedule cannot be repeated. Once it has succeeded
    for a campaign, a second call for the same campaign, with whatever new
    identifiers, raises IntegrityError at its first schedule and stores
    nothing. *)
Theorem default_schedule_twice_fails uuid4 uuid4' campaign db first db' :
  scheduling_writes.create_default_schedule uuid4 campaign db = (Saved first, db') →
  scheduling_writes.create_default_schedule uuid4' campaign db'
  = (Failed (Database IntegrityError), db').
Proof.
  unfold scheduling_writes.create_default_schedule at 1. intros H.
  destruct (scheduling_writes.create_days uuid4 campaign (seq 0 7) db)
    as [[schedules|e] db1] eqn:Hdays; [|done].
  apply create_days_schedules in Hdays as (-> & Hs & Hcs & Hst).
  assert (db1 = db') as <- by (destruct (_ <$> seq 0 7); congruence).
  destruct Hst as [row Hrow]; [done|].
  unfold scheduling_writes.create_default_schedule. cbn [seq scheduling_writes.create_days].
  pose proof (schedule_create_cases (uuid4' 0%nat) campaign (Z.of_nat 0)
                0 86399000000 true db1) as Hc.
  destruct (scheduling_writes.objects_create _ _ _ _ _ _ db1) as [[s|e] db2].
  - destruct Hc as (_ & _ & _ & _ & _ & Hnodup). exfalso.
    apply (Hnodup (Schedule.mk (uuid4 0%nat) (Campaign.id campaign) (Z.of_nat 0)
                     0 86399000000 true)); [|done].
    rewrite Hs. apply elem_of_app. right. left.
  - destruct Hc as (-> & Hv & [-> | ->]); [|done].
    exfalso. destruct Hv as [Hv _]. specialize (Hv eq_refl). lia.
Qed.

Lemma default_schedule_twice_fails_witness :
  scheduling_writes.create_default_schedule ex_uuid4 (ex_campaign 0 0) (ex_db 0 0 [])
    = (Saved (Schedule.mk 100%N 7%N 0 0 86399000000 true), ex_default_db)
  ∧ scheduling_writes.create_default_schedule (λ n, (200 + N.of_nat n)%N)
      (ex_campaign 0 0) ex_default_db
    = (Failed (Database IntegrityError), ex_default_db).
Proof.
  split; [reflexivity|].
  apply (default_schedule_twice_fails ex_uuid4 (λ n, (200 + N.of_nat n)%N)
           (ex_campaign 0 0) (ex_db 0 0 [])
           (Schedule.mk 100%N 7%N 0 0 86399000000 true) ex_default_db).
  reflexivity.
Defined.

(** ** The dayparting sweep *)

Lemma collect_to_pause_spec now db active :
  match scheduling_services.collect_to_pause now db active with
  | Ok l =>
      l `sublist_of` active
      ∧ (∀ c, c ∈ l ↔
           c ∈ active
           ∧ scheduling_matcher.is_campaign_scheduled_now now db c = Ok false)
      ∧ ∀ c, c ∈ active →
          is_ok (scheduling_matcher.is_campaign_scheduled_now now db c) = true
  | Raise e =>
      e = MultipleObjectsReturned
      ∧ ∃ c, c ∈ active
             ∧ scheduling_matcher.is_campaign_scheduled_now now db c
               = Raise MultipleObjectsReturned
  end.
Proof.
  induction active as [|c rest IH]; cbn.
  - split; [done|]. split; [|by intros c Hc; apply elem_of_nil in Hc].
    intros c. split; [by intros Hc; apply elem_of_nil in Hc|].
    by intros [Hc _]; apply elem_of_nil in Hc.
  - unfold scheduling_matcher.is_campaign_scheduled_now in *.
    unfold scheduling_models.get_schedule_for_campaign_and_day in *.
    destruct (scheduling_models.matching db c (weekday now)) as [|s [|s' l]] eqn:Hm.
    + destruct (scheduling_services.collect_to_pause now db rest) as [l|e].
      * destruct IH as (Hsub & Hiff & Hok). split; [by apply sublist_skip|].
        split.
        -- intros c'. rewrite !elem_of_cons, Hiff. split.
           ++ intros [->|[? ?]]; [by rewrite Hm; auto|auto].
           ++ intros [[->|?] ?]; auto.
        -- intros c' [->|Hc']%elem_of_cons; [by rewrite Hm|auto].
      * destruct IH as (-> & c' & Hc' & Hr). split; [done|].
        exists c'. split; [by right|done].
    + destruct (scheduling_services.collect_to_pause now db rest) as [l|e].
      * destruct IH as (Hsub & Hiff & Hok).
        destruct (Schedule.is_time_in_range s (time_of_day now)) eqn:Hin; cbn.
        -- split; [by apply sublist_cons|]. split.
           ++ intros c'. rewrite elem_of_cons, Hiff. split.
              ** intros [? ?]. auto.
              ** intros [[->|?] Hf]; [|auto]. rewrite Hm, Hin in Hf. done.
           ++ intros c' [->|Hc']%elem_of_cons; [by rewrite Hm|auto].
        -- split; [by apply sublist_skip|]. split.
           ++ intros c'. rewrite !elem_of_cons, Hiff. split.
              ** intros [->|[? ?]]; [by rewrite Hm, Hin; auto|auto].
              ** intros [[->|?] ?]; auto.
           ++ intros c' [->|Hc']%elem_of_cons; [by rewrite Hm|auto].
      * destruct IH as (-> & c' & Hc' & Hr). split; [done|].
        exists c'. split; [by right|done].
    + split; [done|]. exists c. split; [by left|]. by rewrite Hm.
Qed.

(** X20: one campaign with two schedules stops the whole dayparting sweep.
    If some stored ACTIVE campaign has two or more active schedules for
    today's weekday, enforce_dayparting pauses nothing and activates nothing:
    it returns one error and the database as it was. *)
Theorem enforce_dayparting_aborts now db k row s1 s2 rest :
  DB.campaigns db !! k = Some row →
  Campaign.status row = ACTIVE →
  scheduling_models.matching db (DB.from_db (k, row)) (weekday now)
    = s1 :: s2 :: rest →
  scheduling_services.enforce_dayparting now db = (mk_DaypartingResults 0 0 1, db).
Proof.
  intros Hrow Hact Hm. unfold scheduling_services.enforce_dayparting,
    scheduling_services.get_campaigns_that_should_be_paused.
  pose proof (collect_to_pause_spec now db
                (filter (λ c, Campaign.status c = ACTIVE) (DB.all_campaigns db))) as H.
  destruct (scheduling_services.collect_to_pause now db _) as [l|e]; [|done].
  destruct H as (_ & _ & Hok). exfalso.
  specialize (Hok (DB.from_db (k, row))).
  unfold scheduling_matcher.is_campaign_scheduled_now,
    scheduling_models.get_schedule_for_campaign_and_day in Hok.
  rewrite Hm in Hok. cbn in Hok. assert (false = true) as ?; [|done].
  apply Hok. apply list_elem_of_filter. split; [done|].
  apply elem_of_all_campaigns. by exists row.
Qed.

Lemma enforce_dayparting_aborts_witness :
  let db := ex_db 0 0 [ex_morning; ex_afternoon] in
  DB.campaigns db !! 7%N = Some (ex_campaign 0 0)
  ∧ scheduling_models.matching db (DB.from_db (7%N, ex_campaign 0 0)) (weekday ex_now)
    = [ex_morning; ex_afternoon]
  ∧ scheduling_services.enforce_dayparting ex_now db = (mk_DaypartingResults 0 0 1, db).
Proof.
  cbv zeta. split; [reflexivity|]. split; [reflexivity|].
  apply (enforce_dayparting_aborts ex_now (ex_db 0 0 [ex_morning; ex_afternoon]) 7%N
           (ex_campaign 0 0) ex_morning ex_afternoon []);
    reflexivity.
Defined.

Lemma pause_step_rows now db0 (acc : DaypartingResults * DB.t) c :
  DB.schedules acc.2 = DB.schedules db0 →
  DB.schedules (scheduling_services.pause_step now acc c).2 = DB.schedules db0
  ∧ ∀ k, DB.campaigns (scheduling_services.pause_step now acc c).2 !! k
         = if decide (k = Campaign.id c)
           then (if Campaign.is_active c then paused_row now OUTSIDE_SCHEDULE else id)
                  <$> DB.campaigns acc.2 !! k
           else DB.campaigns acc.2 !! k.
Proof.
  destruct acc as [results db]. cbn. intros Hs.
  unfold scheduling_services.pause_step.
  destruct (Campaign.is_active c).
  - destruct (DB.campaigns db !! Campaign.id c) as [row|] eqn:Hrow.
    + rewrite (pause_stored _ _ _ _ _ Hrow). cbn. split; [done|].
      intros k. rewrite lookup_insert.
      destruct (decide (Campaign.id c = k)) as [<-|Hne].
      * rewrite decide_True by done. by rewrite Hrow.
      * by rewrite decide_False by done.
    + rewrite (pause_missing _ _ _ _ Hrow). cbn. split; [done|].
      intros k. case_decide; [|done]. subst k. by rewrite Hrow.
  - split; [done|]. intros k. case_decide; [|done]. by rewrite option_fmap_id.
Qed.

Lemma activate_step_schedules now acc c :
  DB.schedules (scheduling_services.activate_step now acc c).2 = DB.schedules acc.2.
Proof.
  destruct acc as [results db]. unfold scheduling_services.activate_step.
  destruct (_ && _); [|done].
  destruct (campaigns_models.can_be_activated now c db) as [[|]|]; try done.
  destruct (activate_writes now c db) as (Hs & _).
  by destruct (campaigns_models.activate now c db) as [[[]] db'].
Qed.

Lemma activate_step_lookup_active now acc campaign k :
  (Campaign.id campaign = k → Campaign.status campaign = ACTIVE) →
  DB.campaigns (scheduling_services.activate_step now acc campaign).2 !! k
    = DB.campaigns acc.2 !! k.
Proof.
  intros Hk. destruct acc as [results db]. unfold scheduling_services.activate_step.
  destruct (Campaign.is_paused campaign) eqn:Hp; [|done].
  apply bool_decide_eq_true in Hp. cbn.
  destruct (bool_decide _); [|done].
  destruct (campaigns_models.can_be_activated now campaign db) as [[|]|]; try done.
  pose proof (activate_writes now campaign db) as Hw.
  destruct (campaigns_models.activate now campaign db) as [[[]] db'];
    cbn in *; apply (writes_at_lookup_ne _ _ _ _ _ Hw);
    intros ->; specialize (Hk eq_refl); congruence.
Qed.

Lemma should_be_active_elem now db c :
  c ∈ scheduling_services.get_campaigns_that_should_be_active now db ↔
  ∃ s row,
    s ∈ DB.schedules db
    ∧ Schedule.campaign_id s = Campaign.id c
    ∧ Schedule.day_of_week s = weekday now
    ∧ Schedule.is_active s = true
    ∧ Schedule.start_time s ≤ time_of_day now ≤ Schedule.end_time s
    ∧ DB.campaigns db !! Campaign.id c = Some row
    ∧ c = Campaign.set_id (Campaign.id c) row.
Proof.
  unfold scheduling_services.get_campaigns_that_should_be_active.
  rewrite list_elem_of_omap. split.
  - intros (s & Hs & Hc). apply list_elem_of_filter in Hs as [(Hd & Ha & H1 & H2) Hs].
    destruct (DB.campaigns db !! Schedule.campaign_id s) as [row|] eqn:Hrow; [|done].
    cbn in Hc. injection Hc as <-. exists s, row. cbn. by repeat split.
  - intros (s & row & Hs & Hc & Hd & Ha & [H1 H2] & Hrow & Heq).
    exists s. split; [by apply list_elem_of_filter|].
    rewrite Hc, Hrow. unfold DB.from_db. cbn. by rewrite <- Heq.
Qed.

(** A schedule that covers the time leaves no room for the verdict False. *)
Lemma covered_not_rejected now db c s :
  s ∈ DB.schedules db →
  Schedule.campaign_id s = Campaign.id c →
  Schedule.day_of_week s = weekday now →
  Schedule.is_active s = true →
  Schedule.start_time s ≤ time_of_day now ≤ Schedule.end_time s →
  scheduling_matcher.is_campaign_scheduled_now now db c ≠ Ok false.
Proof.
  intros Hs Hc Hd Ha [H1 H2].
  unfold scheduling_matcher.is_campaign_scheduled_now,
    scheduling_models.get_schedule_for_campaign_and_day.
  assert (s ∈ scheduling_models.matching db c (weekday now)) as Hin
    by (by apply list_elem_of_filter).
  destruct (scheduling_models.matching db c (weekday now)) as [|s1 [|s2 l]];
    [by apply elem_of_nil in Hin| |done].
  apply list_elem_of_singleton in Hin as <-.
  unfold Schedule.is_time_in_range.
  assert ((Schedule.start_time s <=? time_of_day now) = true) as ->
    by (by apply Z.leb_le).
  by assert ((time_of_day now <=? Schedule.end_time s) = true) as ->
    by (by apply Z.leb_le).
Qed.

Lemma is_scheduled_schedules now db db' c :
  DB.schedules db' = DB.schedules db →
  scheduling_matcher.is_campaign_scheduled_now now db' c
  = scheduling_matcher.is_campaign_scheduled_now now db c.
Proof.
  intros Hs. unfold scheduling_matcher.is_campaign_scheduled_now,
    scheduling_models.get_schedule_for_campaign_and_day, scheduling_models.matching.
  by rewrite Hs.
Qed.

(** X21: enforce_dayparting leaves a running campaign alone. When the
    sweep is not stopped by a duplicate schedule, a stored ACTIVE campaign
    whose schedule covers the instant the first loop works with ([now]: the
    matcher answers True there) is not among the campaigns to pause, and the
    second loop acts on paused campaigns only, whatever the time it reads:
    the row is unchanged. *)
Theorem enforce_dayparting_active now db to_pause k row :
  scheduling_services.get_campaigns_that_should_be_paused now db = Ok to_pause →
  DB.campaigns db !! k = Some row →
  Campaign.status row = ACTIVE →
  scheduling_matcher.is_campaign_scheduled_now now db (DB.from_db (k, row)) = Ok true →
  DB.campaigns (scheduling_services.enforce_dayparting now db).2 !! k = Some row.
Proof.
  intros Hcollect Hrow Hact Hsched.
  unfold scheduling_services.enforce_dayparting. rewrite Hcollect.
  unfold scheduling_services.get_campaigns_that_should_be_paused in Hcollect.
  pose proof (collect_to_pause_spec now db
                (filter (λ c, Campaign.status c = ACTIVE) (DB.all_campaigns db))) as H.
  rewrite Hcollect in H. destruct H as (Hsub & Hiff & _).
  destruct (foldl_rows (scheduling_services.pause_step now)
              (λ c, if Campaign.is_active c then paused_row now OUTSIDE_SCHEDULE else id)
              (DB.schedules db) (λ acc c, pause_step_rows now db acc c)
              to_pause (mk_DaypartingResults 0 0 0, db)) as [Hs1 Hrows1]; [|done|].
  { eapply sublist_NoDup; [apply (NoDup_filter_ids (λ c, Campaign.status c = ACTIVE) db)|].
    by apply fmap_sublist. }
  destruct (Hrows1 k) as [_ Hout]. clear Hrows1.
  destruct (foldl (scheduling_services.pause_step now) _ to_pause) as [results db1].
  cbn in Hs1, Hout.
  assert (DB.campaigns db1 !! k = Some row) as H1.
  { rewrite Hout; [done|]. intros (c & -> & Hc)%list_elem_of_fmap.
    apply Hiff in Hc as [Hc Hf]. apply list_elem_of_filter in Hc as [_ Hc].
    apply elem_of_all_campaigns in Hc as (row' & Hrow' & Heq).
    rewrite Hrow in Hrow'. injection Hrow' as <-.
    unfold DB.from_db in Hsched. cbn in Hsched. rewrite <- Heq in Hsched. congruence. }
  apply (foldl_invariant
           (λ acc : DaypartingResults * DB.t, DB.campaigns acc.2 !! k = Some row));
    [done|].
  intros acc c Hc Hacc.
  rewrite activate_step_lookup_active; [done|]. intros Hid.
  apply should_be_active_elem in Hc as (s & row' & _ & _ & _ & _ & _ & Hrow' & ->).
  cbn in Hid. subst k. cbn in Hrow' |- *. congruence.
Qed.

Lemma enforce_dayparting_active_witness :
  let db := ex_db 0 0 [ex_nine_to_six] in
  scheduling_services.get_campaigns_that_should_be_paused ex_now db = Ok []
  ∧ scheduling_matcher.is_campaign_scheduled_now ex_now db
      (DB.from_db (7%N, ex_campaign 0 0)) = Ok true
  ∧ DB.campaigns (scheduling_services.enforce_dayparting ex_now db).2 !! 7%N
    = Some (ex_campaign 0 0).
Proof.
  cbv zeta. split; [reflexivity|]. split; [reflexivity|].
  apply (enforce_dayparting_active ex_now (ex_db 0 0 [ex_nine_to_six]) []
           7%N (ex_campaign 0 0));
    reflexivity.
Defined.





Lemma pause_step_writes now acc c :
  writes_at (Campaign.id c) (paused_row now OUTSIDE_SCHEDULE) acc.2
    (scheduling_services.pause_step now acc c).2.
Proof.
  destruct acc as [results db]. unfold scheduling_services.pause_step.
  destruct (Campaign.is_active c); [|apply writes_at_refl].
  pose proof (pause_writes now OUTSIDE_SCHEDULE c db) as Hw.
  by destruct (campaigns_models.pause now OUTSIDE_SCHEDULE c db) as [[[]] db'].
Qed.

Lemma activate_step_writes now acc c :
  writes_at (Campaign.id c) (activated_row now) acc.2
    (scheduling_services.activate_step now acc c).2.
Proof.
  destruct acc as [results db]. unfold scheduling_services.activate_step.
  destruct (_ && _); [|apply writes_at_refl].
  destruct (campaigns_models.can_be_activated now c db) as [[|]|];
    try apply writes_at_refl.
  pose proof (activate_writes now c db) as Hw.
  by destruct (campaigns_models.activate now c db) as [[[]] db'].
Qed.

(** Rows that carry a given reason after a write which never produces it
    were there before. *)
Lemma writes_at_keeps_reason reason k f db0 db db' :
  writes_at k f db db' →
  (∀ row, Campaign.pause_reason (f row) ≠ Some reason) →
  (∀ k' row', DB.campaigns db !! k' = Some row' →
     Campaign.pause_reason row' = Some reason → DB.campaigns db0 !! k' = Some row') →
  ∀ k' row', DB.campaigns db' !! k' = Some row' →
    Campaign.pause_reason row' = Some reason → DB.campaigns db0 !! k' = Some row'.
Proof.
  intros (_ & _ & [Heq|(row & Hrow & Heq)]) Hf Hdb k' row'; rewrite Heq; [apply Hdb|].
  rewrite lookup_insert. case_decide; [|apply Hdb].
  intros [= <-] Hr. by destruct (Hf row).
Qed.

(** X23: enforce_dayparting never assigns NO_SCHEDULE. Every stored
    campaign whose pause_reason is NO_SCHEDULE after the sweep had exactly
    the same row before it: the sweep pauses with OUTSIDE_SCHEDULE only,
    also for a campaign that has no schedule at all. *)
Theorem enforce_dayparting_never_no_schedule now db k row' :
  DB.campaigns (scheduling_services.enforce_dayparting now db).2 !! k = Some row' →
  Campaign.pause_reason row' = Some NO_SCHEDULE →
  DB.campaigns db !! k = Some row'.
Proof.
  revert k row'. unfold scheduling_services.enforce_dayparting.
  destruct (scheduling_services.get_campaigns_that_should_be_paused now db)
    as [to_pause|]; [|done].
  set (P := λ acc : DaypartingResults * DB.t,
         ∀ k row', DB.campaigns acc.2 !! k = Some row' →
           Campaign.pause_reason row' = Some NO_SCHEDULE →
           DB.campaigns db !! k = Some row').
  assert (P (foldl (scheduling_services.pause_step now)
               (mk_DaypartingResults 0 0 0, db) to_pause)) as H1.
  { apply (foldl_invariant P); [by intros k row'|].
    intros acc c _ Hacc. unfold P in *.
    apply (writes_at_keeps_reason NO_SCHEDULE _ _ db _ _ (pause_step_writes now acc c));
      [done|exact Hacc]. }
  destruct (foldl (scheduling_services.pause_step now) _ to_pause) as [results db1].
  apply (foldl_invariant P); [exact H1|].
  intros acc c _ Hacc. unfold P in *.
  apply (writes_at_keeps_reason NO_SCHEDULE _ _ db _ _ (activate_step_writes now acc c));
    [done|exact Hacc].
Qed.

Lemma enforce_dayparting_never_no_schedule_witness :
  let db := ex_db 0 0 [] in
  DB.campaigns (scheduling_services.enforce_dayparting ex_now db).2 !! 7%N
    = Some (paused_row ex_now OUTSIDE_SCHEDULE (ex_campaign 0 0))
  ∧ (Campaign.pause_reason (paused_row ex_now OUTSIDE_SCHEDULE (ex_campaign 0 0))
       = Some NO_SCHEDULE →
     DB.campaigns db !! 7%N
     = Some (paused_row ex_now OUTSIDE_SCHEDULE (ex_campaign 0 0))).
Proof.
  cbv zeta. split; [reflexivity|].
  apply (enforce_dayparting_never_no_schedule ex_now (ex_db 0 0 []) 7%N
           (paused_row ex_now OUTSIDE_SCHEDULE (ex_campaign 0 0))).
  reflexivity.
Defined.

(** X24: get_campaigns_that_should_be_paused and the matcher agree. When
    the call returns, its result holds exactly the stored ACTIVE campaigns on
    which is_campaign_scheduled_now returns False, each once; it raises
    (MultipleObjectsReturned) exactly when the matcher raises on some stored
    ACTIVE campaign. *)
Theorem should_be_paused_spec now db :
  match scheduling_services.get_campaigns_that_should_be_paused now db with
  | Ok l =>
      NoDup (Campaign.id <$> l)
      ∧ (∀ c, c ∈ l ↔
           (∃ row, DB.campaigns db !! Campaign.id c = Some row
                   ∧ c = Campaign.set_id (Campaign.id c) row)
           ∧ Campaign.status c = ACTIVE
           ∧ scheduling_matcher.is_campaign_scheduled_now now db c = Ok false)
      ∧ ∀ k row, DB.campaigns db !! k = Some row → Campaign.status row = ACTIVE →
          is_ok (scheduling_matcher.is_campaign_scheduled_now now db
                   (DB.from_db (k, row))) = true
  | Raise e =>
      e = MultipleObjectsReturned
      ∧ ∃ k row, DB.campaigns db !! k = Some row ∧ Campaign.status row = ACTIVE
                 ∧ scheduling_matcher.is_campaign_scheduled_now now db
                     (DB.from_db (k, row)) = Raise MultipleObjectsReturned
  end.
Proof.
  unfold scheduling_services.get_campaigns_that_should_be_paused.
  pose proof (collect_to_pause_spec now db
                (filter (λ c, Campaign.status c = ACTIVE) (DB.all_campaigns db))) as H.
  destruct (scheduling_services.collect_to_pause now db _) as [l|e].
  - destruct H as (Hsub & Hiff & Hok). split; [|split].
    + eapply sublist_NoDup;
        [apply (NoDup_filter_ids (λ c, Campaign.status c = ACTIVE) db)|].
      by apply fmap_sublist.
    + intros c. rewrite Hiff, list_elem_of_filter, elem_of_all_campaigns. tauto.
    + intros k row Hrow Hact. apply Hok. apply list_elem_of_filter.
      split; [done|]. apply elem_of_all_campaigns. by exists row.
  - destruct H as (-> & c & Hc & Hr). split; [done|].
    apply list_elem_of_filter in Hc as [Hact Hc].
    apply elem_of_all_campaigns in Hc as (row & Hrow & Heq).
    exists (Campaign.id c), row. split; [done|]. split; [by rewrite Heq in Hact|].
    unfold DB.from_db. cbn. by rewrite <- Heq.
Qed.

(** X25: get_campaigns_that_should_be_active and the matcher. Every stored
    campaign the matcher accepts is in the list, and the matcher never
    rejects a campaign of the list: on it the matcher returns True, or
    raises because several of the campaign's schedules match the day. *)
Theorem should_be_active_matcher now db k row :
  DB.campaigns db !! k = Some row →
  (scheduling_matcher.is_campaign_scheduled_now now db (DB.from_db (k, row)) = Ok true →
   DB.from_db (k, row) ∈ scheduling_services.get_campaigns_that_should_be_active now db)
  ∧ (DB.from_db (k, row) ∈ scheduling_services.get_campaigns_that_should_be_active now db →
     scheduling_matcher.is_campaign_scheduled_now now db (DB.from_db (k, row)) ≠ Ok false).
Proof.
  intros Hrow. split.
  - intros Hsched. unfold scheduling_matcher.is_campaign_scheduled_now,
      scheduling_models.get_schedule_for_campaign_and_day in Hsched.
    destruct (scheduling_models.matching db (DB.from_db (k, row)) (weekday now))
      as [|s [|s' l]] eqn:Hm; [done| |done].
    assert (s ∈ scheduling_models.matching db (DB.from_db (k, row)) (weekday now))
      as Hin by (rewrite Hm; left).
    apply list_elem_of_filter in Hin as [(Hc & Hd & Ha) Hs].
    injection Hsched as Hr. unfold Schedule.is_time_in_range in Hr.
    apply andb_true_iff in Hr as [Hr1%Z.leb_le Hr2%Z.leb_le].
    apply should_be_active_elem. exists s, row. by repeat split.
  - intros (s & row' & Hs & Hc & Hd & Ha & Hr & _ & _)%should_be_active_elem.
    by apply (covered_not_rejected now db _ s).
Qed.

Lemma should_be_active_matcher_witness :
  DB.campaigns ex_outside_db !! 7%N = Some ex_outside
  ∧ scheduling_matcher.is_campaign_scheduled_now ex_now ex_outside_db
      (DB.from_db (7%N, ex_outside)) = Ok true
  ∧ DB.from_db (7%N, ex_outside)
      ∈ scheduling_services.get_campaigns_that_should_be_active ex_now ex_outside_db.
Proof.
  split; [reflexivity|]. split; [reflexivity|].
  apply (should_be_active_matcher ex_now ex_outside_db 7%N ex_outside eq_refl).
  reflexivity.
Defined.

(** ** Writes of single columns *)

(** X26: add_spend computes from the instance. A non-positive amount raises
    ValueError and changes nothing. A positive amount adds to both counters
    of the instance. When one of the new counters does not fit its column
    (max_digits=10) the save raises decimal.InvalidOperation: the instance
    keeps the new counters and nothing is stored. Otherwise, on a stored
    campaign the call writes the instance's new counters over the stored
    ones (whatever was stored) and leaves the stored status, pause_reason
    and paused_at alone; on a campaign whose row is gone it raises
    DatabaseError and stores nothing. *)
Theorem add_spend_spec now amount c db :
  let '(r, c', db') := campaigns_models.add_spend now amount c db in
  (amount ≤ 0 → r = Raise ValueError ∧ c' = c ∧ db' = db)
  ∧ (0 < amount →
     Campaign.daily_spend c' = Campaign.daily_spend c + amount
     ∧ Campaign.monthly_spend c' = Campaign.monthly_spend c + amount
     ∧ if DB.fits_max_digits (Campaign.daily_spend c + amount)
          && DB.fits_max_digits (Campaign.monthly_spend c + amount)
       then
         match DB.campaigns db !! Campaign.id c with
         | Some row =>
             r = Ok ()
             ∧ DB.campaigns db'
               = <[Campaign.id c :=
                     Campaign.set_daily_spend (Campaign.daily_spend c + amount)
                       (Campaign.set_monthly_spend (Campaign.monthly_spend c + amount)
                          (Campaign.set_updated_at now row))]> (DB.campaigns db)
         | None => r = Raise DatabaseError ∧ db' = db
         end
       else r = Raise InvalidOperation ∧ db' = db).
Proof.
  unfold campaigns_models.add_spend.
  destruct (Z.leb_spec amount 0) as [Hle|Hpos].
  - split; [done|lia].
  - unfold DB.save_campaign. cbn. rewrite andb_true_r.
    destruct (DB.fits_max_digits (Campaign.daily_spend c + amount)
              && DB.fits_max_digits (Campaign.monthly_spend c + amount)); cbn;
      [|split; [lia|]; by intros _].
    destruct (DB.campaigns db !! Campaign.id c) as [row|] eqn:Hrow; cbn;
      (split; [lia|]); intros _; by rewrite ?Hrow.
Qed.

(** The counters at the edge of the column: adding 0.01 to a daily spend of
    99999999.99 raises and leaves the stored row as it was. *)
Lemma add_spend_beyond_max_digits :
  let c := ex_campaign 9999999999 0 in
  let db := ex_db 9999999999 0 [] in
  let '(r, c', db') := campaigns_models.add_spend ex_now 1 c db in
  r = Raise InvalidOperation
  ∧ Campaign.daily_spend c' = 10000000000
  ∧ db' = db.
Proof. vm_compute. repeat split. Qed.

(** X27: save(update_fields=...) keeps the other columns. On a stored
    campaign, pause leaves the stored counters as they were, and
    reset_daily_spend and reset_monthly_spend leave the stored status,
    pause_reason, paused_at and the other counter as they were, also when
    the instance they are called on is out of date. *)
Theorem update_fields_frames now reason c db row :
  DB.campaigns db !! Campaign.id c = Some row →
  (∃ row', DB.campaigns (campaigns_models.pause now reason c db).2 !! Campaign.id c
           = Some row'
           ∧ Campaign.daily_spend row' = Campaign.daily_spend row
           ∧ Campaign.monthly_spend row' = Campaign.monthly_spend row
           ∧ Campaign.status row' = PAUSED
           ∧ Campaign.pause_reason row' = Some reason)
  ∧ (∃ row', DB.campaigns (campaigns_models.reset_daily_spend now c db).2
               !! Campaign.id c = Some row'
             ∧ Campaign.daily_spend row' = 0
             ∧ Campaign.monthly_spend row' = Campaign.monthly_spend row
             ∧ Campaign.status row' = Campaign.status row
             ∧ Campaign.pause_reason row' = Campaign.pause_reason row
             ∧ Campaign.paused_at row' = Campaign.paused_at row)
  ∧ (∃ row', DB.campaigns (campaigns_models.reset_monthly_spend now c db).2
               !! Campaign.id c = Some row'
             ∧ Campaign.monthly_spend row' = 0
             ∧ Campaign.daily_spend row' = Campaign.daily_spend row
             ∧ Campaign.status row' = Campaign.status row
             ∧ Campaign.pause_reason row' = Campaign.pause_reason row
             ∧ Campaign.paused_at row' = Campaign.paused_at row).
Proof.
  intros Hrow. split; [|split].
  - rewrite (pause_stored _ _ _ _ _ Hrow). cbn. rewrite lookup_insert_eq.
    eexists. by repeat split.
  - unfold campaigns_models.reset_daily_spend, DB.save_campaign. cbn.
    rewrite Hrow. cbn. rewrite lookup_insert_eq. eexists. by repeat split.
  - unfold campaigns_models.reset_monthly_spend, DB.save_campaign. cbn.
    rewrite Hrow. cbn. rewrite lookup_insert_eq. eexists. by repeat split.
Qed.

Lemma update_fields_frames_witness :
  let stale := ex_campaign 0 0 in
  DB.campaigns ex_over_both_db !! Campaign.id stale = Some ex_over_both
  ∧ ∃ row', DB.campaigns (campaigns_models.reset_daily_spend ex_now stale
                            ex_over_both_db).2 !! 7%N = Some row'
            ∧ Campaign.daily_spend row' = 0
            ∧ Campaign.monthly_spend row' = 150000
            ∧ Campaign.status row' = PAUSED.
Proof.
  cbv zeta. split; [reflexivity|].
  destruct (update_fields_frames ex_now MANUAL (ex_campaign 0 0) ex_over_both_db
              ex_over_both eq_refl) as (_ & (row' & H1 & H2 & H3 & H4 & _) & _).
  exists row'. split; [exact H1|]. split; [exact H2|].
  split; [exact H3|exact H4].
Defined.

(** ** Brand totals after the monthly reset *)

Lemma reset_monthly_spends_all_zero now db c :
  c ∈ DB.all_campaigns (spending_services.reset_monthly_spends now db).2 →
  Campaign.monthly_spend c = 0.
Proof.
  intros (row' & Hrow' & ->)%elem_of_all_campaigns.
  rewrite reset_monthly_spends_rows in Hrow'.
  destruct (DB.campaigns db !! Campaign.id c) as [row|]; [|done].
  cbn in Hrow'. injection Hrow' as <-. by destruct (_ && _).
Qed.

(** X28: right after reset_monthly_spends every brand's total monthly spend
    is 0.00, by Brand.get_total_monthly_spend and by
    Spend.get_monthly_spend_for_brand alike; the remaining monthly budget is
    the whole budget, and is_over_monthly_budget holds only for a brand whose
    monthly budget is not positive. *)
Theorem reset_monthly_spends_brand_totals now db brand :
  let db' := (spending_services.reset_monthly_spends now db).2 in
  brands_models.get_total_monthly_spend db' brand = 0
  ∧ spending_queries.get_monthly_spend_for_brand db' (Brand.id brand) = 0
  ∧ brands_models.get_remaining_monthly_budget db' brand = Brand.monthly_budget brand
  ∧ (brands_models.is_over_monthly_budget db' brand = true
     ↔ Brand.monthly_budget brand ≤ 0).
Proof.
  cbv zeta.
  assert (brands_models.get_total_monthly_spend
            (spending_services.reset_monthly_spends now db).2 brand = 0) as Htot.
  { apply foldl_sum_zero. intros c [_ Hc]%list_elem_of_filter.
    by apply (reset_monthly_spends_all_zero now db). }
  split; [done|]. split; [exact Htot|].
  unfold brands_models.get_remaining_monthly_budget, brands_models.is_over_monthly_budget.
  rewrite Htot. split; [lia|]. rewrite Z.geb_le. done.
Qed.

